(** * plot_helpers: vectors, lines and planes drawn on a matplotlib canvas

    A shallow embedding of [plot_helpers.py].  Python floats are IEEE
    binary64 values (Rocq's primitive floats), Python ints are [Z], numpy
    arrays are lists, and the pyplot state the functions mutate (the axes
    objects, the text printed, the colour picker's singleton) is threaded
    explicitly through a small state-and-exception monad. *)

From Stdlib Require Import ZArith QArith Floats List String Lia Bool.
From stdpp Require Import gmap strings.
Import ListNotations.

Local Open Scope Z_scope.

(** ** Python numbers *)

(** The numbers the helpers receive: Python ints and Python floats. *)
Inductive pyval : Type :=
| PyInt (z : Z)
| PyFloat (f : float).

(** The exceptions the modelled statements can raise. *)
Inductive exn : Type :=
| IndexError
| OverflowError
| ValueError
| AttributeError.

(** The result of evaluating a Python expression or call. *)
Inductive outcome (A : Type) : Type :=
| Ret (a : A)
| Raise (e : exn).
Arguments Ret {A} a.
Arguments Raise {A} e.

Definition obind {A B : Type} (o : outcome A) (k : A -> outcome B) : outcome B :=
  match o with
  | Ret a => k a
  | Raise e => Raise e
  end.

(** The binary64 value nearest to an integer (round to nearest, ties to
    even); an infinity when the integer is out of range. *)
Definition Z2float (z : Z) : float :=
  SF2Prim (binary_normalize prec emax z 0 false).

(** [float(v)]: a float is returned as it is, an int is rounded to the
    nearest binary64 value, and an int too large for a float raises
    [OverflowError]. *)
Definition py_float (v : pyval) : outcome float :=
  match v with
  | PyFloat f => Ret f
  | PyInt z =>
      let f := Z2float z in
      if is_infinity f then Raise OverflowError else Ret f
  end.

(** [l[i]] for a non-negative index. *)
Definition getitem {A : Type} (l : list A) (i : nat) : outcome A :=
  match l !! i with
  | Some a => Ret a
  | None => Raise IndexError
  end.

(** [l[i]] where [i] may be negative, as Python indexes a list. *)
Definition getitem_Z {A : Type} (l : list A) (i : Z) : outcome A :=
  let n := Z.of_nat (length l) in
  if (0 <=? i) && (i <? n) then getitem l (Z.to_nat i)
  else if (- n <=? i) && (i <? 0) then getitem l (Z.to_nat (i + n))
  else Raise IndexError.

(** *** Ordering

    Python compares ints and floats by their exact mathematical values; a
    NaN is neither below nor above anything. *)
Inductive xreal : Type :=
| NegInf
| Finite (q : Q)
| PosInf.

Definition exact_value (v : pyval) : option xreal :=
  match v with
  | PyInt z => Some (Finite (inject_Z z))
  | PyFloat f =>
      match Prim2SF f with
      | S754_nan => None
      | S754_infinity s => Some (if s then NegInf else PosInf)
      | S754_zero _ => Some (Finite (inject_Z 0))
      | S754_finite s m e =>
          Some (Finite (Qmult (inject_Z (if s then Z.neg m else Z.pos m))
                              (Qpower (inject_Z 2) e)))
      end
  end.

Definition Qlt_bool (p q : Q) : bool := negb (Qle_bool q p).

Definition xreal_lt (a b : xreal) : bool :=
  match a, b with
  | _, NegInf => false
  | NegInf, _ => true
  | PosInf, _ => false
  | Finite _, PosInf => true
  | Finite p, Finite q => Qlt_bool p q
  end.

(** [a < b] *)
Definition py_lt (a b : pyval) : bool :=
  match exact_value a, exact_value b with
  | Some x, Some y => xreal_lt x y
  | _, _ => false
  end.

(** [a > b] *)
Definition py_gt (a b : pyval) : bool := py_lt b a.

(** *** Arithmetic: int with int stays an int, anything else is computed in
    binary64 after converting the int operand. *)
Definition py_sub (a b : pyval) : outcome pyval :=
  match a, b with
  | PyInt x, PyInt y => Ret (PyInt (x - y))
  | _, _ =>
      obind (py_float a) (fun fa =>
      obind (py_float b) (fun fb => Ret (PyFloat (fa - fb)%float)))
  end.

Definition py_add (a b : pyval) : outcome pyval :=
  match a, b with
  | PyInt x, PyInt y => Ret (PyInt (x + y))
  | _, _ =>
      obind (py_float a) (fun fa =>
      obind (py_float b) (fun fb => Ret (PyFloat (fa + fb)%float)))
  end.

(** The builtins [min] and [max] over a sequence run the same loop, on
    [<] and on [>]: the first element is kept until a later one compares
    strictly before it; an empty sequence raises [ValueError]. *)
Definition extreme_from (before : pyval -> pyval -> bool) (cur : pyval) (l : list pyval)
  : pyval :=
  fold_left (fun m item => if before item m then item else m) l cur.

Definition min_from : pyval -> list pyval -> pyval := extreme_from py_lt.
Definition max_from : pyval -> list pyval -> pyval := extreme_from py_gt.

Definition py_min (l : list pyval) : outcome pyval :=
  match l with
  | [] => Raise ValueError
  | v :: rest => Ret (min_from v rest)
  end.

Definition py_max (l : list pyval) : outcome pyval :=
  match l with
  | [] => Raise ValueError
  | v :: rest => Ret (max_from v rest)
  end.

(** ** numpy arrays

    One-dimensional arrays are lists and two-dimensional arrays are lists of
    rows.  numpy's element-wise operations are the same at every dtype, so
    they are written once over the scalar operations of the dtype; the code
    runs them at binary64. *)
Class Scalar (A : Type) : Type := {
  s_add : A -> A -> A;
  s_sub : A -> A -> A;
  s_mul : A -> A -> A;
  s_div : A -> A -> A;
  s_is0 : A -> bool;      (* [x == 0] *)
  s_ofZ : Z -> A          (* an integer as a scalar *)
}.

#[export] Instance binary64 : Scalar float := {
  s_add := PrimFloat.add;
  s_sub := PrimFloat.sub;
  s_mul := PrimFloat.mul;
  s_div := PrimFloat.div;
  s_is0 := fun x => PrimFloat.eqb x 0%float;
  s_ofZ := Z2float
}.

Section Numpy.
Context {A : Type} `{Scalar A}.

(** An array and a scalar: [arr - c], [arr / c], [c * arr], [c + arr] and
    [c - arr], element by element. *)
Definition arr_sub (arr : list A) (c : A) : list A := map (fun a => s_sub a c) arr.
Definition arr_div (arr : list A) (c : A) : list A := map (fun a => s_div a c) arr.
Definition mul_arr (c : A) (arr : list A) : list A := map (fun a => s_mul c a) arr.
Definition add_arr (c : A) (arr : list A) : list A := map (fun a => s_add c a) arr.
Definition rsub_arr (c : A) (arr : list A) : list A := map (fun a => s_sub c a) arr.

(** The same on two-dimensional arrays, and [X - Y] element by element. *)
Definition mul_arr2 (c : A) (X : list (list A)) : list (list A) := map (mul_arr c) X.
Definition rsub_arr2 (c : A) (X : list (list A)) : list (list A) := map (rsub_arr c) X.
Definition arr2_div (X : list (list A)) (c : A) : list (list A) := map (fun r => arr_div r c) X.
Fixpoint zip_with (f : A -> A -> A) (l1 l2 : list A) : list A :=
  match l1, l2 with
  | a :: l1', b :: l2' => f a b :: zip_with f l1' l2'
  | _, _ => []
  end.
Fixpoint arr2_sub (X Y : list (list A)) : list (list A) :=
  match X, Y with
  | r :: X', q :: Y' => zip_with s_sub r q :: arr2_sub X' Y'
  | _, _ => []
  end.

(** [y[-1] = stop] *)
Fixpoint set_last (y : list A) (stop : A) : list A :=
  match y with
  | [] => []
  | [_] => [stop]
  | a :: y' => a :: set_last y' stop
  end.

(** [np.linspace(start, stop, num)] with the endpoint included, as numpy
    computes it: [arange(0, num) * step + start] with
    [step = (stop - start) / (num - 1)], the last sample overwritten by
    [stop]; when the step is zero the samples are
    [arange(0, num) / (num - 1) * (stop - start) + start]. *)
Definition linspace (start stop : A) (num : nat) : list A :=
  let div := s_ofZ (Z.of_nat (num - 1)) in
  let y := map (fun k => s_ofZ (Z.of_nat k)) (seq 0 num) in
  let delta := s_sub stop start in
  let y :=
    if (1 <? num)%nat then
      let step := s_div delta div in
      if s_is0 step then map (fun v => s_mul (s_div v div) delta) y
      else map (fun v => s_mul v step) y
    else map (fun v => s_mul v delta) y in
  let y := map (fun v => s_add v start) y in
  if (1 <? num)%nat then set_last y stop else y.

(** [np.meshgrid(x, y)]: [X[i][j] = x[j]] and [Y[i][j] = y[i]]. *)
Definition meshgrid (x y : list A) : list (list A) * list (list A) :=
  (map (fun _ => x) y, map (fun yi => map (fun _ => yi) x) y).

(** [plot_line], lines 68 and 80:
    [s = (np.linspace(-5, 5, 100) - point_x)/dir_vec_x] *)
Definition line_s (point_x dir_vec_x : A) : list A :=
  arr_div (arr_sub (linspace (s_ofZ (-5)) (s_ofZ 5) 100) point_x) dir_vec_x.

(** [plot_line], lines 69-71 and 81-82: [point_c + dir_vec_c*s] *)
Definition line_coord (point_c dir_vec_c : A) (s : list A) : list A :=
  add_arr point_c (mul_arr dir_vec_c s).

(** [plot_plane], line 104: [(d - normal_x*X - normal_y*Y)/normal_z] *)
Definition plane_Z (normal_x normal_y normal_z d : A) (X Y : list (list A))
  : list (list A) :=
  arr2_div (arr2_sub (rsub_arr2 d (mul_arr2 normal_x X)) (mul_arr2 normal_y Y)) normal_z.

(** [plot_plane], line 113: [(d - normal_x*x)/normal_y] *)
Definition plane_y (normal_x normal_y d : A) (x : list A) : list A :=
  arr_div (rsub_arr d (mul_arr normal_x x)) normal_y.
End Numpy.

(** ** The canvas *)

(** The keyword arguments both arrow classes pass on to [FancyArrowPatch]. *)
Record arrow_kw : Type := {
  mutation_scale : Z;
  lw : Z;
  arrowstyle : string;
  arrow_color : string
}.

(** What ends up among an axes' children: the two arrow classes of this
    module with the endpoints they store ([_verts3d], [_verts2d]), the
    lines [ax.plot] draws and the surface [ax.plot_surface] draws. *)
Inductive artist : Type :=
| Arrow3D (xs ys zs : pyval * pyval) (kw : arrow_kw)
| Arrow2D (xs ys : pyval * pyval) (kw : arrow_kw)
| Line2D (x y : list float) (color : option string)
| Line3D (x y z : list float) (color : option string)
| Surface (X Y Z : list (list float)) (color : string) (alpha : float).

Record Axes : Type := {
  children : list artist;
  aspect : option string;                 (* [None]: [set_aspect] never called *)
  xlim : option (pyval * pyval);          (* [None]: [set_xlim] never called *)
  ylim : option (pyval * pyval);
  zlim : option (pyval * pyval)
}.

Definition new_axes : Axes :=
  {| children := []; aspect := None; xlim := None; ylim := None; zlim := None |}.

(** The state the module's functions read and write: the axes objects by
    identity, which of them pyplot hands out as the current one, the text
    printed so far, and the class attribute [PlaneColorPicker.instance]
    ([None], or the inner object's [color_index]). *)
Record World : Type := {
  axes_heap : gmap nat Axes;
  current : nat;
  stdout : list string;
  instance : option Z
}.

(** An axes object that was never touched is a fresh, empty one. *)
Definition axes_of (w : World) (ax : nat) : Axes :=
  default new_axes (axes_heap w !! ax).

Definition put_axes (ax : nat) (a : Axes) (w : World) : World :=
  {| axes_heap := <[ax := a]> (axes_heap w); current := current w;
     stdout := stdout w; instance := instance w |}.

(** ** Statements: state and exceptions *)
Definition M (A : Type) : Type := World -> outcome A * World.

#[export] Instance M_ret : MRet M := fun A a w => (Ret a, w).
#[export] Instance M_bind : MBind M := fun A B k m w =>
  match m w with
  | (Ret a, w') => k a w'
  | (Raise e, w') => (Raise e, w')
  end.

Definition lift {A : Type} (o : outcome A) : M A := fun w => (o, w).

(** [plt.gca()] and [plt.gca(projection='3d')]: pyplot's current axes,
    taken to be of the projection asked for. *)
Definition gca : M nat := fun w => (Ret (current w), w).

Definition update_axes (ax : nat) (f : Axes -> Axes) : M unit :=
  fun w => (Ret tt, put_axes ax (f (axes_of w ax)) w).

Definition with_aspect (s : string) (a : Axes) : Axes :=
  {| children := children a; aspect := Some s;
     xlim := xlim a; ylim := ylim a; zlim := zlim a |}.

Definition set_aspect (ax : nat) (s : string) : M unit := update_axes ax (with_aspect s).

(** [ax.add_artist], [ax.plot] and [ax.plot_surface] all append one child. *)
Definition add_child (c : artist) (a : Axes) : Axes :=
  {| children := children a ++ [c]; aspect := aspect a;
     xlim := xlim a; ylim := ylim a; zlim := zlim a |}.

Definition add_artist (ax : nat) (c : artist) : M unit := update_axes ax (add_child c).

Definition get_children (ax : nat) : M (list artist) :=
  fun w => (Ret (children (axes_of w ax)), w).

Definition set_xlim (ax : nat) (lo hi : pyval) : M unit :=
  update_axes ax (fun a =>
    {| children := children a; aspect := aspect a;
       xlim := Some (lo, hi); ylim := ylim a; zlim := zlim a |}).

Definition set_ylim (ax : nat) (lo hi : pyval) : M unit :=
  update_axes ax (fun a =>
    {| children := children a; aspect := aspect a;
       xlim := xlim a; ylim := Some (lo, hi); zlim := zlim a |}).

Definition set_zlim (ax : nat) (lo hi : pyval) : M unit :=
  update_axes ax (fun a =>
    {| children := children a; aspect := aspect a;
       xlim := xlim a; ylim := ylim a; zlim := Some (lo, hi) |}).

Definition print (s : string) : M unit :=
  fun w => (Ret tt, {| axes_heap := axes_heap w; current := current w;
                       stdout := stdout w ++ [s]; instance := instance w |}).

(** [float(l[i])] *)
Definition float_item (l : list pyval) (i : nat) : M float :=
  lift (obind (getitem l i) py_float).

(** ** The plotting functions *)

Definition arrow_kwargs (color : string) : arrow_kw :=
  {| mutation_scale := 20; lw := 1; arrowstyle := "-|>"; arrow_color := color |}.

(** The default origin [at=[0,0,0]] and default colour ['k'] of [plot_vec]. *)
Definition default_at : list pyval := [PyInt 0; PyInt 0; PyInt 0].

Definition plot_vec (vec : list pyval) (at_ : list pyval) (color : string) : M unit :=
  if (length vec =? 3)%nat then
    ax ← gca;
    set_aspect ax "equal";;
    vec_x ← float_item vec 0;
    vec_y ← float_item vec 1;
    vec_z ← float_item vec 2;
    at0 ← lift (getitem at_ 0);
    at1 ← lift (getitem at_ 1);
    at2 ← lift (getitem at_ 2);
    add_artist ax (Arrow3D (at0, PyFloat vec_x) (at1, PyFloat vec_y) (at2, PyFloat vec_z)
                           (arrow_kwargs color))
  else if (length vec =? 2)%nat then
    ax ← gca;
    set_aspect ax "equal";;
    vec_x ← float_item vec 0;
    vec_y ← float_item vec 1;
    at0 ← lift (getitem at_ 0);
    at1 ← lift (getitem at_ 1);
    add_artist ax (Arrow2D (at0, PyFloat vec_x) (at1, PyFloat vec_y) (arrow_kwargs color))
  else
    print "Error: plot_vec supports only 2D and 3D vectors.".

(** The palette of [plot_vecs]. *)
Definition VEC_COLORS : list string := ["k"; "b"; "g"; "r"; "c"; "m"].

(** [for i, vec in enumerate(args): plot_vec(vec, color=COLORS[i%len(COLORS)])] *)
Fixpoint plot_vecs_from (i : nat) (args : list (list pyval)) : M unit :=
  match args with
  | [] => mret tt
  | vec :: rest =>
      color ← lift (getitem VEC_COLORS (i mod length VEC_COLORS));
      plot_vec vec default_at color;;
      plot_vecs_from (S i) rest
  end.

Definition plot_vecs (args : list (list pyval)) : M unit := plot_vecs_from 0 args.

Definition plot_line (dir_vec point : list pyval) (color : option string) : M unit :=
  (if (length dir_vec =? 3)%nat then
     ax ← gca;
     set_aspect ax "equal";;
     dir_vec_x ← float_item dir_vec 0;
     dir_vec_y ← float_item dir_vec 1;
     dir_vec_z ← float_item dir_vec 2;
     point_x ← float_item point 0;
     point_y ← float_item point 1;
     point_z ← float_item point 2;
     let s := line_s point_x dir_vec_x in
     let x := line_coord point_x dir_vec_x s in
     let y := line_coord point_y dir_vec_y s in
     let z := line_coord point_z dir_vec_z s in
     add_artist ax (Line3D x y z color)
   else mret tt);;
  (if (length dir_vec =? 2)%nat then
     ax ← gca;
     set_aspect ax "equal";;
     dir_vec_x ← float_item dir_vec 0;
     dir_vec_y ← float_item dir_vec 1;
     point_x ← float_item point 0;
     point_y ← float_item point 1;
     let s := line_s point_x dir_vec_x in
     let x := line_coord point_x dir_vec_x s in
     let y := line_coord point_y dir_vec_y s in
     add_artist ax (Line2D x y color)
   else mret tt).

(** *** The colour picker of [plot_plane] *)

(** [PlaneColorPicker.COLORS] *)
Definition COLORS : list string := ["b"; "g"; "r"; "c"; "m"; "k"].

Definition set_instance (i : option Z) (w : World) : World :=
  {| axes_heap := axes_heap w; current := current w;
     stdout := stdout w; instance := i |}.

(** [PlaneColorPicker(start)]: the inner object is created only while the
    class attribute [instance] is still [None]. *)
Definition PlaneColorPicker (start : Z) : M unit :=
  fun w =>
    match instance w with
    | None => (Ret tt, set_instance (Some start) w)
    | Some _ => (Ret tt, w)
    end.

(** [get_color]: the index is advanced before [COLORS[cur]] is read. *)
Definition get_color : M string :=
  fun w =>
    match instance w with
    | None => (Raise AttributeError, w)
    | Some cur =>
        (getitem_Z COLORS cur,
         set_instance (Some ((cur + 1) mod Z.of_nat (length COLORS))) w)
    end.

(** The default [xrange=[-5,5]] and [yrange=[-5,5]] of [plot_plane]. *)
Definition default_range : list pyval := [PyInt (-5); PyInt 5].

(** The literal [0.2] of [alpha=0.2]: the binary64 value nearest to 2/10. *)
Definition alpha_0_2 : float := 0x1.999999999999ap-3%float.

(** [np.linspace(r[0], r[1], 100)] on a range given as a Python list. *)
Definition linspace_range (r : list pyval) : M (list float) :=
  lo ← lift (getitem r 0);
  hi ← lift (getitem r 1);
  start ← lift (py_float lo);
  stop ← lift (py_float hi);
  mret (linspace start stop 100).

(** The two [if]s of [plot_plane] follow one another; the names [d] and
    [color] rebound inside the first are read again only inside it, since
    the second runs for another length. *)
Definition plot_plane (normal : list pyval) (d : pyval) (color : option string)
    (xrange yrange : list pyval) : M unit :=
  (if (length normal =? 3)%nat then
     ax ← gca;
     set_aspect ax "equal";;
     normal_x ← float_item normal 0;
     normal_y ← float_item normal 1;
     normal_z ← float_item normal 2;
     d ← lift (py_float d);
     x ← linspace_range xrange;
     y ← linspace_range yrange;
     let '(X, Y) := meshgrid x y in
     color ← match color with
             | None => PlaneColorPicker 0;; get_color
             | Some c => mret c
             end;
     let Z := plane_Z normal_x normal_y normal_z d X Y in
     add_artist ax (Surface X Y Z color alpha_0_2)
   else mret tt);;
  (if (length normal =? 2)%nat then
     ax ← gca;
     set_aspect ax "equal";;
     normal_x ← float_item normal 0;
     normal_y ← float_item normal 1;
     d ← lift (py_float d);
     x ← linspace_range xrange;
     let y := plane_y normal_x normal_y d x in
     add_artist ax (Line2D x y color)
   else mret tt).

(** *** Autoscaling *)

(** [type(ch) == Arrow3D], giving the arrow's [_verts3d]. *)
Definition as_Arrow3D (ch : artist)
  : option ((pyval * pyval) * (pyval * pyval) * (pyval * pyval)) :=
  match ch with
  | Arrow3D xs ys zs _ => Some (xs, ys, zs)
  | _ => None
  end.

(** [type(ch) == Arrow2D], giving the arrow's [_verts2d]. *)
Definition as_Arrow2D (ch : artist) : option ((pyval * pyval) * (pyval * pyval)) :=
  match ch with
  | Arrow2D xs ys _ => Some (xs, ys)
  | _ => None
  end.

Definition nonempty {A : Type} (l : list A) : bool :=
  match l with
  | [] => false
  | _ :: _ => true
  end.

(** The two [append]s per arrow and coordinate of the collecting loops. *)
Definition both {A : Type} (f : A -> pyval * pyval) (arrows : list A) : list pyval :=
  flat_map (fun arrow => [fst (f arrow); snd (f arrow)]) arrows.

Definition autoscale_arrows (ax : option nat) : M (option Z) :=
  ax ← match ax with
       | None => gca
       | Some a => mret a
       end;
  ch3 ← get_children ax;
  let arrow3Ds := omap as_Arrow3D ch3 in
  ch2 ← get_children ax;
  let arrow2Ds := omap as_Arrow2D ch2 in
  if nonempty arrow2Ds && nonempty arrow3Ds then
    print "Mixing Arrow2D and Arrow3D not supported";;
    mret (Some (-1))
  else
    (if nonempty arrow3Ds then
       let all_xs := both (fun v => fst (fst v)) arrow3Ds in
       let all_ys := both (fun v => snd (fst v)) arrow3Ds in
       let all_zs := both (fun v => snd v) arrow3Ds in
       min_x ← lift (py_min all_xs);
       max_x ← lift (py_max all_xs);
       min_y ← lift (py_min all_ys);
       max_y ← lift (py_max all_ys);
       min_z ← lift (py_min all_zs);
       max_z ← lift (py_max all_zs);
       ext_x ← lift (py_sub max_x min_x);
       ext_y ← lift (py_sub max_y min_y);
       ext_z ← lift (py_sub max_z min_z);
       cube_side ← lift (py_max [ext_x; ext_y; ext_z]);
       hi_x ← lift (py_add min_x cube_side);
       set_xlim ax min_x hi_x;;
       hi_y ← lift (py_add min_y cube_side);
       set_ylim ax min_y hi_y;;
       hi_z ← lift (py_add min_z cube_side);
       set_zlim ax min_z hi_z
     else mret tt);;
    (if nonempty arrow2Ds then
       let all_xs := both fst arrow2Ds in
       let all_ys := both snd arrow2Ds in
       min_x ← lift (py_min all_xs);
       max_x ← lift (py_max all_xs);
       min_y ← lift (py_min all_ys);
       max_y ← lift (py_max all_ys);
       ext_x ← lift (py_sub max_x min_x);
       ext_y ← lift (py_sub max_y min_y);
       square_side ← lift (py_max [ext_x; ext_y]);
       hi_x ← lift (py_add min_x square_side);
       set_xlim ax min_x hi_x;;
       hi_y ← lift (py_add min_y square_side);
       set_ylim ax min_y hi_y
     else mret tt);;
    mret None.

(** A world in which nothing was drawn or printed and no colour picked. *)
Definition empty_world : World :=
  {| axes_heap := ∅; current := 0%nat; stdout := []; instance := None |}.

(** ** Observations on artists and worlds *)

(** The start and end point an arrow stores. *)
Definition arrow_start (c : artist) : list pyval :=
  match c with
  | Arrow3D xs ys zs _ => [fst xs; fst ys; fst zs]
  | Arrow2D xs ys _ => [fst xs; fst ys]
  | _ => []
  end.

Definition arrow_end (c : artist) : list pyval :=
  match c with
  | Arrow3D xs ys zs _ => [snd xs; snd ys; snd zs]
  | Arrow2D xs ys _ => [snd xs; snd ys]
  | _ => []
  end.

Definition is_arrow (c : artist) : bool :=
  match c with
  | Arrow3D _ _ _ _ | Arrow2D _ _ _ => true
  | _ => false
  end.

Definition color_of_arrow (c : artist) : option string :=
  match c with
  | Arrow3D _ _ _ kw | Arrow2D _ _ kw => Some (arrow_color kw)
  | _ => None
  end.

(** matplotlib's one-letter colour codes. *)
Definition color_name (c : string) : string :=
  if String.eqb c "b" then "blue"
  else if String.eqb c "g" then "green"
  else if String.eqb c "r" then "red"
  else if String.eqb c "c" then "cyan"
  else if String.eqb c "m" then "magenta"
  else if String.eqb c "y" then "yellow"
  else if String.eqb c "k" then "black"
  else if String.eqb c "w" then "white"
  else c.

(** A value [float()] accepts. *)
Definition floatable (v : pyval) : Prop := exists f, py_float v = Ret f.

(** The current axes of a world. *)
Definition cur_axes (w : World) : Axes := axes_of w (current w).

(** A vector [plot_vec] draws: length 2 or 3, components [float()] accepts. *)
Definition plottable (vec : list pyval) : Prop :=
  (length vec = 2%nat \/ length vec = 3%nat) /\ Forall floatable vec.

(** The arrow drawn for a vector ends at the vector's components as floats. *)
Definition arrow_for (vec : list pyval) (arrow : artist) : Prop :=
  is_arrow arrow = true /\
  Forall2 (fun v e => exists f, py_float v = Ret f /\ e = PyFloat f) vec (arrow_end arrow).

(** The axes [autoscale_arrows(ax)] works on: the one given, or the current
    one when [ax] is [None]. *)
Definition target (ax : option nat) (w : World) : nat := default (current w) ax.

(** A world whose current axes holds the given children. *)
Definition world_with (chs : list artist) : World :=
  put_axes 0 {| children := chs; aspect := None; xlim := None; ylim := None; zlim := None |}
    empty_world.

(** Seven vectors, two- and three-dimensional, drawn by one [plot_vecs]. *)
Definition seven_vectors : list (list pyval) :=
  [[PyInt 1; PyInt 0]; [PyInt 0; PyInt 1]; [PyFloat 1; PyFloat 1]; [PyInt 1; PyInt 2; PyInt 3];
   [PyInt 2; PyInt 1]; [PyInt (-1); PyInt 1]; [PyInt 3; PyInt 3]].

(** The index the next [plot_plane] without a colour reads: the shared
    one, or 0 when the singleton is yet to be created. *)
Definition picker_index (w : World) : Z := default 0 (instance w).

(** The palette entry at an index, counted modulo the palette's length. *)
Definition palette_at (i : Z) : string := default "" (COLORS !! Z.to_nat (i mod 6)).

(** The picker's index can be used to read the palette. *)
Definition picker_ok (w : World) : Prop :=
  match instance w with
  | None => True
  | Some i => -6 <= i < 6
  end.

Definition surface_color (c : artist) : option string :=
  match c with
  | Surface _ _ _ color _ => Some color
  | _ => None
  end.

(** The colour [plot_plane] draws with: the one given, else the picker's. *)
Definition plane_color (color : option string) (w : World) : string :=
  match color with
  | Some c => c
  | None => palette_at (picker_index w)
  end.

(** A range [np.linspace] can read: two leading entries [float()] accepts. *)
Definition range_ok (r : list pyval) : Prop :=
  exists lo hi rest, r = lo :: hi :: rest /\ floatable lo /\ floatable hi.

(** Arguments of a three-dimensional [plot_plane] that raise nothing. *)
Definition plane3_args (normal : list pyval) (d : pyval) (xrange yrange : list pyval) : Prop :=
  length normal = 3%nat /\ Forall floatable normal /\ floatable d /\
  range_ok xrange /\ range_ok yrange.

(** [m] is an element of [l] that no element of [l] comes strictly before. *)
Definition extreme (before : pyval -> pyval -> bool) (m : pyval) (l : list pyval) : Prop :=
  m ∈ l /\ forall v, v ∈ l -> before v m = false.

(** No element lies strictly below the minimum, none strictly above the
    maximum, and both are elements of the sequence. *)
Definition least : pyval -> list pyval -> Prop := extreme py_lt.
Definition greatest : pyval -> list pyval -> Prop := extreme py_gt.

(** The endpoints [autoscale_arrows] collects from an axes' [Arrow3D]
    children, per coordinate. *)
Definition arrows3D (a : Axes) := omap as_Arrow3D (children a).
Definition arrows2D (a : Axes) := omap as_Arrow2D (children a).
Definition all_xs3 (a : Axes) : list pyval := both (fun v => fst (fst v)) (arrows3D a).
Definition all_ys3 (a : Axes) : list pyval := both (fun v => snd (fst v)) (arrows3D a).
Definition all_zs3 (a : Axes) : list pyval := both (fun v => snd v) (arrows3D a).

(** No int among the coordinates, and no difference of two of them, is too
    large to be converted to a float. *)
Definition ints_fit (coords : list pyval) : Prop :=
  Forall floatable coords /\
  forall z z', PyInt z ∈ coords -> PyInt z' ∈ coords -> floatable (PyInt (z - z')).

(** The axes with its three limits set. *)
Definition with_limits (a : Axes) (lx ly lz : pyval * pyval) : Axes :=
  {| children := children a; aspect := aspect a;
     xlim := Some lx; ylim := Some ly; zlim := Some lz |}.

(** ** Samples, bounding boxes and Python arithmetic, stated directly *)

(** The [k]-th of the 100 samples of [np.linspace(start, stop, 100)], for
    [k] below 99 (the hundredth sample is [stop] itself): [k * step + start]
    with [step = (stop - start) / 99], every operation rounded to binary64;
    when the step comes out as zero, [k / 99 * (stop - start) + start]. *)
Definition linspace_sample (start stop : float) (k : nat) : float :=
  let step := ((stop - start) / 99)%float in
  if (step =? 0)%float then (Z2float (Z.of_nat k) / 99 * (stop - start) + start)%float
  else (Z2float (Z.of_nat k) * step + start)%float.

(** Every sample lies strictly below the next one. *)
Fixpoint ascending (l : list float) : bool :=
  match l with
  | a :: l' =>
      match l' with
      | b :: _ => (a <? b)%float && ascending l'
      | [] => true
      end
  | [] => true
  end.

(** [v] is the [i]-th coordinate (x, y, z for 0, 1, 2) of the start or of
    the end of an arrow among the children [chs]. *)
Definition endpoint_coord (i : nat) (chs : list artist) (v : pyval) : Prop :=
  exists c, c ∈ chs /\ (arrow_start c !! i = Some v \/ arrow_end c !! i = Some v).

(** The bounding box along one coordinate: [lo] and [hi] are [i]-th
    coordinates of arrow endpoints, and no such coordinate lies below [lo]
    or above [hi]. *)
Definition bounds (i : nat) (chs : list artist) (lo hi : pyval) : Prop :=
  endpoint_coord i chs lo /\ endpoint_coord i chs hi /\
  forall v, endpoint_coord i chs v -> py_lt v lo = false /\ py_lt hi v = false.

(** [c] is what Python gives for [a - b], respectively [a + b], when
    nothing is raised: the exact difference or sum of two ints, and otherwise
    the binary64 difference or sum of the two operands as floats. *)
Definition python_sub (a b c : pyval) : Prop :=
  match a, b with
  | PyInt x, PyInt y => c = PyInt (x - y)
  | _, _ => exists fa fb, py_float a = Ret fa /\ py_float b = Ret fb /\
                          c = PyFloat (fa - fb)%float
  end.

Definition python_add (a b c : pyval) : Prop :=
  match a, b with
  | PyInt x, PyInt y => c = PyInt (x + y)
  | _, _ => exists fa fb, py_float a = Ret fa /\ py_float b = Ret fb /\
                          c = PyFloat (fa + fb)%float
  end.

(** No int among the coordinates of the arrows' endpoints, and no
    difference of two ints of one coordinate, is too large to be converted
    to a float. *)
Definition coords_fit (chs : list artist) : Prop :=
  forall i,
    (forall v, endpoint_coord i chs v -> floatable v) /\
    (forall z z', endpoint_coord i chs (PyInt z) -> endpoint_coord i chs (PyInt z') ->
                  floatable (PyInt (z - z'))).

(** A pair of limits matplotlib accepts: [set_xlim] and its like refuse a
    NaN and an infinity. *)
Definition finite_number (v : pyval) : Prop :=
  match v with
  | PyInt _ => True
  | PyFloat f => is_finite f = true
  end.

Definition finite_limits (l : pyval * pyval) : Prop :=
  finite_number (fst l) /\ finite_number (snd l).

(** An axes with the arrows of [plot_vec([2, 4, 6], at=[1, 2, 3])] and
    [plot_vec([3, 1, 4], at=[-1, 3, 5], color='b')], and a line between
    them. *)
Definition two_arrows3D_world : World :=
  world_with [Arrow3D (PyInt 1, PyFloat 2) (PyInt 2, PyFloat 4) (PyInt 3, PyFloat 6)
                      (arrow_kwargs "k");
              Line3D [0%float] [0%float] [9%float] None;
              Arrow3D (PyInt (-1), PyFloat 3) (PyInt 3, PyFloat 1) (PyInt 5, PyFloat 4)
                      (arrow_kwargs "b")].

(** ** Further observations *)

(** The endpoints [autoscale_arrows] collects from an axes' [Arrow2D]
    children, per coordinate. *)
Definition all_xs2 (a : Axes) : list pyval := both fst (arrows2D a).
Definition all_ys2 (a : Axes) : list pyval := both snd (arrows2D a).

(** The axes with its x and y limits set, the z limit as it was. *)
Definition with_limits2 (a : Axes) (lx ly : pyval * pyval) : Axes :=
  {| children := children a; aspect := aspect a;
     xlim := Some lx; ylim := Some ly; zlim := zlim a |}.

(** [n] successive calls of [get_color], collecting the colours returned. *)
Fixpoint get_colors (n : nat) : M (list string) :=
  match n with
  | O => mret []
  | S n' =>
      c ← get_color;
      cs ← get_colors n';
      mret (c :: cs)
  end.

(** What holds of the outcome and the final world of a statement run from
    a given world. *)
Definition post {A : Type} (m : M A) (w : World) (Q : outcome A -> World -> Prop) : Prop :=
  Q (fst (m w)) (snd (m w)).

(** A vector whose length [plot_vec] draws. *)
Definition supported (vec : list pyval) : bool :=
  (length vec =? 2)%nat || (length vec =? 3)%nat.

(** The colours [plot_vecs] hands to the vectors it can draw, each taken at
    the vector's own position in the argument list, counted from [i]. *)
Fixpoint positional_colors (i : nat) (args : list (list pyval)) : list (option string) :=
  match args with
  | [] => []
  | vec :: rest =>
      (if supported vec then [VEC_COLORS !! (i mod 6)%nat] else [])
      ++ positional_colors (S i) rest
  end.

(** The message [plot_vec] prints for a vector it cannot draw. *)
Definition plot_vec_error : string := "Error: plot_vec supports only 2D and 3D vectors.".

(** Two worlds that show the same drawing: the same children and aspect on
    every axes, the same current axes and the same picker state.  Limits
    and printed text may differ. *)
Definition same_drawing (w w' : World) : Prop :=
  (forall ax, children (axes_of w' ax) = children (axes_of w ax) /\
              aspect (axes_of w' ax) = aspect (axes_of w ax)) /\
  current w' = current w /\
  instance w' = instance w.

(** A function on axes that only sets limits. *)
Definition sets_limits_only (f : Axes -> Axes) : Prop :=
  forall a, children (f a) = children a /\ aspect (f a) = aspect a.

(** The axes after [plot_vec([3, 1])] and [plot_vec([1, 2])] on an empty
    canvas, the second arrow drawn in blue. *)
Definition two_arrows_world : World :=
  world_with [Arrow2D (PyInt 0, PyFloat 3) (PyInt 0, PyFloat 1) (arrow_kwargs "k");
              Arrow2D (PyInt 0, PyFloat 1) (PyInt 0, PyFloat 2) (arrow_kwargs "b")].

(** From [w] to [w'] nothing changed but, possibly, the limits of the axes
    [t]: the drawing is the same, every other axes is as it was, and
    nothing was printed. *)
Definition limits_only (t : nat) (w w' : World) : Prop :=
  same_drawing w w' /\
  (forall ax, ax <> t -> axes_of w' ax = axes_of w ax) /\
  stdout w' = stdout w.

(** The message [autoscale_arrows] prints for mixed arrows. *)
Definition mixing_error : string := "Mixing Arrow2D and Arrow3D not supported".

(** What holds of the outcomes and final worlds of two statements, one run
    from [w] and one from [v]. *)
Definition post2 {A : Type} (m m' : M A) (w v : World)
    (Q : outcome A -> World -> outcome A -> World -> Prop) : Prop :=
  Q (fst (m w)) (snd (m w)) (fst (m' v)) (snd (m' v)).

(** A value that two runs either brought to the same, or both left as it
    was ([x0] and [y0]). *)
Definition same_or_kept {A : Type} (x0 y0 x y : A) : Prop :=
  x = y \/ (x = x0 /\ y = y0).

(** Two runs, from [w] to [w'] and from [v] to [v']: each limit of the
    axes [t] was set to the same value by both, or left alone by both. *)
Definition limits_agree (t : nat) (w v w' v' : World) : Prop :=
  same_or_kept (xlim (axes_of w t)) (xlim (axes_of v t))
               (xlim (axes_of w' t)) (xlim (axes_of v' t)) /\
  same_or_kept (ylim (axes_of w t)) (ylim (axes_of v t))
               (ylim (axes_of w' t)) (ylim (axes_of v' t)) /\
  same_or_kept (zlim (axes_of w t)) (zlim (axes_of v t))
               (zlim (axes_of w' t)) (zlim (axes_of v' t)).

(** A function on axes that sets each limit to a value of its own, or
    keeps it. *)
Definition sets_same_limits (f : Axes -> Axes) : Prop :=
  forall a b,
    same_or_kept (xlim a) (xlim b) (xlim (f a)) (xlim (f b)) /\
    same_or_kept (ylim a) (ylim b) (ylim (f a)) (ylim (f b)) /\
    same_or_kept (zlim a) (zlim b) (zlim (f a)) (zlim (f b)).

(** The two arrows of [two_arrows_world] in other colours, on an axes with
    equal aspect that also holds a line. *)
Definition two_arrows_and_line_world : World :=
  put_axes 0
    {| children := [Arrow2D (PyInt 0, PyFloat 3) (PyInt 0, PyFloat 1) (arrow_kwargs "r");
                    Line2D [(-5)%float; 5%float] [0%float; 0%float] None;
                    Arrow2D (PyInt 0, PyFloat 1) (PyInt 0, PyFloat 2) (arrow_kwargs "g")];
       aspect := Some "equal"; xlim := None; ylim := None; zlim := None |}
    empty_world.

(** An axes with the arrows of [plot_vec([4, 3], at=[1, 2])] and
    [plot_vec([0, 5], at=[-2, 1], color='b')], and a line between them. *)
Definition two_arrows2D_world : World :=
  world_with [Arrow2D (PyInt 1, PyFloat 4) (PyInt 2, PyFloat 3) (arrow_kwargs "k");
              Line2D [0%float] [9%float] None;
              Arrow2D (PyInt (-2), PyFloat 0) (PyInt 1, PyFloat 5) (arrow_kwargs "b")].

(** From [w] to [w'] every axes holds the same arrows, in the same order,
    and nothing was printed. *)
Definition arrows_unchanged (w w' : World) : Prop :=
  stdout w' = stdout w /\
  forall ax,
    List.filter is_arrow (children (axes_of w' ax))
    = List.filter is_arrow (children (axes_of w ax)).

(** A function on axes that adds, removes and changes no arrow. *)
Definition keeps_the_arrows (f : Axes -> Axes) : Prop :=
  forall a, List.filter is_arrow (children (f a)) = List.filter is_arrow (children a).

(** * Results *)

(** ** The number model, by example *)

Example py_float_int : py_float (PyInt 6) = Ret 6%float.
Proof. vm_compute. reflexivity. Qed.

Example py_float_too_large : py_float (PyInt (2 ^ 1024)) = Raise OverflowError.
Proof. vm_compute. reflexivity. Qed.

Example py_lt_mixed :
  py_lt (PyInt 0) (PyFloat 2) = true /\ py_lt (PyFloat 2) (PyInt 0) = false /\
  py_lt (PyFloat nan) (PyInt 0) = false /\ py_lt (PyInt 0) (PyFloat nan) = false /\
  py_lt (PyFloat 0.5) (PyInt 1) = true /\ py_lt (PyInt (2 ^ 53 + 1)) (PyFloat 9007199254740992) = false.
Proof. vm_compute. repeat split; reflexivity. Qed.

(** ** Basic facts *)

Lemma axes_of_put_eq (w : World) (ax : nat) (a : Axes) :
  axes_of (put_axes ax a w) ax = a.
Proof. unfold axes_of, put_axes; simpl. by rewrite lookup_insert_eq. Qed.

Lemma axes_of_put_ne (w : World) (ax ax' : nat) (a : Axes) :
  ax <> ax' -> axes_of (put_axes ax a w) ax' = axes_of w ax'.
Proof. intros Hne. unfold axes_of, put_axes; simpl. by rewrite lookup_insert_ne. Qed.

Lemma put_put (w : World) (ax : nat) (a b : Axes) :
  put_axes ax b (put_axes ax a w) = put_axes ax b w.
Proof. unfold put_axes; simpl. by rewrite insert_insert_eq. Qed.

Lemma bind_Ret {A B : Type} (m : M A) (k : A -> M B) (w w' : World) (a : A) :
  m w = (Ret a, w') -> (m ≫= k) w = k a w'.
Proof. intros E. unfold mbind, M_bind. by rewrite E. Qed.

Lemma bind_Raise {A B : Type} (m : M A) (k : A -> M B) (w w' : World) (e : exn) :
  m w = (Raise e, w') -> (m ≫= k) w = (Raise e, w').
Proof. intros E. unfold mbind, M_bind. by rewrite E. Qed.

Lemma float_item_Ret (l : list pyval) (i : nat) (v : pyval) (f : float) (w : World) :
  l !! i = Some v -> py_float v = Ret f -> float_item l i w = (Ret f, w).
Proof. intros E F. unfold float_item, lift, getitem. rewrite E. simpl. by rewrite F. Qed.

(** Unfolds the statements of the monad down to the world they act on. *)
Ltac run_M :=
  unfold float_item;
  unfold mbind, M_bind, mret, M_ret, gca, set_aspect, add_artist, update_axes,
    get_children, set_xlim, set_ylim, set_zlim, print, lift, getitem;
  cbn [lookup list_lookup obind fst snd].

(** ** plot_vec *)

(** C9: a vector whose length is neither 2 nor 3 makes [plot_vec] print its
    error message and return normally; no axes gains a child or changes in
    any other way, and the colour picker is untouched. *)
Theorem plot_vec_unsupported_length (vec at_ : list pyval) (color : string) (w : World) :
  length vec <> 2%nat -> length vec <> 3%nat ->
  exists w',
    plot_vec vec at_ color w = (Ret tt, w') /\
    stdout w' = stdout w ++ ["Error: plot_vec supports only 2D and 3D vectors."] /\
    axes_heap w' = axes_heap w /\
    (forall ax, children (axes_of w' ax) = children (axes_of w ax)) /\
    current w' = current w /\
    instance w' = instance w.
Proof.
  intros H2 H3. unfold plot_vec.
  destruct (Nat.eqb_spec (length vec) 3) as [E|_]; [contradiction|].
  destruct (Nat.eqb_spec (length vec) 2) as [E|_]; [contradiction|].
  eexists. split; [reflexivity|]. simpl. repeat split; reflexivity.
Qed.

Lemma plot_vec_unsupported_length_witness :
  exists w',
    plot_vec [PyInt 1; PyInt 2; PyInt 3; PyInt 4] default_at "k" empty_world = (Ret tt, w') /\
    stdout w' = stdout empty_world ++ ["Error: plot_vec supports only 2D and 3D vectors."] /\
    axes_heap w' = axes_heap empty_world /\
    (forall ax, children (axes_of w' ax) = children (axes_of empty_world ax)) /\
    current w' = current empty_world /\
    instance w' = instance empty_world.
Proof.
  apply (plot_vec_unsupported_length [PyInt 1; PyInt 2; PyInt 3; PyInt 4]); simpl; lia.
Defined.

(** The two drawing branches of [plot_vec], run to their final world;
    shared by the results on [plot_vec] and [plot_vecs]. *)
Lemma plot_vec_2d_run (v0 v1 a0 a1 : pyval) (rest : list pyval) (color : string)
    (f0 f1 : float) (w : World) :
  py_float v0 = Ret f0 -> py_float v1 = Ret f1 ->
  plot_vec [v0; v1] (a0 :: a1 :: rest) color w
  = (Ret tt,
     put_axes (current w)
       (add_child (Arrow2D (a0, PyFloat f0) (a1, PyFloat f1) (arrow_kwargs color))
          (with_aspect "equal" (cur_axes w))) w).
Proof.
  intros F0 F1. unfold plot_vec. cbn [length Nat.eqb]. run_M.
  rewrite F0, F1. cbn [obind].
  repeat (rewrite axes_of_put_eq || rewrite put_put). reflexivity.
Qed.

Lemma plot_vec_3d_run (v0 v1 v2 a0 a1 a2 : pyval) (rest : list pyval) (color : string)
    (f0 f1 f2 : float) (w : World) :
  py_float v0 = Ret f0 -> py_float v1 = Ret f1 -> py_float v2 = Ret f2 ->
  plot_vec [v0; v1; v2] (a0 :: a1 :: a2 :: rest) color w
  = (Ret tt,
     put_axes (current w)
       (add_child (Arrow3D (a0, PyFloat f0) (a1, PyFloat f1) (a2, PyFloat f2)
                           (arrow_kwargs color))
          (with_aspect "equal" (cur_axes w))) w).
Proof.
  intros F0 F1 F2. unfold plot_vec. cbn [length Nat.eqb]. run_M.
  rewrite F0, F1, F2. cbn [obind].
  repeat (rewrite axes_of_put_eq || rewrite put_put). reflexivity.
Qed.

(** What [plot_vecs] needs to know of one [plot_vec]. *)
Lemma plot_vec_draws (vec : list pyval) (color : string) (fs : list float) (w : World) :
  length vec = 2%nat \/ length vec = 3%nat ->
  Forall2 (fun v f => py_float v = Ret f) vec fs ->
  exists arrow w',
    plot_vec vec default_at color w = (Ret tt, w') /\
    children (cur_axes w') = children (cur_axes w) ++ [arrow] /\
    is_arrow arrow = true /\
    arrow_end arrow = map PyFloat fs /\
    color_of_arrow arrow = Some color /\
    current w' = current w /\
    stdout w' = stdout w /\
    instance w' = instance w.
Proof.
  intros [Hlen|Hlen] Hfs.
  - destruct vec as [|v0 [|v1 [|? ?]]]; try discriminate Hlen.
    inversion Hfs as [|? f0 ? fs1 F0 Hfs1]; subst.
    inversion Hfs1 as [|? f1 ? fs2 F1 Hfs2]; subst.
    inversion Hfs2; subst.
    eexists _, _. split; [exact (plot_vec_2d_run _ _ _ _ _ _ _ _ w F0 F1)|].
    unfold cur_axes; cbn [current put_axes]. rewrite axes_of_put_eq.
    repeat split; reflexivity.
  - destruct vec as [|v0 [|v1 [|v2 [|? ?]]]]; try discriminate Hlen.
    inversion Hfs as [|? f0 ? fs1 F0 Hfs1]; subst.
    inversion Hfs1 as [|? f1 ? fs2 F1 Hfs2]; subst.
    inversion Hfs2 as [|? f2 ? fs3 F2 Hfs3]; subst.
    inversion Hfs3; subst.
    eexists _, _. split; [exact (plot_vec_3d_run _ _ _ _ _ _ _ _ _ _ _ w F0 F1 F2)|].
    unfold cur_axes; cbn [current put_axes]. rewrite axes_of_put_eq.
    repeat split; reflexivity.
Qed.

(** C1: for a vector of length 2 or 3 whose components [float()] accepts,
    and an origin with at least as many components, [plot_vec] returns
    normally and the current axes gains exactly one child, an arrow of this
    module, which starts at the first components of the origin, ends at the
    vector's own components converted to float (the origin is not added to
    them) and carries the given colour; the axes' aspect is set to
    "equal", and nothing else changes. *)
Theorem plot_vec_adds_one_arrow (vec at_ : list pyval) (color : string)
    (fs : list float) (w : World) :
  length vec = 2%nat \/ length vec = 3%nat ->
  (length vec <= length at_)%nat ->
  Forall2 (fun v f => py_float v = Ret f) vec fs ->
  exists arrow w',
    plot_vec vec at_ color w = (Ret tt, w') /\
    children (cur_axes w') = children (cur_axes w) ++ [arrow] /\
    is_arrow arrow = true /\
    arrow_start arrow = take (length vec) at_ /\
    arrow_end arrow = map PyFloat fs /\
    color_of_arrow arrow = Some color /\
    aspect (cur_axes w') = Some "equal" /\
    xlim (cur_axes w') = xlim (cur_axes w) /\
    ylim (cur_axes w') = ylim (cur_axes w) /\
    zlim (cur_axes w') = zlim (cur_axes w) /\
    current w' = current w /\
    (forall ax, ax <> current w -> axes_of w' ax = axes_of w ax) /\
    stdout w' = stdout w /\
    instance w' = instance w.
Proof.
  intros Hlen Hat Hfs.
  destruct Hlen as [Hlen|Hlen].
  - destruct vec as [|v0 [|v1 [|? ?]]]; try discriminate Hlen.
    destruct at_ as [|a0 [|a1 rest]]; simpl in Hat; try lia.
    inversion Hfs as [|? f0 ? fs1 F0 Hfs1]; subst.
    inversion Hfs1 as [|? f1 ? fs2 F1 Hfs2]; subst.
    inversion Hfs2; subst.
    eexists _, _. split; [exact (plot_vec_2d_run _ _ _ _ _ _ _ _ w F0 F1)|].
    unfold cur_axes; cbn [current put_axes]. rewrite axes_of_put_eq. cbn.
    repeat (split; [reflexivity|]). split; [|done].
    intros ax Hne. by rewrite axes_of_put_ne.
  - destruct vec as [|v0 [|v1 [|v2 [|? ?]]]]; try discriminate Hlen.
    destruct at_ as [|a0 [|a1 [|a2 rest]]]; simpl in Hat; try lia.
    inversion Hfs as [|? f0 ? fs1 F0 Hfs1]; subst.
    inversion Hfs1 as [|? f1 ? fs2 F1 Hfs2]; subst.
    inversion Hfs2 as [|? f2 ? fs3 F2 Hfs3]; subst.
    inversion Hfs3; subst.
    eexists _, _. split; [exact (plot_vec_3d_run _ _ _ _ _ _ _ _ _ _ _ w F0 F1 F2)|].
    unfold cur_axes; cbn [current put_axes]. rewrite axes_of_put_eq. cbn.
    repeat (split; [reflexivity|]). split; [|done].
    intros ax Hne. by rewrite axes_of_put_ne.
Qed.

Lemma plot_vec_adds_one_arrow_witness :
  exists arrow w',
    plot_vec [PyInt 10; PyFloat 20; PyInt 30] [PyInt 1; PyInt 2; PyInt 3] "r" empty_world
      = (Ret tt, w') /\
    children (cur_axes w') = [arrow] /\
    arrow_start arrow = [PyInt 1; PyInt 2; PyInt 3] /\
    arrow_end arrow = [PyFloat 10; PyFloat 20; PyFloat 30] /\
    aspect (cur_axes w') = Some "equal".
Proof.
  destruct (plot_vec_adds_one_arrow
              [PyInt 10; PyFloat 20; PyInt 30] [PyInt 1; PyInt 2; PyInt 3] "r"
              [10%float; 20%float; 30%float] empty_world)
    as (arrow & w' & E & Hch & _ & Hs & He & _ & Ha & _).
  - right; reflexivity.
  - simpl; lia.
  - repeat constructor; vm_compute; reflexivity.
  - exists arrow, w'. repeat split; assumption.
Defined.

(** ** plot_vecs *)

Lemma floatable_floats (vec : list pyval) :
  Forall floatable vec -> exists fs, Forall2 (fun v f => py_float v = Ret f) vec fs.
Proof.
  induction 1 as [|v vec [f Hf] _ [fs IH]].
  - exists []. constructor.
  - exists (f :: fs). by constructor.
Qed.

Lemma VEC_COLORS_lookup (i : nat) :
  exists c, VEC_COLORS !! (i mod length VEC_COLORS)%nat = Some c.
Proof.
  apply lookup_lt_is_Some_2. apply Nat.mod_upper_bound. discriminate.
Qed.

Lemma plot_vecs_from_ok (args : list (list pyval)) :
  forall (i : nat) (w : World),
    Forall plottable args ->
    exists arrows w',
      plot_vecs_from i args w = (Ret tt, w') /\
      children (cur_axes w') = children (cur_axes w) ++ arrows /\
      Forall2 arrow_for args arrows /\
      map color_of_arrow arrows
        = map (fun j => VEC_COLORS !! (j mod 6)%nat) (seq i (length args)) /\
      current w' = current w /\
      stdout w' = stdout w /\
      instance w' = instance w.
Proof.
  induction args as [|vec args IH]; intros i w Hall.
  - exists [], w. simpl. rewrite app_nil_r. repeat split; constructor.
  - inversion Hall as [|? ? [Hlen Hfl] Hall']; subst.
    destruct (floatable_floats vec Hfl) as [fs Hfs].
    destruct (VEC_COLORS_lookup i) as [c Hc].
    destruct (plot_vec_draws vec c fs w Hlen Hfs) as
      (arrow & w1 & E1 & Hch1 & Harr & Hend & Hcol & Hcur1 & Hout1 & Hinst1).
    destruct (IH (S i) w1 Hall') as (arrows & w2 & E2 & Hch2 & Hfor & Hcols & Hcur2 & Hout2 & Hinst2).
    exists (arrow :: arrows), w2.
    split.
    { cbn [plot_vecs_from]. unfold lift, getitem. rewrite Hc.
      unfold mbind at 1, M_bind at 1. cbn beta iota.
      erewrite bind_Ret by exact E1. exact E2. }
    split. { rewrite Hch2, Hch1, <- app_assoc. reflexivity. }
    split.
    { constructor; [|exact Hfor]. split; [exact Harr|]. rewrite Hend.
      clear -Hfs. induction Hfs; simpl; constructor; eauto. }
    split.
    { cbn [map seq length]. rewrite Hcols, Hcol. f_equal. exact (eq_sym Hc). }
    repeat split; congruence.
Qed.

(** Neither [plot_vec] nor [plot_vecs] reads the colour picker. *)
Lemma plot_vec_instance (vec at_ : list pyval) (color : string) (inst : option Z) (w : World) :
  plot_vec vec at_ color (set_instance inst w)
  = (fst (plot_vec vec at_ color w), set_instance inst (snd (plot_vec vec at_ color w))).
Proof.
  unfold plot_vec.
  destruct (length vec =? 3)%nat; [|destruct (length vec =? 2)%nat]; run_M;
    repeat (match goal with
            | |- context [match ?x !! ?i with _ => _ end] => destruct (x !! i)
            | |- context [match py_float ?v with _ => _ end] => destruct (py_float v)
            end; cbn [obind fst snd]);
    reflexivity.
Qed.

Lemma plot_vecs_from_instance (args : list (list pyval)) (inst : option Z) :
  forall (i : nat) (w : World),
    plot_vecs_from i args (set_instance inst w)
    = (fst (plot_vecs_from i args w), set_instance inst (snd (plot_vecs_from i args w))).
Proof.
  induction args as [|vec args IH]; intros i w; [reflexivity|].
  cbn [plot_vecs_from]. unfold lift, getitem.
  destruct (VEC_COLORS !! (i mod length VEC_COLORS)%nat) as [c|]; [|reflexivity].
  unfold mbind, M_bind. rewrite plot_vec_instance.
  destruct (plot_vec vec default_at c w) as [[[]|e] w1]; cbn [fst snd]; [|reflexivity].
  apply IH.
Qed.

(** C8: [plot_vecs] draws one arrow per vector, in order, on the current
    axes, and the arrow at position [j] has the colour at position [j mod 6]
    of the palette [k, b, g, r, c, m] (black, blue, green, red, cyan,
    magenta); seven vectors get black, blue, green, red, cyan, magenta,
    black.  The colour picker of [plot_plane] is neither read nor advanced:
    its state is left as it was, and running from another picker state
    gives the same outcome and the same drawing. *)
Theorem plot_vecs_palette (args : list (list pyval)) (w : World) :
  Forall plottable args ->
  exists arrows w',
    plot_vecs args w = (Ret tt, w') /\
    children (cur_axes w') = children (cur_axes w) ++ arrows /\
    Forall2 arrow_for args arrows /\
    map color_of_arrow arrows
      = map (fun j => VEC_COLORS !! (j mod 6)%nat) (seq 0 (length args)) /\
    (length args = 7%nat ->
     map (fmap color_name) (map color_of_arrow arrows)
       = map Some ["black"; "blue"; "green"; "red"; "cyan"; "magenta"; "black"]) /\
    instance w' = instance w /\
    (forall inst, plot_vecs args (set_instance inst w) = (Ret tt, set_instance inst w')).
Proof.
  intros Hall.
  destruct (plot_vecs_from_ok args 0 w Hall)
    as (arrows & w' & E & Hch & Hfor & Hcols & _ & _ & Hinst).
  exists arrows, w'. unfold plot_vecs.
  repeat (split; [assumption|]).
  split. { intros H7. rewrite Hcols, H7. reflexivity. }
  split; [assumption|].
  intros inst. rewrite plot_vecs_from_instance, E. reflexivity.
Qed.

(** ** autoscale_arrows *)

Lemma autoscale_target (ax : option nat) (w : World) :
  (match ax with None => gca | Some a => mret a end) w = (Ret (target ax w), w).
Proof. destruct ax; reflexivity. Qed.

Lemma nonempty_omap_3D (l : list artist) xs ys zs kw :
  Arrow3D xs ys zs kw ∈ l -> nonempty (omap as_Arrow3D l) = true.
Proof.
  induction l as [|c l IH]; intros Hin; [by apply elem_of_nil in Hin|].
  apply elem_of_cons in Hin as [<-|Hin]; simpl; [reflexivity|].
  destruct (as_Arrow3D c); [reflexivity|exact (IH Hin)].
Qed.

Lemma nonempty_omap_2D (l : list artist) xs ys kw :
  Arrow2D xs ys kw ∈ l -> nonempty (omap as_Arrow2D l) = true.
Proof.
  induction l as [|c l IH]; intros Hin; [by apply elem_of_nil in Hin|].
  apply elem_of_cons in Hin as [<-|Hin]; simpl; [reflexivity|].
  destruct (as_Arrow2D c); [reflexivity|exact (IH Hin)].
Qed.

Lemma omap_no_arrows (l : list artist) :
  Forall (fun c => is_arrow c = false) l ->
  omap as_Arrow3D l = [] /\ omap as_Arrow2D l = [].
Proof.
  induction 1 as [|c l Hc _ [IH3 IH2]]; [done|].
  destruct c; try discriminate Hc; simpl; by rewrite ?IH3, ?IH2.
Qed.

(** C7: when the axes holds at least one [Arrow2D] and at least one
    [Arrow3D] child, [autoscale_arrows] prints its message and returns -1;
    no limit, and nothing else of any axes, is changed. *)
Theorem autoscale_arrows_mixed (ax : option nat) (w : World) :
  (exists xs ys kw, Arrow2D xs ys kw ∈ children (axes_of w (target ax w))) ->
  (exists xs ys zs kw, Arrow3D xs ys zs kw ∈ children (axes_of w (target ax w))) ->
  exists w',
    autoscale_arrows ax w = (Ret (Some (-1)), w') /\
    stdout w' = stdout w ++ ["Mixing Arrow2D and Arrow3D not supported"] /\
    axes_heap w' = axes_heap w /\
    (forall ax', xlim (axes_of w' ax') = xlim (axes_of w ax') /\
                 ylim (axes_of w' ax') = ylim (axes_of w ax') /\
                 zlim (axes_of w' ax') = zlim (axes_of w ax')) /\
    current w' = current w /\
    instance w' = instance w.
Proof.
  intros (xs2 & ys2 & kw2 & H2) (xs3 & ys3 & zs3 & kw3 & H3).
  apply nonempty_omap_2D in H2. apply nonempty_omap_3D in H3.
  unfold autoscale_arrows.
  erewrite bind_Ret by apply autoscale_target.
  run_M. rewrite H2, H3. cbn [andb].
  eexists. split; [reflexivity|]. simpl. repeat split; reflexivity.
Qed.

(** C10: when the axes holds no arrow of either class, [autoscale_arrows]
    returns [None] and leaves the whole world as it was: no limit is set
    and nothing is printed. *)
Theorem autoscale_arrows_no_arrows (ax : option nat) (w : World) :
  Forall (fun c => is_arrow c = false) (children (axes_of w (target ax w))) ->
  autoscale_arrows ax w = (Ret None, w).
Proof.
  intros Hno. apply omap_no_arrows in Hno as [H3 H2].
  unfold autoscale_arrows.
  erewrite bind_Ret by apply autoscale_target.
  run_M. rewrite H2, H3. reflexivity.
Qed.

Lemma autoscale_arrows_no_arrows_witness :
  autoscale_arrows None (world_with [Line2D [0%float] [1%float] None])
  = (Ret None, world_with [Line2D [0%float] [1%float] None]).
Proof.
  apply (autoscale_arrows_no_arrows None (world_with [Line2D [0%float] [1%float] None])).
  vm_compute. repeat constructor.
Defined.

Lemma autoscale_arrows_mixed_witness :
  exists w',
    autoscale_arrows None
      (world_with [Arrow2D (PyInt 0, PyFloat 1) (PyInt 0, PyFloat 1) (arrow_kwargs "k");
                   Arrow3D (PyInt 0, PyFloat 1) (PyInt 0, PyFloat 1) (PyInt 0, PyFloat 1)
                           (arrow_kwargs "k")])
    = (Ret (Some (-1)), w') /\
    stdout w' = ["Mixing Arrow2D and Arrow3D not supported"] /\
    xlim (cur_axes w') = None.
Proof.
  destruct (autoscale_arrows_mixed None
    (world_with [Arrow2D (PyInt 0, PyFloat 1) (PyInt 0, PyFloat 1) (arrow_kwargs "k");
                 Arrow3D (PyInt 0, PyFloat 1) (PyInt 0, PyFloat 1) (PyInt 0, PyFloat 1)
                         (arrow_kwargs "k")]))
    as (w' & E & Hout & _ & Hlim & Hcur & _).
  - eexists _, _, _. vm_compute. apply list_elem_of_here.
  - eexists _, _, _, _. vm_compute. apply list_elem_of_further, list_elem_of_here.
  - exists w'. split; [exact E|]. split; [exact Hout|].
    unfold cur_axes. rewrite Hcur. destruct (Hlim (current (world_with
      [Arrow2D (PyInt 0, PyFloat 1) (PyInt 0, PyFloat 1) (arrow_kwargs "k");
       Arrow3D (PyInt 0, PyFloat 1) (PyInt 0, PyFloat 1) (PyInt 0, PyFloat 1)
               (arrow_kwargs "k")]))) as [Hx _].
    rewrite Hx. reflexivity.
Defined.

Lemma plot_vecs_palette_witness :
  exists arrows w',
    plot_vecs seven_vectors empty_world = (Ret tt, w') /\
    children (cur_axes w') = arrows /\
    map (fmap color_name) (map color_of_arrow arrows)
      = map Some ["black"; "blue"; "green"; "red"; "cyan"; "magenta"; "black"].
Proof.
  destruct (plot_vecs_palette seven_vectors empty_world)
    as (arrows & w' & E & Hch & _ & _ & H7 & _).
  - unfold seven_vectors.
    repeat (constructor; [split; [simpl; auto|
      repeat (constructor; [eexists; vm_compute; reflexivity|]); constructor]|]).
    constructor.
  - exists arrows, w'. split; [exact E|]. split; [exact Hch|]. apply H7. reflexivity.
Defined.

(** ** Facts on the array operations, at every dtype *)
Section NumpyFacts.
Context {A : Type} `{Scalar A}.

Lemma length_set_last (y : list A) (stop : A) : length (set_last y stop) = length y.
Proof.
  induction y as [|a [|b y] IH]; try reflexivity.
  change (S (length (set_last (b :: y) stop)) = S (length (b :: y))).
  by rewrite IH.
Qed.

Lemma last_set_last (y : list A) (stop d : A) :
  y <> [] -> List.last (set_last y stop) d = stop.
Proof.
  induction y as [|a [|b y] IH]; intros Hne; [done|reflexivity|].
  change (List.last (a :: set_last (b :: y) stop) d = stop).
  assert (Hb : set_last (b :: y) stop <> []).
  { intros E. apply (f_equal length) in E. rewrite length_set_last in E. discriminate E. }
  destruct (set_last (b :: y) stop) as [|c l] eqn:E; [done|].
  rewrite <- (IH ltac:(discriminate)). reflexivity.
Qed.

Lemma length_linspace (start stop : A) (num : nat) : length (linspace start stop num) = num.
Proof.
  unfold linspace.
  repeat match goal with |- context [if ?b then _ else _] => destruct b end;
    rewrite ?length_set_last, ?length_map, ?length_seq; reflexivity.
Qed.

Lemma last_linspace (start stop d : A) (num : nat) :
  (1 < num)%nat -> List.last (linspace start stop num) d = stop.
Proof.
  intros Hnum. unfold linspace.
  destruct (Nat.ltb_spec 1 num) as [_|?]; [|lia].
  apply last_set_last. intros E. apply (f_equal length) in E.
  destruct (s_is0 _); rewrite !length_map, length_seq in E; simpl in E; lia.
Qed.

Lemma set_last_app (l : list A) (a stop : A) : set_last (l ++ [a]) stop = l ++ [stop].
Proof.
  induction l as [|b l IH]; [reflexivity|].
  change (set_last (b :: (l ++ [a])) stop = b :: (l ++ [stop])).
  destruct (l ++ [a]) as [|c l'] eqn:E; [by destruct l|].
  rewrite <- IH. reflexivity.
Qed.

(** The samples but the last are [k * step + start] for [k = 0 .. num-2],
    or [k / (num-1) * (stop - start) + start] when the step is zero; the
    last is [stop] itself. *)
Lemma linspace_samples (start stop : A) (n : nat) :
  (1 <= n)%nat ->
  linspace start stop (S n)
  = map (fun k =>
           if s_is0 (s_div (s_sub stop start) (s_ofZ (Z.of_nat n)))
           then s_add (s_mul (s_div (s_ofZ (Z.of_nat k)) (s_ofZ (Z.of_nat n)))
                         (s_sub stop start)) start
           else s_add (s_mul (s_ofZ (Z.of_nat k))
                         (s_div (s_sub stop start) (s_ofZ (Z.of_nat n)))) start)
        (seq 0 n)
    ++ [stop].
Proof.
  intros Hn. unfold linspace.
  replace (S n - 1)%nat with n by lia.
  destruct (Nat.ltb_spec 1 (S n)) as [_|?]; [|lia].
  destruct (s_is0 _); rewrite !map_map, seq_S, map_app; cbn [map Nat.add];
    apply set_last_app.
Qed.

(** With a nonzero step the samples are [k * step + start] for
    [k = 0 .. num-2], followed by [stop] itself. *)
Lemma linspace_steps (start stop : A) (n : nat) :
  (1 <= n)%nat ->
  s_is0 (s_div (s_sub stop start) (s_ofZ (Z.of_nat n))) = false ->
  linspace start stop (S n)
  = map (fun k => s_add (s_mul (s_ofZ (Z.of_nat k))
                           (s_div (s_sub stop start) (s_ofZ (Z.of_nat n)))) start)
        (seq 0 n)
    ++ [stop].
Proof.
  intros Hn Hstep. rewrite linspace_samples by exact Hn. by rewrite Hstep.
Qed.

(** Every coordinate of the sampled line is [point_c + dir_vec_c * s] with
    [s = (x_sample - point_x) / dir_vec_x], one per sample of the linspace. *)
Lemma line_coord_samples (point_c dir_vec_c point_x dir_vec_x : A) :
  line_coord point_c dir_vec_c (line_s point_x dir_vec_x)
  = map (fun x_sample =>
           s_add point_c (s_mul dir_vec_c (s_div (s_sub x_sample point_x) dir_vec_x)))
        (linspace (s_ofZ (-5)) (s_ofZ 5) 100).
Proof.
  unfold line_coord, line_s, add_arr, mul_arr, arr_div, arr_sub.
  rewrite !map_map. reflexivity.
Qed.

Lemma zip_with_map (f : A -> A -> A) (g h : A -> A) (l : list A) :
  zip_with f (map g l) (map h l) = map (fun a => f (g a) (h a)) l.
Proof. induction l as [|a l IH]; simpl; [reflexivity|]. by rewrite IH. Qed.

(** On a mesh grid the plane's heights are
    [Z[i][j] = (d - normal_x*x[j] - normal_y*y[i]) / normal_z]. *)
Lemma plane_Z_meshgrid (normal_x normal_y normal_z d : A) (x y : list A) :
  plane_Z normal_x normal_y normal_z d (fst (meshgrid x y)) (snd (meshgrid x y))
  = map (fun yi =>
           map (fun xj =>
                  s_div (s_sub (s_sub d (s_mul normal_x xj)) (s_mul normal_y yi)) normal_z)
               x)
        y.
Proof.
  unfold plane_Z, meshgrid, arr2_div, rsub_arr2, rsub_arr, mul_arr2, mul_arr, arr_div.
  cbn [fst snd]. rewrite !map_map.
  induction y as [|yi y IH]; [reflexivity|].
  cbn [map arr2_sub]. rewrite IH. f_equal.
  rewrite (map_map (fun _ => yi) (fun a => s_mul normal_y a)).
  rewrite (zip_with_map s_sub (fun a => s_sub d (s_mul normal_x a))
             (fun _ => s_mul normal_y yi) x).
  rewrite map_map. reflexivity.
Qed.
End NumpyFacts.

(** ** The samples of a linspace, in binary64 *)

Lemma linspace_100 (start stop : float) :
  linspace start stop 100 = map (linspace_sample start stop) (seq 0 99) ++ [stop].
Proof. rewrite (linspace_samples start stop 99) by lia. reflexivity. Qed.

Lemma linspace_100_lookup (start stop : float) :
  (forall k, (k < 99)%nat ->
             linspace start stop 100 !! k = Some (linspace_sample start stop k)) /\
  linspace start stop 100 !! 99%nat = Some stop.
Proof.
  rewrite linspace_100. split.
  - intros k Hk. rewrite lookup_app_l by (rewrite length_map, length_seq; exact Hk).
    rewrite list_lookup_fmap, lookup_seq_lt by exact Hk. reflexivity.
  - rewrite lookup_app_r by (rewrite length_map, length_seq; lia).
    rewrite length_map, length_seq. reflexivity.
Qed.

(** A finite float is a zero or a finite nonzero number, and conversely. *)
Lemma finite_SF (x : float) :
  is_finite x = true ->
  (exists s, Prim2SF x = S754_zero s) \/ (exists s m e, Prim2SF x = S754_finite s m e).
Proof.
  intros Hx. unfold is_finite, is_nan, is_infinity in Hx.
  rewrite !FloatAxioms.eqb_spec, abs_spec in Hx.
  change (Prim2SF infinity) with (S754_infinity false) in Hx.
  destruct (Prim2SF x) as [s|s| |s m e]; [left; by exists s| | |right; by exists s, m, e].
  - destruct s; discriminate Hx.
  - discriminate Hx.
Qed.

Lemma SFeqb_finite_refl (s : bool) (m : positive) (e : Z) :
  SFeqb (S754_finite s m e) (S754_finite s m e) = true.
Proof.
  unfold SFeqb, SFcompare. rewrite Z.compare_refl, Pos.compare_cont_refl.
  destruct s; reflexivity.
Qed.

Lemma SF_finite (x : float) :
  (exists s, Prim2SF x = S754_zero s) \/ (exists s m e, Prim2SF x = S754_finite s m e) ->
  is_finite x = true.
Proof.
  intros Hx. unfold is_finite, is_nan, is_infinity.
  rewrite !FloatAxioms.eqb_spec, abs_spec.
  change (Prim2SF infinity) with (S754_infinity false).
  destruct Hx as [[s ->]|(s & m & e & ->)]; [reflexivity|].
  rewrite SFeqb_finite_refl. reflexivity.
Qed.

Lemma finite_not_nan (x : float) : is_finite x = true -> (x =? x)%float = true.
Proof.
  unfold is_finite, is_nan. destruct (x =? x)%float; [reflexivity|discriminate].
Qed.

(** Zero times a finite number is a zero, and a zero added to a finite
    number leaves it as it is. *)
Lemma zero_mul_add (f x0 : float) :
  is_finite f = true -> is_finite x0 = true -> ((0 * f + x0) =? x0)%float = true.
Proof.
  intros Hf Hx0.
  assert (Hz : exists s, Prim2SF (0 * f) = S754_zero s).
  { rewrite mul_spec. change (Prim2SF 0) with (S754_zero false).
    destruct (finite_SF f Hf) as [[s ->]|(s & m & e & ->)]; by eexists. }
  destruct Hz as [sz Hz].
  destruct (finite_SF x0 Hx0) as [[s E]|(s & m & e & E)].
  - rewrite FloatAxioms.eqb_spec, add_spec, Hz, E. destruct sz, s; reflexivity.
  - assert (E0 : (0 * f + x0)%float = x0).
    { apply Prim2SF_inj. rewrite add_spec, Hz, E. reflexivity. }
    rewrite E0. by apply finite_not_nan.
Qed.

(** The width of a range whose step is finite is finite. *)
Lemma finite_div_99 (delta : float) :
  is_finite (delta / 99) = true -> is_finite delta = true.
Proof.
  intros Hq. apply SF_finite.
  destruct (finite_SF _ Hq) as [[s E]|(s & m & e & E)];
    rewrite div_spec in E;
    change (Prim2SF 99) with (S754_finite false 6966505673588736 (-46)) in E;
    destruct (Prim2SF delta) as [sd|sd| |sd md ed]; try discriminate E;
    try (left; by eexists); right; by eexists _, _, _.
Qed.

(** The first sample is the start of the range, when the start is finite
    and so is the step. *)
Lemma first_sample (start stop : float) :
  is_finite start = true -> is_finite ((stop - start) / 99) = true ->
  (linspace_sample start stop 0 =? start)%float = true.
Proof.
  intros Hs Hstep. unfold linspace_sample. cbv zeta.
  change (Z2float (Z.of_nat 0)) with 0%float.
  change (0 / 99)%float with 0%float.
  destruct ((stop - start) / 99 =? 0)%float.
  - apply zero_mul_add; [by apply finite_div_99|exact Hs].
  - by apply zero_mul_add.
Qed.

(** ** The colour picker *)

Lemma getitem_Z_COLORS (i : Z) : -6 <= i < 6 -> getitem_Z COLORS i = Ret (palette_at i).
Proof.
  intros Hi.
  assert (Hc : In i [-6; -5; -4; -3; -2; -1; 0; 1; 2; 3; 4; 5]) by (simpl; lia).
  simpl in Hc.
  repeat (destruct Hc as [<-|Hc]; [reflexivity|]). contradiction.
Qed.

Lemma palette_at_next (i : Z) : palette_at i <> palette_at (i + 1).
Proof.
  unfold palette_at.
  assert (Hm : 0 <= i mod 6 < 6) by (apply Z.mod_pos_bound; lia).
  replace ((i + 1) mod 6) with (if i mod 6 =? 5 then 0 else i mod 6 + 1).
  2:{ rewrite Zplus_mod. destruct (Z.eqb_spec (i mod 6) 5) as [->|Hne]; [reflexivity|].
      rewrite (Z.mod_small (i mod 6 + 1 mod 6) 6); [reflexivity|].
      change (1 mod 6) with 1. lia. }
  assert (Hc : In (i mod 6) [0; 1; 2; 3; 4; 5]) by (simpl; lia).
  simpl in Hc.
  repeat (destruct Hc as [<-|Hc]; [discriminate|]). contradiction.
Qed.

Lemma PlaneColorPicker_keeps (start i : Z) (w : World) :
  instance w = Some i -> PlaneColorPicker start w = (Ret tt, w).
Proof. intros E. unfold PlaneColorPicker. by rewrite E. Qed.

Lemma PlaneColorPicker_creates (start : Z) (w : World) :
  instance w = None -> PlaneColorPicker start w = (Ret tt, set_instance (Some start) w).
Proof. intros E. unfold PlaneColorPicker. by rewrite E. Qed.

Lemma get_color_ok (i : Z) (w : World) :
  instance w = Some i -> -6 <= i < 6 ->
  get_color w = (Ret (palette_at i), set_instance (Some ((i + 1) mod 6)) w).
Proof. intros E Hi. unfold get_color. rewrite E, getitem_Z_COLORS by exact Hi. reflexivity. Qed.

(** What [plot_plane] does when it is given no colour. *)
Lemma pick_color (w : World) :
  picker_ok w ->
  (PlaneColorPicker 0;; get_color) w
  = (Ret (palette_at (picker_index w)),
     set_instance (Some ((picker_index w + 1) mod 6)) w).
Proof.
  unfold picker_ok, picker_index. intros Hok.
  destruct (instance w) as [i|] eqn:E.
  - erewrite bind_Ret by (eapply PlaneColorPicker_keeps; exact E).
    by apply get_color_ok.
  - erewrite bind_Ret by (apply PlaneColorPicker_creates; exact E).
    erewrite get_color_ok; [reflexivity|reflexivity|]. simpl. lia.
Qed.

(** ** plot_plane *)

Lemma linspace_range_ok (lo hi : pyval) (rest : list pyval) (start stop : float) (w : World) :
  py_float lo = Ret start -> py_float hi = Ret stop ->
  linspace_range (lo :: hi :: rest) w = (Ret (linspace start stop 100), w).
Proof. intros E0 E1. unfold linspace_range. run_M. rewrite E0, E1. reflexivity. Qed.

(** A successful three-dimensional [plot_plane]; shared by the results on
    the surface drawn and on the colours picked. *)
Lemma plot_plane_3d_ok (vnx vny vnz vd : pyval) (color : option string)
    (vx0 vx1 : pyval) (rx : list pyval) (vy0 vy1 : pyval) (ry : list pyval)
    (nx ny nz d x0 x1 y0 y1 : float) (w : World) :
  py_float vnx = Ret nx -> py_float vny = Ret ny -> py_float vnz = Ret nz ->
  py_float vd = Ret d ->
  py_float vx0 = Ret x0 -> py_float vx1 = Ret x1 ->
  py_float vy0 = Ret y0 -> py_float vy1 = Ret y1 ->
  (color = None -> picker_ok w) ->
  exists w',
    plot_plane [vnx; vny; vnz] vd color (vx0 :: vx1 :: rx) (vy0 :: vy1 :: ry) w = (Ret tt, w') /\
    children (cur_axes w')
      = children (cur_axes w)
        ++ [Surface (fst (meshgrid (linspace x0 x1 100) (linspace y0 y1 100)))
                    (snd (meshgrid (linspace x0 x1 100) (linspace y0 y1 100)))
                    (plane_Z nx ny nz d
                       (fst (meshgrid (linspace x0 x1 100) (linspace y0 y1 100)))
                       (snd (meshgrid (linspace x0 x1 100) (linspace y0 y1 100))))
                    (plane_color color w) alpha_0_2] /\
    aspect (cur_axes w') = Some "equal" /\
    current w' = current w /\
    stdout w' = stdout w /\
    instance w' = match color with
                  | Some _ => instance w
                  | None => Some ((picker_index w + 1) mod 6)
                  end.
Proof.
  intros Enx Eny Enz Ed Ex0 Ex1 Ey0 Ey1 Hpick.
  unfold plot_plane. cbn [length Nat.eqb].
  unfold mbind at 1, M_bind at 1.
  erewrite bind_Ret by reflexivity.
  erewrite bind_Ret by reflexivity.
  erewrite bind_Ret by (eapply float_item_Ret; [reflexivity|exact Enx]).
  erewrite bind_Ret by (eapply float_item_Ret; [reflexivity|exact Eny]).
  erewrite bind_Ret by (eapply float_item_Ret; [reflexivity|exact Enz]).
  erewrite bind_Ret by (unfold lift; rewrite Ed; reflexivity).
  erewrite bind_Ret by (apply linspace_range_ok; [exact Ex0|exact Ex1]).
  erewrite bind_Ret by (apply linspace_range_ok; [exact Ey0|exact Ey1]).
  unfold meshgrid at 1.
  destruct color as [c|].
  - erewrite bind_Ret by reflexivity.
    unfold add_artist, update_axes, set_aspect, update_axes, mret, M_ret.
    eexists. split; [reflexivity|].
    unfold cur_axes; cbn [current put_axes].
    repeat (rewrite axes_of_put_eq || rewrite put_put); cbn.
    repeat split; reflexivity.
  - erewrite bind_Ret by (apply pick_color; unfold picker_ok in *; cbn; by apply Hpick).
    unfold add_artist, update_axes, set_aspect, update_axes, mret, M_ret.
    eexists. split; [reflexivity|].
    unfold cur_axes, axes_of; cbn [current put_axes set_instance axes_heap].
    rewrite !lookup_insert_eq. cbn.
    repeat split; reflexivity.
Qed.

Lemma plot_plane_3d_picks (normal : list pyval) (d : pyval) (xrange yrange : list pyval)
    (w : World) :
  plane3_args normal d xrange yrange -> picker_ok w ->
  exists S w',
    plot_plane normal d None xrange yrange w = (Ret tt, w') /\
    children (cur_axes w') = children (cur_axes w) ++ [S] /\
    surface_color S = Some (palette_at (picker_index w)) /\
    current w' = current w /\
    instance w' = Some ((picker_index w + 1) mod 6).
Proof.
  intros (Hlen & Hn & [fd Hd] & (x0 & x1 & rx & -> & [fx0 Hx0] & [fx1 Hx1])
          & (y0 & y1 & ry & -> & [fy0 Hy0] & [fy1 Hy1])) Hok.
  destruct normal as [|vnx [|vny [|vnz [|? ?]]]]; try discriminate Hlen.
  inversion Hn as [|? ? [nx Hnx] Hn1]; subst.
  inversion Hn1 as [|? ? [ny Hny] Hn2]; subst.
  inversion Hn2 as [|? ? [nz Hnz] _]; subst.
  destruct (plot_plane_3d_ok vnx vny vnz d None x0 x1 rx y0 y1 ry
              nx ny nz fd fx0 fx1 fy0 fy1 w Hnx Hny Hnz Hd Hx0 Hx1 Hy0 Hy1 (fun _ => Hok))
    as (w' & E & Hch & _ & Hcur & _ & Hinst).
  eexists _, w'. split; [exact E|]. split; [exact Hch|]. repeat split; assumption.
Qed.

(** C5: the palette of the colour picker is blue, green, red, cyan,
    magenta, black.  Constructing [PlaneColorPicker] again, whatever the
    [start], leaves the shared index as it is (only the first construction
    sets it); [get_color] returns the palette entry at the shared index and
    advances that index by one modulo 6; and two successive three-dimensional
    [plot_plane] calls without a colour draw their surfaces in two different
    colours, the palette entries at the shared index and at the next one,
    the index having advanced once per call. *)
Theorem plane_color_picker_singleton :
  map color_name COLORS = ["blue"; "green"; "red"; "cyan"; "magenta"; "black"] /\
  (forall (start i : Z) (w : World),
      instance w = Some i -> PlaneColorPicker start w = (Ret tt, w)) /\
  (forall (start : Z) (w : World),
      instance w = None ->
      PlaneColorPicker start w = (Ret tt, set_instance (Some start) w)) /\
  (forall (i : Z) (w : World),
      instance w = Some i -> 0 <= i < 6 ->
      COLORS !! Z.to_nat i = Some (palette_at i) /\
      get_color w = (Ret (palette_at i), set_instance (Some ((i + 1) mod 6)) w)) /\
  (forall (normal1 normal2 : list pyval) (d1 d2 : pyval)
          (xrange1 yrange1 xrange2 yrange2 : list pyval) (w : World),
      plane3_args normal1 d1 xrange1 yrange1 ->
      plane3_args normal2 d2 xrange2 yrange2 ->
      picker_ok w ->
      exists S1 S2 w1 w2,
        plot_plane normal1 d1 None xrange1 yrange1 w = (Ret tt, w1) /\
        plot_plane normal2 d2 None xrange2 yrange2 w1 = (Ret tt, w2) /\
        children (cur_axes w2) = children (cur_axes w) ++ [S1; S2] /\
        surface_color S1 = Some (palette_at (picker_index w)) /\
        surface_color S2 = Some (palette_at (picker_index w + 1)) /\
        palette_at (picker_index w) <> palette_at (picker_index w + 1) /\
        instance w1 = Some ((picker_index w + 1) mod 6) /\
        instance w2 = Some ((picker_index w + 2) mod 6)).
Proof.
  split; [reflexivity|].
  split; [intros start i w; apply PlaneColorPicker_keeps|].
  split; [intros start w; apply PlaneColorPicker_creates|].
  split.
  { intros i w E Hi. split; [|apply get_color_ok; [exact E|lia]].
    unfold palette_at. rewrite Z.mod_small by lia.
    destruct (lookup_lt_is_Some_2 COLORS (Z.to_nat i)) as [c Hc]; [simpl; lia|].
    by rewrite Hc. }
  intros normal1 normal2 d1 d2 xrange1 yrange1 xrange2 yrange2 w Ha1 Ha2 Hok.
  destruct (plot_plane_3d_picks normal1 d1 xrange1 yrange1 w Ha1 Hok)
    as (S1 & w1 & E1 & Hch1 & Hc1 & Hcur1 & Hinst1).
  assert (Hidx1 : picker_index w1 = (picker_index w + 1) mod 6)
    by (unfold picker_index at 1; by rewrite Hinst1).
  assert (Hok1 : picker_ok w1).
  { unfold picker_ok. rewrite Hinst1.
    pose proof (Z.mod_pos_bound (picker_index w + 1) 6). lia. }
  destruct (plot_plane_3d_picks normal2 d2 xrange2 yrange2 w1 Ha2 Hok1)
    as (S2 & w2 & E2 & Hch2 & Hc2 & Hcur2 & Hinst2).
  exists S1, S2, w1, w2.
  split; [exact E1|]. split; [exact E2|].
  split. { rewrite Hch2, Hch1, <- app_assoc. reflexivity. }
  split; [exact Hc1|].
  split. { rewrite Hc2, Hidx1. unfold palette_at. by rewrite Z.mod_mod. }
  split; [apply palette_at_next|].
  split; [exact Hinst1|].
  rewrite Hinst2, Hidx1. f_equal.
  rewrite Zplus_mod_idemp_l. f_equal. lia.
Qed.

Lemma plane3_args_example (normal : list pyval) (d : Z) :
  length normal = 3%nat -> Forall floatable normal -> floatable (PyInt d) ->
  plane3_args normal (PyInt d) default_range default_range.
Proof.
  intros Hlen Hn Hd. split; [exact Hlen|]. split; [exact Hn|]. split; [exact Hd|].
  split; exists (PyInt (-5)), (PyInt 5), [];
    (split; [reflexivity|]); split; eexists; vm_compute; reflexivity.
Qed.

Lemma plane_color_picker_singleton_witness :
  exists S1 S2 w1 w2,
    plot_plane [PyInt 0; PyInt 0; PyInt 1] (PyInt 5) None default_range default_range
      empty_world = (Ret tt, w1) /\
    plot_plane [PyInt 1; PyInt 1; PyInt 1] (PyInt 0) None default_range default_range
      w1 = (Ret tt, w2) /\
    children (cur_axes w2) = [S1; S2] /\
    surface_color S1 = Some "b" /\
    surface_color S2 = Some "g" /\
    instance w2 = Some 2.
Proof.
  pose proof plane_color_picker_singleton as (_ & _ & _ & _ & H).
  destruct (H [PyInt 0; PyInt 0; PyInt 1] [PyInt 1; PyInt 1; PyInt 1] (PyInt 5) (PyInt 0)
              default_range default_range default_range default_range empty_world)
    as (S1 & S2 & w1 & w2 & E1 & E2 & Hch & Hc1 & Hc2 & _ & _ & Hi2).
  - apply plane3_args_example; [reflexivity| |eexists; vm_compute; reflexivity].
    repeat (constructor; [eexists; vm_compute; reflexivity|]). constructor.
  - apply plane3_args_example; [reflexivity| |eexists; vm_compute; reflexivity].
    repeat (constructor; [eexists; vm_compute; reflexivity|]). constructor.
  - exact I.
  - exists S1, S2, w1, w2. repeat split; assumption.
Defined.

(** ** The surface [plot_plane] draws *)

(** C3: for a normal of three components, an offset and two ranges that
    [float()] accepts, [plot_plane] returns normally and the current axes
    gains exactly one child, a surface over the mesh grid of the 100 samples
    [x] of [x_range] by the 100 samples [y] of [y_range]: [X[i][j] = x[j]],
    [Y[i][j] = y[i]] and
    [Z[i][j] = (d - normal_x*x[j] - normal_y*y[i]) / normal_z], with
    translucency 0.2 and the colour given, or else the shared picker's next
    colour, the picker advancing by one.  The samples of a range from
    [lo] to [hi] are [k * step + lo] for [k = 0 .. 98], with
    [step = (hi - lo) / 99] (or [k / 99 * (hi - lo) + lo] when the step is
    zero), and then [hi] itself; the first of them equals [lo] when [lo] and
    the step are finite.  The nonzero last component the claim asks for is
    not needed for this.  For the normal (0,0,1), offset 5 and the default
    ranges every height is 5, over the grid of the samples that ascend from
    -5 to 5 both ways. *)
Theorem plot_plane_surface :
  (forall (vnx vny vnz vd : pyval) (color : option string)
          (vx0 vx1 : pyval) (rx : list pyval) (vy0 vy1 : pyval) (ry : list pyval)
          (nx ny nz d x0 x1 y0 y1 : float) (w : World),
      py_float vnx = Ret nx -> py_float vny = Ret ny -> py_float vnz = Ret nz ->
      py_float vd = Ret d ->
      py_float vx0 = Ret x0 -> py_float vx1 = Ret x1 ->
      py_float vy0 = Ret y0 -> py_float vy1 = Ret y1 ->
      (color = None -> picker_ok w) ->
      exists (x y : list float) (w' : World),
        x = linspace x0 x1 100 /\ y = linspace y0 y1 100 /\
        length x = 100%nat /\ length y = 100%nat /\
        (forall k, (k < 99)%nat -> x !! k = Some (linspace_sample x0 x1 k)) /\
        (forall k, (k < 99)%nat -> y !! k = Some (linspace_sample y0 y1 k)) /\
        x !! 99%nat = Some x1 /\ y !! 99%nat = Some y1 /\
        List.last x nan = x1 /\ List.last y nan = y1 /\
        (is_finite x0 = true -> is_finite ((x1 - x0) / 99) = true ->
         (linspace_sample x0 x1 0 =? x0)%float = true) /\
        (is_finite y0 = true -> is_finite ((y1 - y0) / 99) = true ->
         (linspace_sample y0 y1 0 =? y0)%float = true) /\
        plot_plane [vnx; vny; vnz] vd color (vx0 :: vx1 :: rx) (vy0 :: vy1 :: ry) w
          = (Ret tt, w') /\
        children (cur_axes w')
          = children (cur_axes w)
            ++ [Surface (map (fun _ => x) y)
                        (map (fun yi => map (fun _ => yi) x) y)
                        (map (fun yi => map (fun xj => ((d - nx * xj - ny * yi) / nz)%float) x) y)
                        (plane_color color w) alpha_0_2] /\
        instance w' = match color with
                      | Some _ => instance w
                      | None => Some ((picker_index w + 1) mod 6)
                      end) /\
  alpha_0_2 = (2 / 10)%float /\
  (forall w : World,
      picker_ok w ->
      exists (x : list float) (w' : World),
        x = linspace (-5)%float 5%float 100 /\
        List.hd nan x = (-5)%float /\
        x !! 1%nat = Some (-0x1.39890cede6243p+2)%float /\
        x !! 50%nat = Some (0x1.9dbcc48676f00p-5)%float /\
        List.last x nan = 5%float /\
        ascending x = true /\
        plot_plane [PyInt 0; PyInt 0; PyInt 1] (PyInt 5) None default_range default_range w
          = (Ret tt, w') /\
        children (cur_axes w')
          = children (cur_axes w)
            ++ [Surface (map (fun _ => x) x)
                        (map (fun yi => map (fun _ => yi) x) x)
                        (repeat (repeat 5%float 100) 100)
                        (palette_at (picker_index w)) alpha_0_2]).
Proof.
  split; [|split; [vm_compute; reflexivity|]].
  - intros vnx vny vnz vd color vx0 vx1 rx vy0 vy1 ry nx ny nz d x0 x1 y0 y1 w
      Enx Eny Enz Ed Ex0 Ex1 Ey0 Ey1 Hpick.
    destruct (plot_plane_3d_ok vnx vny vnz vd color vx0 vx1 rx vy0 vy1 ry
                nx ny nz d x0 x1 y0 y1 w Enx Eny Enz Ed Ex0 Ex1 Ey0 Ey1 Hpick)
      as (w' & E & Hch & _ & _ & _ & Hinst).
    exists (linspace x0 x1 100), (linspace y0 y1 100), w'.
    repeat (split; [reflexivity|]).
    split; [apply length_linspace|]. split; [apply length_linspace|].
    split; [apply linspace_100_lookup|]. split; [apply linspace_100_lookup|].
    split; [apply linspace_100_lookup|]. split; [apply linspace_100_lookup|].
    split; [apply last_linspace; lia|]. split; [apply last_linspace; lia|].
    split; [apply first_sample|]. split; [apply first_sample|].
    split; [exact E|]. split; [|exact Hinst].
    rewrite Hch, plane_Z_meshgrid. reflexivity.
  - intros w Hok.
    assert (E0 : py_float (PyInt 0) = Ret 0%float) by (vm_compute; reflexivity).
    assert (E1 : py_float (PyInt 1) = Ret 1%float) by (vm_compute; reflexivity).
    assert (E5 : py_float (PyInt 5) = Ret 5%float) by (vm_compute; reflexivity).
    assert (Em : py_float (PyInt (-5)) = Ret (-5)%float) by (vm_compute; reflexivity).
    destruct (plot_plane_3d_ok (PyInt 0) (PyInt 0) (PyInt 1) (PyInt 5) None
                (PyInt (-5)) (PyInt 5) [] (PyInt (-5)) (PyInt 5) []
                0%float 0%float 1%float 5%float (-5)%float 5%float (-5)%float 5%float w
                E0 E0 E1 E5 Em E5 Em E5 (fun _ => Hok))
      as (w' & E & Hch & _).
    exists (linspace (-5)%float 5%float 100), w'.
    split; [reflexivity|].
    do 5 (split; [vm_compute; reflexivity|]).
    split; [exact E|].
    rewrite Hch, plane_Z_meshgrid. unfold plane_color. cbn [meshgrid fst snd].
    assert (EZ : map (fun yi => map (fun xj => s_div (s_sub (s_sub 5%float (s_mul 0%float xj))
                                                       (s_mul 0%float yi)) 1%float)
                                    (linspace (-5)%float 5%float 100))
                     (linspace (-5)%float 5%float 100)
                 = repeat (repeat 5%float 100) 100) by (vm_compute; reflexivity).
    rewrite EZ. reflexivity.
Qed.

Lemma plot_plane_surface_witness :
  (exists (x y : list float) (w' : World),
      length x = 100%nat /\ length y = 100%nat /\
      x !! 1%nat = Some (linspace_sample 0 3 1) /\
      y !! 98%nat = Some (linspace_sample (-1) 1 98) /\
      x !! 99%nat = Some 3%float /\ y !! 99%nat = Some 1%float /\
      (linspace_sample 0 3 0 =? 0)%float = true /\
      (linspace_sample (-1) 1 0 =? -1)%float = true /\
      plot_plane [PyInt 1; PyInt 2; PyInt 4] (PyInt 8) (Some "r")
        [PyInt 0; PyInt 3] [PyInt (-1); PyInt 1] empty_world = (Ret tt, w') /\
      children (cur_axes w')
        = [Surface (map (fun _ => x) y)
                   (map (fun yi => map (fun _ => yi) x) y)
                   (map (fun yi => map (fun xj => ((8 - 1 * xj - 2 * yi) / 4)%float) x) y)
                   "r" alpha_0_2]) /\
  (exists (x : list float) (w' : World),
      x = linspace (-5)%float 5%float 100 /\
      List.hd nan x = (-5)%float /\
      x !! 1%nat = Some (-0x1.39890cede6243p+2)%float /\
      x !! 50%nat = Some (0x1.9dbcc48676f00p-5)%float /\
      List.last x nan = 5%float /\
      ascending x = true /\
      plot_plane [PyInt 0; PyInt 0; PyInt 1] (PyInt 5) None default_range default_range
        empty_world = (Ret tt, w') /\
      children (cur_axes w')
        = [Surface (map (fun _ => x) x) (map (fun yi => map (fun _ => yi) x) x)
                   (repeat (repeat 5%float 100) 100) "b" alpha_0_2]).
Proof.
  pose proof plot_plane_surface as (H1 & _ & H3).
  split.
  - assert (E0 : py_float (PyInt 0) = Ret 0%float) by (vm_compute; reflexivity).
    assert (E1 : py_float (PyInt 1) = Ret 1%float) by (vm_compute; reflexivity).
    assert (E2 : py_float (PyInt 2) = Ret 2%float) by (vm_compute; reflexivity).
    assert (E3 : py_float (PyInt 3) = Ret 3%float) by (vm_compute; reflexivity).
    assert (E4 : py_float (PyInt 4) = Ret 4%float) by (vm_compute; reflexivity).
    assert (E8 : py_float (PyInt 8) = Ret 8%float) by (vm_compute; reflexivity).
    assert (Em : py_float (PyInt (-1)) = Ret (-1)%float) by (vm_compute; reflexivity).
    destruct (H1 (PyInt 1) (PyInt 2) (PyInt 4) (PyInt 8) (Some "r")
                (PyInt 0) (PyInt 3) [] (PyInt (-1)) (PyInt 1) []
                1%float 2%float 4%float 8%float 0%float 3%float (-1)%float 1%float
                empty_world E1 E2 E4 E8 E0 E3 Em E1 ltac:(discriminate))
      as (x & y & w' & _ & _ & Lx & Ly & Sx & Sy & Hx & Hy & _ & _ & Fx & Fy & E & Hch & _).
    exists x, y, w'.
    split; [exact Lx|]. split; [exact Ly|].
    split; [apply Sx; lia|]. split; [apply Sy; lia|].
    split; [exact Hx|]. split; [exact Hy|].
    split; [apply Fx; vm_compute; reflexivity|].
    split; [apply Fy; vm_compute; reflexivity|].
    split; [exact E|exact Hch].
  - destruct (H3 empty_world I) as (x & w' & Hx & Hhd & H1' & H50 & Hlast & Hasc & E & Hch).
    exists x, w'. repeat (split; [assumption|]). exact Hch.
Defined.

(** ** plot_line *)

Lemma plot_line_2d_ok (vdx vdy vpx vpy : pyval) (rest : list pyval) (color : option string)
    (dx dy px py : float) (w : World) :
  py_float vdx = Ret dx -> py_float vdy = Ret dy ->
  py_float vpx = Ret px -> py_float vpy = Ret py ->
  exists w',
    plot_line [vdx; vdy] (vpx :: vpy :: rest) color w = (Ret tt, w') /\
    children (cur_axes w')
      = children (cur_axes w)
        ++ [Line2D (line_coord px dx (line_s px dx)) (line_coord py dy (line_s px dx)) color] /\
    aspect (cur_axes w') = Some "equal" /\
    current w' = current w /\ stdout w' = stdout w /\ instance w' = instance w.
Proof.
  intros Edx Edy Epx Epy.
  unfold plot_line. cbn [length Nat.eqb].
  unfold mbind at 1, M_bind at 1, mret at 1, M_ret at 1.
  erewrite bind_Ret by reflexivity.
  erewrite bind_Ret by reflexivity.
  erewrite bind_Ret by (eapply float_item_Ret; [reflexivity|exact Edx]).
  erewrite bind_Ret by (eapply float_item_Ret; [reflexivity|exact Edy]).
  erewrite bind_Ret by (eapply float_item_Ret; [reflexivity|exact Epx]).
  erewrite bind_Ret by (eapply float_item_Ret; [reflexivity|exact Epy]).
  unfold add_artist, update_axes, set_aspect, update_axes.
  eexists. split; [reflexivity|].
  unfold cur_axes; cbn [current put_axes].
  repeat (rewrite axes_of_put_eq || rewrite put_put); cbn.
  repeat split; reflexivity.
Qed.

Lemma plot_line_3d_ok (vdx vdy vdz vpx vpy vpz : pyval) (rest : list pyval)
    (color : option string) (dx dy dz px py pz : float) (w : World) :
  py_float vdx = Ret dx -> py_float vdy = Ret dy -> py_float vdz = Ret dz ->
  py_float vpx = Ret px -> py_float vpy = Ret py -> py_float vpz = Ret pz ->
  exists w',
    plot_line [vdx; vdy; vdz] (vpx :: vpy :: vpz :: rest) color w = (Ret tt, w') /\
    children (cur_axes w')
      = children (cur_axes w)
        ++ [Line3D (line_coord px dx (line_s px dx)) (line_coord py dy (line_s px dx))
                   (line_coord pz dz (line_s px dx)) color] /\
    aspect (cur_axes w') = Some "equal" /\
    current w' = current w /\ stdout w' = stdout w /\ instance w' = instance w.
Proof.
  intros Edx Edy Edz Epx Epy Epz.
  unfold plot_line. cbn [length Nat.eqb].
  unfold mbind at 1, M_bind at 1.
  erewrite bind_Ret by reflexivity.
  erewrite bind_Ret by reflexivity.
  erewrite bind_Ret by (eapply float_item_Ret; [reflexivity|exact Edx]).
  erewrite bind_Ret by (eapply float_item_Ret; [reflexivity|exact Edy]).
  erewrite bind_Ret by (eapply float_item_Ret; [reflexivity|exact Edz]).
  erewrite bind_Ret by (eapply float_item_Ret; [reflexivity|exact Epx]).
  erewrite bind_Ret by (eapply float_item_Ret; [reflexivity|exact Epy]).
  erewrite bind_Ret by (eapply float_item_Ret; [reflexivity|exact Epz]).
  unfold add_artist, update_axes, set_aspect, update_axes, mret, M_ret.
  eexists. split; [reflexivity|].
  unfold cur_axes; cbn [current put_axes].
  repeat (rewrite axes_of_put_eq || rewrite put_put); cbn.
  repeat split; reflexivity.
Qed.

(** *** The samples of the line *)

(** The 100 binary64 samples from -5 to 5 of [plot_line]. *)
Lemma line_samples_binary64 :
  linspace (-5)%float 5%float 100
  = map (fun k => (Z2float (Z.of_nat k) * (10 / 99) + -5)%float) (seq 0 99) ++ [5%float].
Proof.
  rewrite (linspace_steps (-5)%float 5%float 99) by (try lia; vm_compute; reflexivity).
  reflexivity.
Qed.

(** The claim C2 fails in its closing clause: on the line with direction
    (1, 1) through the point (10^17, 0) every sample is absorbed when
    [point_x] is subtracted from it, and the 100 x-coordinates are all 0
    instead of ranging from -5 to 5. *)
Lemma plot_line_x_collapses :
  fst (plot_line [PyInt 1; PyInt 1] [PyInt (10 ^ 17); PyInt 0] None empty_world) = Ret tt /\
  children (cur_axes (snd (plot_line [PyInt 1; PyInt 1] [PyInt (10 ^ 17); PyInt 0] None
                             empty_world)))
  = [Line2D (repeat 0%float 100) (repeat (-0x1.6345785d8ap+56)%float 100) None].
Proof. split; vm_compute; reflexivity. Qed.

(** C2, amended: for a direction and a point of two, or of three,
    components that [float()] accepts, [plot_line] returns normally and the
    current axes gains exactly one child, a polyline with one point per
    sample of [np.linspace(-5, 5, 100)]: the point [point + s * direction]
    with [s = (x_sample - point_x) / direction_x], every operation rounded
    to binary64.  The samples are the 100 values [k * step + (-5)] with
    [step = 10/99], ascending from -5 to 5.  The x-coordinates are
    [point_x + direction_x * s], which is the sample only up to rounding:
    they are the samples themselves when [direction_x] is 1 and [point_x]
    is 0, and not in general. *)
Theorem plot_line_samples :
  (forall (vdx vdy vpx vpy : pyval) (color : option string)
          (dx dy px py : float) (w : World),
      py_float vdx = Ret dx -> py_float vdy = Ret dy ->
      py_float vpx = Ret px -> py_float vpy = Ret py ->
      exists (xs : list float) (w' : World),
        xs = linspace (-5)%float 5%float 100 /\
        plot_line [vdx; vdy] [vpx; vpy] color w = (Ret tt, w') /\
        children (cur_axes w')
          = children (cur_axes w)
            ++ [Line2D (map (fun x_sample => (px + dx * ((x_sample - px) / dx))%float) xs)
                       (map (fun x_sample => (py + dy * ((x_sample - px) / dx))%float) xs)
                       color]) /\
  (forall (vdx vdy vdz vpx vpy vpz : pyval) (color : option string)
          (dx dy dz px py pz : float) (w : World),
      py_float vdx = Ret dx -> py_float vdy = Ret dy -> py_float vdz = Ret dz ->
      py_float vpx = Ret px -> py_float vpy = Ret py -> py_float vpz = Ret pz ->
      exists (xs : list float) (w' : World),
        xs = linspace (-5)%float 5%float 100 /\
        plot_line [vdx; vdy; vdz] [vpx; vpy; vpz] color w = (Ret tt, w') /\
        children (cur_axes w')
          = children (cur_axes w)
            ++ [Line3D (map (fun x_sample => (px + dx * ((x_sample - px) / dx))%float) xs)
                       (map (fun x_sample => (py + dy * ((x_sample - px) / dx))%float) xs)
                       (map (fun x_sample => (pz + dz * ((x_sample - px) / dx))%float) xs)
                       color]) /\
  (length (linspace (-5)%float 5%float 100) = 100%nat /\
   linspace (-5)%float 5%float 100
   = map (fun k => (Z2float (Z.of_nat k) * (10 / 99) + -5)%float) (seq 0 99) ++ [5%float] /\
   List.hd nan (linspace (-5)%float 5%float 100) = (-5)%float /\
   linspace (-5)%float 5%float 100 !! 1%nat = Some (-0x1.39890cede6243p+2)%float /\
   List.last (linspace (-5)%float 5%float 100) nan = 5%float /\
   ascending (linspace (-5)%float 5%float 100) = true) /\
  (forall (vdx vdy vpx vpy : pyval) (color : option string) (dy py : float) (w : World),
      py_float vdx = Ret 1%float -> py_float vdy = Ret dy ->
      py_float vpx = Ret 0%float -> py_float vpy = Ret py ->
      exists w' : World,
        plot_line [vdx; vdy] [vpx; vpy] color w = (Ret tt, w') /\
        children (cur_axes w')
          = children (cur_axes w)
            ++ [Line2D (linspace (-5)%float 5%float 100)
                       (map (fun x_sample => (py + dy * x_sample)%float)
                            (linspace (-5)%float 5%float 100))
                       color]) /\
  (forall (vdx vdy vdz vpx vpy vpz : pyval) (color : option string)
          (dy dz py pz : float) (w : World),
      py_float vdx = Ret 1%float -> py_float vdy = Ret dy -> py_float vdz = Ret dz ->
      py_float vpx = Ret 0%float -> py_float vpy = Ret py -> py_float vpz = Ret pz ->
      exists w' : World,
        plot_line [vdx; vdy; vdz] [vpx; vpy; vpz] color w = (Ret tt, w') /\
        children (cur_axes w')
          = children (cur_axes w)
            ++ [Line3D (linspace (-5)%float 5%float 100)
                       (map (fun x_sample => (py + dy * x_sample)%float)
                            (linspace (-5)%float 5%float 100))
                       (map (fun x_sample => (pz + dz * x_sample)%float)
                            (linspace (-5)%float 5%float 100))
                       color]).
Proof.
  split; [|split; [|split; [|split]]].
  - intros vdx vdy vpx vpy color dx dy px py w Edx Edy Epx Epy.
    destruct (plot_line_2d_ok vdx vdy vpx vpy [] color dx dy px py w Edx Edy Epx Epy)
      as (w' & E & Hch & _).
    exists (linspace (-5)%float 5%float 100), w'.
    split; [reflexivity|]. split; [exact E|].
    rewrite Hch, !line_coord_samples. reflexivity.
  - intros vdx vdy vdz vpx vpy vpz color dx dy dz px py pz w Edx Edy Edz Epx Epy Epz.
    destruct (plot_line_3d_ok vdx vdy vdz vpx vpy vpz [] color dx dy dz px py pz w
                Edx Edy Edz Epx Epy Epz) as (w' & E & Hch & _).
    exists (linspace (-5)%float 5%float 100), w'.
    split; [reflexivity|]. split; [exact E|].
    rewrite Hch, !line_coord_samples. reflexivity.
  - split; [apply length_linspace|]. split; [apply line_samples_binary64|].
    repeat split; vm_compute; reflexivity.
  - intros vdx vdy vpx vpy color dy py w Edx Edy Epx Epy.
    destruct (plot_line_2d_ok vdx vdy vpx vpy [] color 1%float dy 0%float py w
                Edx Edy Epx Epy) as (w' & E & Hch & _).
    exists w'. split; [exact E|]. rewrite Hch.
    apply (f_equal (fun l => children (cur_axes w) ++ [l])).
    vm_compute. reflexivity.
  - intros vdx vdy vdz vpx vpy vpz color dy dz py pz w Edx Edy Edz Epx Epy Epz.
    destruct (plot_line_3d_ok vdx vdy vdz vpx vpy vpz [] color 1%float dy dz 0%float py pz w
                Edx Edy Edz Epx Epy Epz) as (w' & E & Hch & _).
    exists w'. split; [exact E|]. rewrite Hch.
    apply (f_equal (fun l => children (cur_axes w) ++ [l])).
    vm_compute. reflexivity.
Qed.

Lemma plot_line_samples_witness :
  (exists (xs : list float) (w' : World),
      xs = linspace (-5)%float 5%float 100 /\
      plot_line [PyInt 2; PyInt 1] [PyInt 1; PyInt 0] (Some "r") empty_world = (Ret tt, w') /\
      children (cur_axes w')
        = [Line2D (map (fun x_sample => (1 + 2 * ((x_sample - 1) / 2))%float) xs)
                  (map (fun x_sample => (0 + 1 * ((x_sample - 1) / 2))%float) xs)
                  (Some "r")]) /\
  (exists w' : World,
      plot_line [PyInt 1; PyInt 2] [PyInt 0; PyInt 3] None empty_world = (Ret tt, w') /\
      children (cur_axes w')
        = [Line2D (linspace (-5)%float 5%float 100)
                  (map (fun x_sample => (3 + 2 * x_sample)%float)
                       (linspace (-5)%float 5%float 100))
                  None]).
Proof.
  pose proof plot_line_samples as (H2 & _ & _ & Hzero & _).
  split.
  - apply (H2 (PyInt 2) (PyInt 1) (PyInt 1) (PyInt 0) (Some "r")
              2%float 1%float 1%float 0%float empty_world);
      vm_compute; reflexivity.
  - apply (Hzero (PyInt 1) (PyInt 2) (PyInt 0) (PyInt 3) None 2%float 3%float empty_world);
      vm_compute; reflexivity.
Defined.

(** *** A direction whose first component is zero *)

(** numpy divides element by element as IEEE 754 does: a division by zero
    gives an infinity or a NaN and raises nothing, and zero times either is
    a NaN, so the x-coordinate computed for any sample is a NaN. *)
Lemma x_coordinate_nan (x_sample point_x dir_vec_x : float) :
  (dir_vec_x =? 0)%float = true ->
  is_nan (point_x + dir_vec_x * ((x_sample - point_x) / dir_vec_x))%float = true.
Proof.
  intros Hz. unfold is_nan.
  rewrite FloatAxioms.eqb_spec, add_spec, mul_spec, div_spec.
  rewrite FloatAxioms.eqb_spec in Hz. change (Prim2SF 0) with (S754_zero false) in Hz.
  destruct (Prim2SF dir_vec_x) as [s|s| |s m e];
    try discriminate Hz; try (destruct s; discriminate Hz).
  destruct (Prim2SF (x_sample - point_x)); destruct (Prim2SF point_x); reflexivity.
Qed.

Lemma x_coordinates_nan (point_x dir_vec_x : float) (xs : list float) :
  (dir_vec_x =? 0)%float = true ->
  Forall (fun v => is_nan v = true)
    (map (fun x_sample => (point_x + dir_vec_x * ((x_sample - point_x) / dir_vec_x))%float) xs).
Proof.
  intros Hz. apply List.Forall_forall. intros v Hin.
  apply in_map_iff in Hin as (x & <- & _). by apply x_coordinate_nan.
Qed.

(** The claim C6 fails: [plot_line] with direction (1,0) through (0,0)
    returns normally, and so does it with direction (0,1), whose first
    component is zero. *)
Lemma plot_line_does_not_fail :
  fst (plot_line [PyInt 1; PyInt 0] [PyInt 0; PyInt 0] None empty_world) = Ret tt /\
  fst (plot_line [PyInt 0; PyInt 1] [PyInt 0; PyInt 0] None empty_world) = Ret tt.
Proof. split; vm_compute; reflexivity. Qed.

(** C6, amended: [plot_line] does not fail on a direction whose first
    component is zero.  For a direction and a point of two, or of three,
    components that [float()] accepts it returns normally and draws one
    polyline of 100 points; when the direction's first component is zero,
    every x-coordinate of that polyline is a NaN.  The direction (1,0)
    through (0,0), and (1,0,0) through (0,0,0), have first component 1:
    the polyline drawn is the x axis sampled from -5 to 5. *)
Theorem plot_line_zero_direction :
  (forall (vdx vdy vpx vpy : pyval) (color : option string)
          (dx dy px py : float) (w : World),
      py_float vdx = Ret dx -> py_float vdy = Ret dy ->
      py_float vpx = Ret px -> py_float vpy = Ret py ->
      (dx =? 0)%float = true ->
      exists (x y : list float) (w' : World),
        plot_line [vdx; vdy] [vpx; vpy] color w = (Ret tt, w') /\
        children (cur_axes w') = children (cur_axes w) ++ [Line2D x y color] /\
        length x = 100%nat /\ length y = 100%nat /\
        Forall (fun v => is_nan v = true) x) /\
  (forall (vdx vdy vdz vpx vpy vpz : pyval) (color : option string)
          (dx dy dz px py pz : float) (w : World),
      py_float vdx = Ret dx -> py_float vdy = Ret dy -> py_float vdz = Ret dz ->
      py_float vpx = Ret px -> py_float vpy = Ret py -> py_float vpz = Ret pz ->
      (dx =? 0)%float = true ->
      exists (x y z : list float) (w' : World),
        plot_line [vdx; vdy; vdz] [vpx; vpy; vpz] color w = (Ret tt, w') /\
        children (cur_axes w') = children (cur_axes w) ++ [Line3D x y z color] /\
        length x = 100%nat /\ length y = 100%nat /\ length z = 100%nat /\
        Forall (fun v => is_nan v = true) x) /\
  (forall w : World,
      exists w',
        plot_line [PyInt 1; PyInt 0] [PyInt 0; PyInt 0] None w = (Ret tt, w') /\
        children (cur_axes w')
          = children (cur_axes w)
            ++ [Line2D (linspace (-5)%float 5%float 100) (repeat 0%float 100) None]) /\
  (forall w : World,
      exists w',
        plot_line [PyInt 1; PyInt 0; PyInt 0] [PyInt 0; PyInt 0; PyInt 0] None w = (Ret tt, w') /\
        children (cur_axes w')
          = children (cur_axes w)
            ++ [Line3D (linspace (-5)%float 5%float 100) (repeat 0%float 100)
                       (repeat 0%float 100) None]).
Proof.
  split; [|split; [|split]].
  - intros vdx vdy vpx vpy color dx dy px py w Edx Edy Epx Epy Hz.
    destruct (plot_line_2d_ok vdx vdy vpx vpy [] color dx dy px py w Edx Edy Epx Epy)
      as (w' & E & Hch & _).
    eexists _, _, w'. split; [exact E|]. split; [exact Hch|].
    rewrite !line_coord_samples, !length_map, length_linspace.
    split; [reflexivity|]. split; [reflexivity|]. by apply x_coordinates_nan.
  - intros vdx vdy vdz vpx vpy vpz color dx dy dz px py pz w Edx Edy Edz Epx Epy Epz Hz.
    destruct (plot_line_3d_ok vdx vdy vdz vpx vpy vpz [] color dx dy dz px py pz w
                Edx Edy Edz Epx Epy Epz) as (w' & E & Hch & _).
    eexists _, _, _, w'. split; [exact E|]. split; [exact Hch|].
    rewrite !line_coord_samples, !length_map, length_linspace.
    repeat (split; [reflexivity|]). by apply x_coordinates_nan.
  - intros w.
    destruct (plot_line_2d_ok (PyInt 1) (PyInt 0) (PyInt 0) (PyInt 0) [] None
                1%float 0%float 0%float 0%float w) as (w' & E & Hch & _);
      try (vm_compute; reflexivity).
    exists w'. split; [exact E|]. rewrite Hch.
    apply (f_equal (app (children (cur_axes w)))). vm_compute. reflexivity.
  - intros w.
    destruct (plot_line_3d_ok (PyInt 1) (PyInt 0) (PyInt 0) (PyInt 0) (PyInt 0) (PyInt 0) []
                None 1%float 0%float 0%float 0%float 0%float 0%float w)
      as (w' & E & Hch & _); try (vm_compute; reflexivity).
    exists w'. split; [exact E|]. rewrite Hch.
    apply (f_equal (app (children (cur_axes w)))). vm_compute. reflexivity.
Qed.

Lemma plot_line_zero_direction_witness :
  exists (x y : list float) (w' : World),
    plot_line [PyInt 0; PyInt 1] [PyInt 0; PyInt 0] None empty_world = (Ret tt, w') /\
    children (cur_axes w') = [Line2D x y None] /\
    length x = 100%nat /\ length y = 100%nat /\
    Forall (fun v => is_nan v = true) x.
Proof.
  pose proof plot_line_zero_direction as (H2 & _).
  apply (H2 (PyInt 0) (PyInt 1) (PyInt 0) (PyInt 0) None 0%float 1%float 0%float 0%float
            empty_world); vm_compute; reflexivity.
Defined.

(** ** Ordering of Python numbers *)

Lemma Qlt_bool_iff (p q : Q) : Qlt_bool p q = true <-> (p < q)%Q.
Proof.
  unfold Qlt_bool. rewrite negb_true_iff. split.
  - intros Hf. apply Qnot_le_lt. intros Hle. apply Qle_bool_iff in Hle. congruence.
  - intros Hlt. destruct (Qle_bool q p) eqn:E; [|reflexivity].
    apply Qle_bool_iff in E. exfalso. exact (Qlt_not_le _ _ Hlt E).
Qed.

Lemma xreal_lt_irrefl (a : xreal) : xreal_lt a a = false.
Proof.
  destruct a as [|q|]; try reflexivity. simpl.
  destruct (Qlt_bool q q) eqn:E; [|reflexivity].
  apply Qlt_bool_iff in E. exfalso. exact (Qlt_irrefl _ E).
Qed.

Lemma xreal_lt_trans (a b c : xreal) :
  xreal_lt a b = true -> xreal_lt b c = true -> xreal_lt a c = true.
Proof.
  destruct a as [|p|], b as [|q|], c as [|r|]; simpl; try congruence.
  rewrite !Qlt_bool_iff. apply Qlt_trans.
Qed.

Lemma py_lt_irrefl (a : pyval) : py_lt a a = false.
Proof. unfold py_lt. destruct (exact_value a); [apply xreal_lt_irrefl|reflexivity]. Qed.

Lemma py_lt_trans (a b c : pyval) :
  py_lt a b = true -> py_lt b c = true -> py_lt a c = true.
Proof.
  unfold py_lt.
  destruct (exact_value a), (exact_value b), (exact_value c); try congruence.
  apply xreal_lt_trans.
Qed.

(** The loop of [min] and [max] finds such an element whenever the
    comparison is a strict order. *)
Section Extreme.
Variable before : pyval -> pyval -> bool.
Hypothesis before_irrefl : forall a, before a a = false.
Hypothesis before_trans :
  forall a b c, before a b = true -> before b c = true -> before a c = true.

Lemma extreme_from_spec (l : list pyval) :
  forall cur,
    (extreme_from before cur l = cur \/ before (extreme_from before cur l) cur = true) /\
    extreme before (extreme_from before cur l) (cur :: l).
Proof.
  induction l as [|item l IH]; intros cur.
  - simpl. split; [by left|]. split; [apply list_elem_of_here|].
    intros v Hv. apply list_elem_of_singleton in Hv as ->. apply before_irrefl.
  - change (extreme_from before cur (item :: l))
      with (extreme_from before (if before item cur then item else cur) l).
    destruct (before item cur) eqn:Hic.
    + destruct (IH item) as (Hle & Hin & Hlow).
      set (m := extreme_from before item l) in *.
      assert (Hmc : before m cur = true).
      { destruct Hle as [->|Hlt]; [exact Hic|exact (before_trans _ _ _ Hlt Hic)]. }
      split; [by right|]. split; [by apply list_elem_of_further|].
      intros v Hv. apply elem_of_cons in Hv as [->|Hv]; [|by apply Hlow].
      destruct (before cur m) eqn:Hcm; [|reflexivity].
      rewrite <- (before_irrefl cur). symmetry. exact (before_trans _ _ _ Hcm Hmc).
    + destruct (IH cur) as (Hle & Hin & Hlow).
      set (m := extreme_from before cur l) in *.
      split; [exact Hle|]. split.
      { apply elem_of_cons in Hin as [->|Hin]; [apply list_elem_of_here|].
        by do 2 apply list_elem_of_further. }
      intros v Hv. apply elem_of_cons in Hv as [->|Hv]; [by apply Hlow, list_elem_of_here|].
      apply elem_of_cons in Hv as [->|Hv]; [|by apply Hlow, list_elem_of_further].
      destruct (before item m) eqn:Him; [|reflexivity].
      destruct Hle as [E|Hlt]; [rewrite E in Him; congruence|].
      rewrite <- Hic. symmetry. exact (before_trans _ _ _ Him Hlt).
Qed.
End Extreme.

Lemma py_min_least (v : pyval) (l : list pyval) :
  exists m, py_min (v :: l) = Ret m /\ least m (v :: l).
Proof.
  exists (min_from v l). split; [reflexivity|].
  apply (extreme_from_spec py_lt py_lt_irrefl py_lt_trans l v).
Qed.

Lemma py_max_greatest (v : pyval) (l : list pyval) :
  exists m, py_max (v :: l) = Ret m /\ greatest m (v :: l).
Proof.
  exists (max_from v l). split; [reflexivity|].
  apply (extreme_from_spec py_gt); unfold py_gt.
  - intros a. apply py_lt_irrefl.
  - intros a b c Hab Hbc. exact (py_lt_trans _ _ _ Hbc Hab).
Qed.

(** ** autoscale_arrows on three-dimensional arrows *)

Lemma lift_Ret {A : Type} (o : outcome A) (a : A) (w : World) :
  o = Ret a -> lift o w = (Ret a, w).
Proof. by intros ->. Qed.

Lemma floatable_float (f : float) : floatable (PyFloat f).
Proof. by exists f. Qed.

Lemma py_sub_ok (a b : pyval) :
  floatable a -> floatable b ->
  exists r, py_sub a b = Ret r /\
            ((exists f, r = PyFloat f) \/
             (exists x y, a = PyInt x /\ b = PyInt y /\ r = PyInt (x - y))).
Proof.
  intros [fa Ha] [fb Hb].
  destruct a as [x|x], b as [y|y];
    try (eexists; split; [unfold py_sub; rewrite ?Ha, ?Hb; reflexivity|left; by eexists]).
  eexists. split; [reflexivity|]. right. by exists x, y.
Qed.

Lemma py_add_ok (a b : pyval) :
  floatable a -> floatable b -> exists r, py_add a b = Ret r.
Proof.
  intros [fa Ha] [fb Hb].
  destruct a as [x|x], b as [y|y];
    eexists; unfold py_add; rewrite ?Ha, ?Hb; reflexivity.
Qed.

Lemma both_cons {A : Type} (f : A -> pyval * pyval) (v : A) (rest : list A) :
  both f (v :: rest) = fst (f v) :: snd (f v) :: both f rest.
Proof. reflexivity. Qed.

(** An extent is a float, or the difference of two int coordinates. *)
Lemma extent_floatable (coords l : list pyval) (lo hi ext : pyval) :
  ints_fit coords -> l ⊆ coords -> lo ∈ l -> hi ∈ l ->
  py_sub hi lo = Ret ext -> floatable ext.
Proof.
  intros [Hfl Hdiff] Hsub Hlo Hhi E.
  rewrite List.Forall_forall in Hfl.
  destruct (py_sub_ok hi lo) as (r & Er & Hr).
  - apply Hfl, list_elem_of_In, Hsub, Hhi.
  - apply Hfl, list_elem_of_In, Hsub, Hlo.
  - rewrite Er in E. injection E as <-.
    destruct Hr as [[f ->]|(x & y & -> & -> & ->)]; [apply floatable_float|].
    apply Hdiff; apply Hsub; assumption.
Qed.

(** The three-dimensional branch, run step by step once every value it
    computes is known. *)
Lemma autoscale_arrows_3d_run (ax : option nat) (w : World)
    (min_x max_x min_y max_y min_z max_z ext_x ext_y ext_z cube_side hi_x hi_y hi_z : pyval) :
  arrows3D (axes_of w (target ax w)) <> [] ->
  arrows2D (axes_of w (target ax w)) = [] ->
  py_min (all_xs3 (axes_of w (target ax w))) = Ret min_x ->
  py_max (all_xs3 (axes_of w (target ax w))) = Ret max_x ->
  py_min (all_ys3 (axes_of w (target ax w))) = Ret min_y ->
  py_max (all_ys3 (axes_of w (target ax w))) = Ret max_y ->
  py_min (all_zs3 (axes_of w (target ax w))) = Ret min_z ->
  py_max (all_zs3 (axes_of w (target ax w))) = Ret max_z ->
  py_sub max_x min_x = Ret ext_x ->
  py_sub max_y min_y = Ret ext_y ->
  py_sub max_z min_z = Ret ext_z ->
  py_max [ext_x; ext_y; ext_z] = Ret cube_side ->
  py_add min_x cube_side = Ret hi_x ->
  py_add min_y cube_side = Ret hi_y ->
  py_add min_z cube_side = Ret hi_z ->
  autoscale_arrows ax w
  = (Ret None,
     put_axes (target ax w)
       (with_limits (axes_of w (target ax w)) (min_x, hi_x) (min_y, hi_y) (min_z, hi_z)) w).
Proof.
  intros H3 H2 Emin_x Emax_x Emin_y Emax_y Emin_z Emax_z Eext_x Eext_y Eext_z Eside
    Ehi_x Ehi_y Ehi_z.
  unfold autoscale_arrows.
  erewrite bind_Ret by apply autoscale_target.
  erewrite bind_Ret by reflexivity.
  erewrite bind_Ret by reflexivity.
  cbv zeta.
  change (omap as_Arrow2D (children (axes_of w (target ax w))))
    with (arrows2D (axes_of w (target ax w))).
  change (omap as_Arrow3D (children (axes_of w (target ax w))))
    with (arrows3D (axes_of w (target ax w))).
  rewrite H2.
  change (both (fun v => fst (fst v)) (arrows3D (axes_of w (target ax w))))
    with (all_xs3 (axes_of w (target ax w))).
  change (both (fun v => snd (fst v)) (arrows3D (axes_of w (target ax w))))
    with (all_ys3 (axes_of w (target ax w))).
  change (both (fun v => snd v) (arrows3D (axes_of w (target ax w))))
    with (all_zs3 (axes_of w (target ax w))).
  destruct (arrows3D (axes_of w (target ax w))) as [|v rest] eqn:E3; [done|].
  cbn [nonempty andb].
  unfold mbind at 1, M_bind at 1.
  erewrite bind_Ret by (apply lift_Ret; exact Emin_x).
  erewrite bind_Ret by (apply lift_Ret; exact Emax_x).
  erewrite bind_Ret by (apply lift_Ret; exact Emin_y).
  erewrite bind_Ret by (apply lift_Ret; exact Emax_y).
  erewrite bind_Ret by (apply lift_Ret; exact Emin_z).
  erewrite bind_Ret by (apply lift_Ret; exact Emax_z).
  erewrite bind_Ret by (apply lift_Ret; exact Eext_x).
  erewrite bind_Ret by (apply lift_Ret; exact Eext_y).
  erewrite bind_Ret by (apply lift_Ret; exact Eext_z).
  erewrite bind_Ret by (apply lift_Ret; exact Eside).
  erewrite bind_Ret by (apply lift_Ret; exact Ehi_x).
  erewrite bind_Ret by reflexivity.
  erewrite bind_Ret by (apply lift_Ret; exact Ehi_y).
  erewrite bind_Ret by reflexivity.
  erewrite bind_Ret by (apply lift_Ret; exact Ehi_z).
  unfold set_zlim, set_ylim, set_xlim, update_axes, mbind, M_bind, mret, M_ret.
  repeat (rewrite axes_of_put_eq || rewrite put_put); cbn.
  reflexivity.
Qed.

(** One coordinate of the bounding box: minimum, maximum and extent. *)
Lemma axis_extent (coords l : list pyval) :
  l <> [] -> l ⊆ coords -> ints_fit coords ->
  exists lo hi ext,
    py_min l = Ret lo /\ py_max l = Ret hi /\
    least lo l /\ greatest hi l /\
    py_sub hi lo = Ret ext /\ floatable ext /\ floatable lo.
Proof.
  intros Hne Hsub Hfit. destruct l as [|v rest]; [done|].
  destruct (py_min_least v rest) as (lo & Elo & Hlo).
  destruct (py_max_greatest v rest) as (hi & Ehi & Hhi).
  assert (Hfl : forall u, u ∈ coords -> floatable u).
  { intros u Hu. destruct Hfit as [Hall _]. rewrite List.Forall_forall in Hall.
    apply Hall, list_elem_of_In, Hu. }
  destruct (py_sub_ok hi lo) as (ext & Eext & _);
    [apply Hfl, Hsub, Hhi|apply Hfl, Hsub, Hlo|].
  exists lo, hi, ext. repeat (split; [assumption|]). split.
  - exact (extent_floatable coords (v :: rest) lo hi ext Hfit Hsub (proj1 Hlo) (proj1 Hhi) Eext).
  - apply Hfl, Hsub, Hlo.
Qed.

(** The side of the cube or square: the largest extent. *)
Lemma largest_extent (ext : pyval) (exts : list pyval) :
  Forall floatable (ext :: exts) ->
  exists side, py_max (ext :: exts) = Ret side /\ greatest side (ext :: exts) /\
               floatable side.
Proof.
  intros Hfl. destruct (py_max_greatest ext exts) as (side & Eside & Hside).
  exists side. split; [exact Eside|]. split; [exact Hside|].
  rewrite List.Forall_forall in Hfl. apply Hfl, list_elem_of_In, Hside.
Qed.

(** What [py_sub] and [py_add] return is Python's difference and sum. *)
Lemma py_sub_python (a b c : pyval) : py_sub a b = Ret c -> python_sub a b c.
Proof.
  unfold py_sub, python_sub.
  destruct a as [x|fa], b as [y|fb]; try (by intros [= <-]); intros Hc.
  - destruct (py_float (PyInt x)) as [f1|]; cbn [obind py_float] in Hc; [|discriminate Hc].
    injection Hc as <-. by eexists _, _.
  - destruct (py_float (PyInt y)) as [f2|]; cbn [obind py_float] in Hc; [|discriminate Hc].
    injection Hc as <-. by eexists _, _.
  - cbn [obind py_float] in Hc. injection Hc as <-. by eexists _, _.
Qed.

Lemma py_add_python (a b c : pyval) : py_add a b = Ret c -> python_add a b c.
Proof.
  unfold py_add, python_add.
  destruct a as [x|fa], b as [y|fb]; try (by intros [= <-]); intros Hc.
  - destruct (py_float (PyInt x)) as [f1|]; cbn [obind py_float] in Hc; [|discriminate Hc].
    injection Hc as <-. by eexists _, _.
  - destruct (py_float (PyInt y)) as [f2|]; cbn [obind py_float] in Hc; [|discriminate Hc].
    injection Hc as <-. by eexists _, _.
  - cbn [obind py_float] in Hc. injection Hc as <-. by eexists _, _.
Qed.

(** The coordinates the collecting loop appends are the endpoints'
    coordinates, when the filter [g] keeps every arrow of the axes. *)
Lemma elem_of_both {T : Type} (g : artist -> option T) (f : T -> pyval * pyval) (i : nat)
    (chs : list artist) :
  (forall c, c ∈ chs ->
             match g c with
             | Some t => arrow_start c !! i = Some (fst (f t)) /\
                         arrow_end c !! i = Some (snd (f t))
             | None => arrow_start c !! i = None /\ arrow_end c !! i = None
             end) ->
  forall v, v ∈ both f (omap g chs) <-> endpoint_coord i chs v.
Proof.
  induction chs as [|c chs IH]; intros Hg v.
  - split; [intros Hv; by apply elem_of_nil in Hv|].
    intros (c & Hc & _). by apply elem_of_nil in Hc.
  - assert (Hc := Hg c (list_elem_of_here _ _)).
    assert (IH' := IH (fun c' Hc' => Hg c' (list_elem_of_further _ _ _ Hc')) v).
    assert (Hcons : endpoint_coord i (c :: chs) v <->
                    (arrow_start c !! i = Some v \/ arrow_end c !! i = Some v) \/
                    endpoint_coord i chs v).
    { split.
      - intros (c' & Hc' & Hv). apply elem_of_cons in Hc' as [->|Hc']; [by left|].
        right. by exists c'.
      - intros [Hv|(c' & Hc' & Hv)].
        + exists c. split; [apply list_elem_of_here|exact Hv].
        + exists c'. split; [by apply list_elem_of_further|exact Hv]. }
    rewrite Hcons. cbn [omap list_omap]. destruct (g c) as [t|].
    + rewrite both_cons, !elem_of_cons, IH'. destruct Hc as [-> ->].
      split.
      * intros [->|[->|Hv]]; [left; by left|left; by right|by right].
      * intros [[[= ->]|[= ->]]|Hv]; [by left|right; by left|right; by right].
    + rewrite IH'. destruct Hc as [-> ->].
      split; [by right|]. intros [[Hv|Hv]|Hv]; [discriminate Hv|discriminate Hv|exact Hv].
Qed.

Lemma elem_of_coords3 (chs : list artist) :
  (forall xs ys kw, Arrow2D xs ys kw ∉ chs) ->
  forall v,
    (v ∈ both (fun t => fst (fst t)) (omap as_Arrow3D chs) <-> endpoint_coord 0 chs v) /\
    (v ∈ both (fun t => snd (fst t)) (omap as_Arrow3D chs) <-> endpoint_coord 1 chs v) /\
    (v ∈ both (fun t => snd t) (omap as_Arrow3D chs) <-> endpoint_coord 2 chs v).
Proof.
  intros H2 v.
  split; [|split]; apply elem_of_both; intros c Hc;
    (destruct c as [xs ys zs kw|xs ys kw| | |];
     [by split|exfalso; exact (H2 xs ys kw Hc)|by split..]).
Qed.

Lemma elem_of_coords2 (chs : list artist) :
  (forall xs ys zs kw, Arrow3D xs ys zs kw ∉ chs) ->
  forall v,
    (v ∈ both fst (omap as_Arrow2D chs) <-> endpoint_coord 0 chs v) /\
    (v ∈ both snd (omap as_Arrow2D chs) <-> endpoint_coord 1 chs v).
Proof.
  intros H3 v.
  split; apply elem_of_both; intros c Hc;
    (destruct c as [xs ys zs kw|xs ys kw| | |];
     [exfalso; exact (H3 xs ys zs kw Hc)|by split..]).
Qed.

Lemma bounds_of_extremes (i : nat) (chs : list artist) (l : list pyval) (lo hi : pyval) :
  (forall v, v ∈ l <-> endpoint_coord i chs v) ->
  least lo l -> greatest hi l -> bounds i chs lo hi.
Proof.
  intros Hl [Hlo Hlow] [Hhi Hhigh].
  split; [by apply Hl|]. split; [by apply Hl|].
  intros v Hv. apply Hl in Hv. split; [by apply Hlow|exact (Hhigh v Hv)].
Qed.

Lemma ints_fit_of_coords (i : nat) (chs : list artist) (l : list pyval) :
  (forall v, v ∈ l <-> endpoint_coord i chs v) -> coords_fit chs -> ints_fit l.
Proof.
  intros Hl Hfit. destruct (Hfit i) as [Hfl Hdiff]. split.
  - apply List.Forall_forall. intros v Hv. apply Hfl, Hl, list_elem_of_In, Hv.
  - intros z z' Hz Hz'. apply Hdiff; by apply Hl.
Qed.

Lemma omap_not_nil {T : Type} (g : artist -> option T) (c : artist) (chs : list artist) :
  c ∈ chs -> is_Some (g c) -> omap g chs <> [].
Proof.
  intros Hc [t Ht] E.
  assert (Hin : t ∈ omap g chs) by (apply list_elem_of_omap; by exists c).
  rewrite E in Hin. by apply elem_of_nil in Hin.
Qed.

Lemma omap_nil {T : Type} (g : artist -> option T) (chs : list artist) :
  (forall c, c ∈ chs -> g c = None) -> omap g chs = [].
Proof.
  intros Hg. destruct (omap g chs) as [|t l] eqn:E; [reflexivity|].
  assert (Hin : t ∈ omap g chs) by (rewrite E; apply list_elem_of_here).
  apply list_elem_of_omap in Hin as (c & Hc & Ht). rewrite (Hg c Hc) in Ht. discriminate Ht.
Qed.

Lemma omap_filter_arrow {T : Type} (g : artist -> option T) (chs : list artist) :
  (forall c, is_arrow c = false -> g c = None) ->
  omap g chs = omap g (List.filter is_arrow chs).
Proof.
  intros Hg. induction chs as [|c chs IH]; [reflexivity|].
  cbn [List.filter omap list_omap]. destruct (is_arrow c) eqn:Hc.
  - cbn [omap list_omap]. destruct (g c); by rewrite IH.
  - rewrite (Hg c Hc). exact IH.
Qed.

Lemma arrows3D_filter (a : Axes) :
  arrows3D a = omap as_Arrow3D (List.filter is_arrow (children a)).
Proof. apply omap_filter_arrow. by intros []. Qed.

Lemma arrows2D_filter (a : Axes) :
  arrows2D a = omap as_Arrow2D (List.filter is_arrow (children a)).
Proof. apply omap_filter_arrow. by intros []. Qed.

(** C4: on an axes with at least one [Arrow3D] child and no [Arrow2D]
    child, [autoscale_arrows] computes, per coordinate, the bounding box of
    the endpoints of all the arrows ([min] and [max] are coordinates of
    endpoints, and no endpoint of any arrow lies below [min] or above
    [max]), the extent [max - min], and as [cube_side] the largest of the
    three extents (one of them, exceeded by none); it returns [None] having
    set the three limits to [(min, min + cube_side)], children and aspect
    left as they were.  The differences and sums are Python's: exact on two
    ints, in binary64 otherwise.  The int coordinates, and the differences
    of two of them, are assumed to fit a float, so that no conversion
    overflows, and the limits to be finite, as matplotlib asks of limits.
    For a single arrow from (0,0,0) to (2,4,6), as [plot_vec] stores it, the
    three limits are (0, 6); for the arrows from (1,2,3) to (2,4,6) and from
    (-1,3,5) to (3,1,4) the extents are 4, 3 and 3 and the limits are
    (-1, 3), (1, 5) and (3, 7). *)
Theorem autoscale_arrows_cube :
  (forall (ax : option nat) (w : World),
      (exists xs ys zs kw, Arrow3D xs ys zs kw ∈ children (axes_of w (target ax w))) ->
      (forall xs ys kw, Arrow2D xs ys kw ∉ children (axes_of w (target ax w))) ->
      coords_fit (children (axes_of w (target ax w))) ->
      exists min_x max_x min_y max_y min_z max_z ext_x ext_y ext_z cube_side hi_x hi_y hi_z,
        bounds 0 (children (axes_of w (target ax w))) min_x max_x /\
        bounds 1 (children (axes_of w (target ax w))) min_y max_y /\
        bounds 2 (children (axes_of w (target ax w))) min_z max_z /\
        python_sub max_x min_x ext_x /\
        python_sub max_y min_y ext_y /\
        python_sub max_z min_z ext_z /\
        greatest cube_side [ext_x; ext_y; ext_z] /\
        python_add min_x cube_side hi_x /\
        python_add min_y cube_side hi_y /\
        python_add min_z cube_side hi_z /\
        (finite_limits (min_x, hi_x) -> finite_limits (min_y, hi_y) ->
         finite_limits (min_z, hi_z) ->
         autoscale_arrows ax w
         = (Ret None,
            put_axes (target ax w)
              (with_limits (axes_of w (target ax w))
                 (min_x, hi_x) (min_y, hi_y) (min_z, hi_z)) w))) /\
  (forall (ax : option nat) (w : World) (kw : arrow_kw),
      List.filter is_arrow (children (axes_of w (target ax w)))
        = [Arrow3D (PyInt 0, PyFloat 2) (PyInt 0, PyFloat 4) (PyInt 0, PyFloat 6) kw] ->
      autoscale_arrows ax w
      = (Ret None,
         put_axes (target ax w)
           (with_limits (axes_of w (target ax w))
              (PyInt 0, PyFloat 6) (PyInt 0, PyFloat 6) (PyInt 0, PyFloat 6)) w)) /\
  autoscale_arrows None two_arrows3D_world
  = (Ret None,
     put_axes 0
       (with_limits (axes_of two_arrows3D_world 0)
          (PyInt (-1), PyFloat 3) (PyFloat 1, PyFloat 5) (PyInt 3, PyFloat 7))
       two_arrows3D_world).
Proof.
  split; [|split].
  - intros ax w (xs0 & ys0 & zs0 & kw0 & H3) H2 Hfit.
    set (a := axes_of w (target ax w)) in *.
    assert (E3 : arrows3D a <> [])
      by (apply (omap_not_nil as_Arrow3D _ _ H3); by eexists).
    assert (E2 : arrows2D a = []).
    { apply omap_nil. intros c Hc. destruct c as [| xs ys kw| | |]; try reflexivity.
      exfalso. exact (H2 xs ys kw Hc). }
    assert (Hc3 := elem_of_coords3 (children a) H2).
    assert (Hxs : forall v, v ∈ all_xs3 a <-> endpoint_coord 0 (children a) v)
      by (intros v; apply Hc3).
    assert (Hys : forall v, v ∈ all_ys3 a <-> endpoint_coord 1 (children a) v)
      by (intros v; apply Hc3).
    assert (Hzs : forall v, v ∈ all_zs3 a <-> endpoint_coord 2 (children a) v)
      by (intros v; apply Hc3).
    clear Hc3.
    assert (Fxs := ints_fit_of_coords 0 _ _ Hxs Hfit).
    assert (Fys := ints_fit_of_coords 1 _ _ Hys Hfit).
    assert (Fzs := ints_fit_of_coords 2 _ _ Hzs Hfit).
    assert (Nxs : all_xs3 a <> [])
      by (unfold all_xs3; destruct (arrows3D a); [done|discriminate]).
    assert (Nys : all_ys3 a <> [])
      by (unfold all_ys3; destruct (arrows3D a); [done|discriminate]).
    assert (Nzs : all_zs3 a <> [])
      by (unfold all_zs3; destruct (arrows3D a); [done|discriminate]).
    destruct (axis_extent (all_xs3 a) (all_xs3 a) Nxs ltac:(done) Fxs)
      as (min_x & max_x & ext_x & Emin_x & Emax_x & Lx & Gx & Eext_x & Fext_x & Fmin_x).
    destruct (axis_extent (all_ys3 a) (all_ys3 a) Nys ltac:(done) Fys)
      as (min_y & max_y & ext_y & Emin_y & Emax_y & Ly & Gy & Eext_y & Fext_y & Fmin_y).
    destruct (axis_extent (all_zs3 a) (all_zs3 a) Nzs ltac:(done) Fzs)
      as (min_z & max_z & ext_z & Emin_z & Emax_z & Lz & Gz & Eext_z & Fext_z & Fmin_z).
    destruct (largest_extent ext_x [ext_y; ext_z]) as (side & Eside & Hside & Fside);
      [repeat constructor; assumption|].
    destruct (py_add_ok min_x side Fmin_x Fside) as [hi_x Ehi_x].
    destruct (py_add_ok min_y side Fmin_y Fside) as [hi_y Ehi_y].
    destruct (py_add_ok min_z side Fmin_z Fside) as [hi_z Ehi_z].
    exists min_x, max_x, min_y, max_y, min_z, max_z, ext_x, ext_y, ext_z, side,
      hi_x, hi_y, hi_z.
    split; [exact (bounds_of_extremes 0 _ _ _ _ Hxs Lx Gx)|].
    split; [exact (bounds_of_extremes 1 _ _ _ _ Hys Ly Gy)|].
    split; [exact (bounds_of_extremes 2 _ _ _ _ Hzs Lz Gz)|].
    split; [by apply py_sub_python|]. split; [by apply py_sub_python|].
    split; [by apply py_sub_python|]. split; [exact Hside|].
    split; [by apply py_add_python|]. split; [by apply py_add_python|].
    split; [by apply py_add_python|].
    intros _ _ _.
    by apply (autoscale_arrows_3d_run ax w min_x max_x min_y max_y min_z max_z
                ext_x ext_y ext_z side hi_x hi_y hi_z).
  - intros ax w kw Hf.
    assert (E3 : arrows3D (axes_of w (target ax w))
                 = [((PyInt 0, PyFloat 2), (PyInt 0, PyFloat 4), (PyInt 0, PyFloat 6))])
      by (rewrite arrows3D_filter, Hf; reflexivity).
    assert (E2 : arrows2D (axes_of w (target ax w)) = [])
      by (rewrite arrows2D_filter, Hf; reflexivity).
    apply (autoscale_arrows_3d_run ax w (PyInt 0) (PyFloat 2) (PyInt 0) (PyFloat 4)
             (PyInt 0) (PyFloat 6) (PyFloat 2) (PyFloat 4) (PyFloat 6) (PyFloat 6));
      try assumption;
      try (unfold all_xs3, all_ys3, all_zs3; rewrite E3);
      try (vm_compute; reflexivity).
    discriminate.
  - vm_compute. reflexivity.
Qed.

(** Decides [coords_fit] and the like on a list of children that is given
    in full. *)
Ltac pick_child H :=
  repeat (apply elem_of_cons in H as [->|H]); [..|by apply elem_of_nil in H].

Ltac pick_coord i H :=
  destruct i as [|[|[|i]]]; cbn in H; destruct H as [H|H]; try discriminate H;
  injection H as H.

Lemma two_arrows3D_children :
  children (axes_of two_arrows3D_world (target None two_arrows3D_world))
  = [Arrow3D (PyInt 1, PyFloat 2) (PyInt 2, PyFloat 4) (PyInt 3, PyFloat 6)
             (arrow_kwargs "k");
     Line3D [0%float] [0%float] [9%float] None;
     Arrow3D (PyInt (-1), PyFloat 3) (PyInt 3, PyFloat 1) (PyInt 5, PyFloat 4)
             (arrow_kwargs "b")].
Proof. vm_compute. reflexivity. Qed.

Lemma two_arrows3D_fit :
  coords_fit (children (axes_of two_arrows3D_world (target None two_arrows3D_world))).
Proof.
  rewrite two_arrows3D_children. intros i. split.
  - intros v (c & Hc & Hv). pick_child Hc; pick_coord i Hv; subst v;
      eexists; vm_compute; reflexivity.
  - intros z z' (c & Hc & Hv) (c' & Hc' & Hv').
    pick_child Hc; pick_child Hc'; pick_coord i Hv; try discriminate Hv'.
    all: cbn in Hv'; destruct Hv' as [Hv'|Hv']; try discriminate Hv';
      injection Hv' as Hv'; subst z z'; eexists; vm_compute; reflexivity.
Qed.

Lemma autoscale_arrows_cube_witness :
  exists min_x max_x min_y max_y min_z max_z ext_x ext_y ext_z cube_side hi_x hi_y hi_z,
    bounds 0 (children (axes_of two_arrows3D_world 0)) min_x max_x /\
    bounds 1 (children (axes_of two_arrows3D_world 0)) min_y max_y /\
    bounds 2 (children (axes_of two_arrows3D_world 0)) min_z max_z /\
    python_sub max_x min_x ext_x /\
    python_sub max_y min_y ext_y /\
    python_sub max_z min_z ext_z /\
    greatest cube_side [ext_x; ext_y; ext_z] /\
    python_add min_x cube_side hi_x /\
    python_add min_y cube_side hi_y /\
    python_add min_z cube_side hi_z /\
    (finite_limits (min_x, hi_x) -> finite_limits (min_y, hi_y) ->
     finite_limits (min_z, hi_z) ->
     autoscale_arrows None two_arrows3D_world
     = (Ret None,
        put_axes 0
          (with_limits (axes_of two_arrows3D_world 0)
             (min_x, hi_x) (min_y, hi_y) (min_z, hi_z)) two_arrows3D_world)).
Proof.
  apply (proj1 autoscale_arrows_cube None two_arrows3D_world).
  - rewrite two_arrows3D_children. eexists _, _, _, _. apply list_elem_of_here.
  - rewrite two_arrows3D_children. intros xs ys kw Hc.
    repeat (apply elem_of_cons in Hc as [Hc|Hc]; [discriminate Hc|]).
    by apply elem_of_nil in Hc.
  - exact two_arrows3D_fit.
Defined.

(** * Further results *)

(** ** Lengths that are neither 2 nor 3 *)

(** X1: [plot_line] with a direction whose length is neither 2 nor 3 does
    nothing at all: it returns normally and the world is as before, with
    nothing printed, whatever the point is. *)
Theorem plot_line_unsupported_length (dir_vec point : list pyval) (color : option string)
    (w : World) :
  length dir_vec <> 2%nat -> length dir_vec <> 3%nat ->
  plot_line dir_vec point color w = (Ret tt, w).
Proof.
  intros H2 H3. unfold plot_line.
  destruct (Nat.eqb_spec (length dir_vec) 3) as [E|_]; [contradiction|].
  destruct (Nat.eqb_spec (length dir_vec) 2) as [E|_]; [contradiction|].
  reflexivity.
Qed.

Lemma plot_line_unsupported_length_witness :
  plot_line [PyInt 1] [] (Some "r") empty_world = (Ret tt, empty_world).
Proof. apply (plot_line_unsupported_length [PyInt 1] [] (Some "r") empty_world); simpl; lia. Defined.

(** X2: [plot_plane] with a normal whose length is neither 2 nor 3 does
    nothing at all: it returns normally, draws and prints nothing, and
    takes no colour from the picker, whatever the other arguments are. *)
Theorem plot_plane_unsupported_length (normal : list pyval) (d : pyval)
    (color : option string) (xrange yrange : list pyval) (w : World) :
  length normal <> 2%nat -> length normal <> 3%nat ->
  plot_plane normal d color xrange yrange w = (Ret tt, w).
Proof.
  intros H2 H3. unfold plot_plane.
  destruct (Nat.eqb_spec (length normal) 3) as [E|_]; [contradiction|].
  destruct (Nat.eqb_spec (length normal) 2) as [E|_]; [contradiction|].
  reflexivity.
Qed.

Lemma plot_plane_unsupported_length_witness :
  plot_plane [PyInt 1; PyInt 2; PyInt 3; PyInt 4] (PyInt 0) None [] [] empty_world
  = (Ret tt, empty_world).
Proof.
  apply (plot_plane_unsupported_length [PyInt 1; PyInt 2; PyInt 3; PyInt 4]); simpl; lia.
Defined.

(** ** The two-dimensional [plot_plane] *)

Lemma plot_plane_2d_ok (vnx vny vd : pyval) (color : option string)
    (vx0 vx1 : pyval) (rx yrange : list pyval) (nx ny d x0 x1 : float) (w : World) :
  py_float vnx = Ret nx -> py_float vny = Ret ny -> py_float vd = Ret d ->
  py_float vx0 = Ret x0 -> py_float vx1 = Ret x1 ->
  plot_plane [vnx; vny] vd color (vx0 :: vx1 :: rx) yrange w
  = (Ret tt,
     put_axes (current w)
       (add_child (Line2D (linspace x0 x1 100) (plane_y nx ny d (linspace x0 x1 100)) color)
          (with_aspect "equal" (cur_axes w))) w).
Proof.
  intros Enx Eny Ed Ex0 Ex1.
  unfold plot_plane. cbn [length Nat.eqb].
  unfold mbind at 1, M_bind at 1, mret at 1, M_ret at 1.
  erewrite bind_Ret by reflexivity.
  erewrite bind_Ret by reflexivity.
  erewrite bind_Ret by (eapply float_item_Ret; [reflexivity|exact Enx]).
  erewrite bind_Ret by (eapply float_item_Ret; [reflexivity|exact Eny]).
  erewrite bind_Ret by (unfold lift; rewrite Ed; reflexivity).
  erewrite bind_Ret by (apply linspace_range_ok; [exact Ex0|exact Ex1]).
  unfold add_artist, update_axes, set_aspect, update_axes.
  repeat (rewrite axes_of_put_eq || rewrite put_put). reflexivity.
Qed.

(** X3: for a normal of two components, an offset and an x range that
    [float()] accepts, [plot_plane] returns normally and the current axes
    gains exactly one child: the line through the 100 samples [x] of the x
    range with [y = (d - normal_x*x) / normal_y].  The y range is never
    read (any list will do), the colour is passed on as given (no colour
    stays no colour), and the colour picker is neither consulted nor
    advanced. *)
Theorem plot_plane_2d_line (vnx vny vd : pyval) (color : option string)
    (vx0 vx1 : pyval) (rx yrange : list pyval) (nx ny d x0 x1 : float) (w : World) :
  py_float vnx = Ret nx -> py_float vny = Ret ny -> py_float vd = Ret d ->
  py_float vx0 = Ret x0 -> py_float vx1 = Ret x1 ->
  exists (x : list float) (w' : World),
    x = linspace x0 x1 100 /\ length x = 100%nat /\ List.last x nan = x1 /\
    plot_plane [vnx; vny] vd color (vx0 :: vx1 :: rx) yrange w = (Ret tt, w') /\
    children (cur_axes w')
      = children (cur_axes w)
        ++ [Line2D x (map (fun xj => ((d - nx * xj) / ny)%float) x) color] /\
    aspect (cur_axes w') = Some "equal" /\
    instance w' = instance w /\
    stdout w' = stdout w.
Proof.
  intros Enx Eny Ed Ex0 Ex1.
  exists (linspace x0 x1 100). eexists.
  split; [reflexivity|]. split; [apply length_linspace|].
  split; [apply last_linspace; lia|].
  split; [exact (plot_plane_2d_ok vnx vny vd color vx0 vx1 rx yrange nx ny d x0 x1 w
                   Enx Eny Ed Ex0 Ex1)|].
  unfold cur_axes; cbn [current put_axes]. rewrite axes_of_put_eq.
    cbn [children aspect add_child with_aspect instance stdout current put_axes].
  split; [|repeat split; reflexivity].
  unfold plane_y, arr_div, rsub_arr, mul_arr. rewrite !map_map. reflexivity.
Qed.

Lemma plot_plane_2d_line_witness :
  exists (x : list float) (w' : World),
    x = linspace (-5)%float 5%float 100 /\
    plot_plane [PyInt 1; PyInt 2] (PyInt 3) None default_range [] empty_world = (Ret tt, w') /\
    children (cur_axes w') = [Line2D x (map (fun xj => ((3 - 1 * xj) / 2)%float) x) None] /\
    instance w' = None.
Proof.
  destruct (plot_plane_2d_line (PyInt 1) (PyInt 2) (PyInt 3) None (PyInt (-5)) (PyInt 5) [] []
              1%float 2%float 3%float (-5)%float 5%float empty_world)
    as (x & w' & Hx & _ & _ & E & Hch & _ & Hi & _); try (vm_compute; reflexivity).
  exists x, w'. repeat split; assumption.
Defined.

(** ** A normal whose last component is zero *)

(** Dividing by a zero gives an infinity or a NaN. *)
Lemma div_zero_not_finite (a z : float) :
  (z =? 0)%float = true -> is_finite (a / z)%float = false.
Proof.
  intros Hz. unfold is_finite, is_nan, is_infinity.
  rewrite !FloatAxioms.eqb_spec, abs_spec, div_spec.
  rewrite FloatAxioms.eqb_spec in Hz. change (Prim2SF 0) with (S754_zero false) in Hz.
  change (Prim2SF infinity) with (S754_infinity false).
  destruct (Prim2SF z) as [s|s| |s m e];
    try discriminate Hz; try (destruct s; discriminate Hz).
  destruct (Prim2SF a) as [sa|sa| |sa ma ea]; try reflexivity;
    destruct sa, s; reflexivity.
Qed.

(** X4: a normal whose last component is zero makes [plot_plane] fail in
    no way: the division is numpy's, element by element, so the call
    returns normally and draws a surface (three components) or a line (two
    components) none of whose heights is a finite number. *)
Theorem plot_plane_zero_last_component :
  (forall (vnx vny vnz vd : pyval) (color : option string)
          (vx0 vx1 : pyval) (rx : list pyval) (vy0 vy1 : pyval) (ry : list pyval)
          (nx ny nz d x0 x1 y0 y1 : float) (w : World),
      py_float vnx = Ret nx -> py_float vny = Ret ny -> py_float vnz = Ret nz ->
      py_float vd = Ret d ->
      py_float vx0 = Ret x0 -> py_float vx1 = Ret x1 ->
      py_float vy0 = Ret y0 -> py_float vy1 = Ret y1 ->
      (color = None -> picker_ok w) ->
      (nz =? 0)%float = true ->
      exists (X Y Z : list (list float)) (c : string) (w' : World),
        plot_plane [vnx; vny; vnz] vd color (vx0 :: vx1 :: rx) (vy0 :: vy1 :: ry) w
          = (Ret tt, w') /\
        children (cur_axes w') = children (cur_axes w) ++ [Surface X Y Z c alpha_0_2] /\
        length Z = 100%nat /\
        Forall (fun row => length row = 100%nat /\
                           Forall (fun z => is_finite z = false) row) Z) /\
  (forall (vnx vny vd : pyval) (color : option string)
          (vx0 vx1 : pyval) (rx yrange : list pyval) (nx ny d x0 x1 : float) (w : World),
      py_float vnx = Ret nx -> py_float vny = Ret ny -> py_float vd = Ret d ->
      py_float vx0 = Ret x0 -> py_float vx1 = Ret x1 ->
      (ny =? 0)%float = true ->
      exists (x y : list float) (w' : World),
        plot_plane [vnx; vny] vd color (vx0 :: vx1 :: rx) yrange w = (Ret tt, w') /\
        children (cur_axes w') = children (cur_axes w) ++ [Line2D x y color] /\
        length y = 100%nat /\
        Forall (fun v => is_finite v = false) y).
Proof.
  split.
  - intros vnx vny vnz vd color vx0 vx1 rx vy0 vy1 ry nx ny nz d x0 x1 y0 y1 w
      Enx Eny Enz Ed Ex0 Ex1 Ey0 Ey1 Hpick Hz.
    destruct (plot_plane_3d_ok vnx vny vnz vd color vx0 vx1 rx vy0 vy1 ry
                nx ny nz d x0 x1 y0 y1 w Enx Eny Enz Ed Ex0 Ex1 Ey0 Ey1 Hpick)
      as (w' & E & Hch & _).
    eexists _, _, _, _, w'. split; [exact E|]. split; [exact Hch|].
    rewrite plane_Z_meshgrid, length_map, length_linspace. split; [reflexivity|].
    apply List.Forall_forall. intros row Hrow.
    apply in_map_iff in Hrow as (yi & <- & _).
    rewrite length_map, length_linspace. split; [reflexivity|].
    apply List.Forall_forall. intros z Hin.
    apply in_map_iff in Hin as (xj & <- & _). by apply div_zero_not_finite.
  - intros vnx vny vd color vx0 vx1 rx yrange nx ny d x0 x1 w Enx Eny Ed Ex0 Ex1 Hz.
    eexists _, _, _.
    split; [exact (plot_plane_2d_ok vnx vny vd color vx0 vx1 rx yrange nx ny d x0 x1 w
                     Enx Eny Ed Ex0 Ex1)|].
    unfold cur_axes; cbn [current put_axes]. rewrite axes_of_put_eq.
    cbn [children aspect add_child with_aspect instance stdout current put_axes].
    split; [reflexivity|].
    unfold plane_y, arr_div. rewrite length_map.
    unfold rsub_arr, mul_arr. rewrite !length_map, length_linspace. split; [reflexivity|].
    apply List.Forall_forall. intros v Hin.
    apply in_map_iff in Hin as (t & <- & _). by apply div_zero_not_finite.
Qed.

Lemma plot_plane_zero_last_component_witness :
  exists (x y : list float) (w' : World),
    plot_plane [PyInt 1; PyInt 0] (PyInt 3) None default_range [] empty_world = (Ret tt, w') /\
    children (cur_axes w') = [Line2D x y None] /\
    length y = 100%nat /\
    Forall (fun v => is_finite v = false) y.
Proof.
  pose proof plot_plane_zero_last_component as (_ & H).
  apply (H (PyInt 1) (PyInt 0) (PyInt 3) None (PyInt (-5)) (PyInt 5) [] []
           1%float 0%float 3%float (-5)%float 5%float empty_world);
    vm_compute; reflexivity.
Defined.

(** ** The colour picker, call after call *)

Lemma set_instance_same (i : Z) (w : World) :
  instance w = Some i -> set_instance (Some i) w = w.
Proof. destruct w as [h c o inst]. simpl. by intros ->. Qed.

Lemma set_instance_same_None (w : World) :
  instance w = None -> set_instance None w = w.
Proof. destruct w as [h c o inst]. simpl. by intros ->. Qed.

Lemma palette_at_mod (i : Z) : palette_at (i mod 6) = palette_at i.
Proof. unfold palette_at. by rewrite Z.mod_mod. Qed.

Lemma get_colors_run (n : nat) :
  forall (i : Z) (w : World),
    instance w = Some i -> -6 <= i < 6 ->
    get_colors (S n) w
    = (Ret (map (fun k => palette_at (i + Z.of_nat k)) (seq 0 (S n))),
       set_instance (Some ((i + Z.of_nat (S n)) mod 6)) w).
Proof.
  induction n as [|n IH]; intros i w E Hi.
  - cbn [get_colors]. erewrite bind_Ret by (apply get_color_ok; eassumption).
    cbn [seq map]. rewrite Z.add_0_r. reflexivity.
  - change (get_colors (S (S n))) with
      (get_color ≫= fun c => get_colors (S n) ≫= fun cs => mret (c :: cs)).
    erewrite bind_Ret by (apply get_color_ok; eassumption).
    erewrite bind_Ret.
    2:{ apply (IH ((i + 1) mod 6)); [reflexivity|].
        pose proof (Z.mod_pos_bound (i + 1) 6). lia. }
    unfold mret, M_ret. f_equal.
    + f_equal. change (seq 0 (S (S n))) with (0%nat :: seq 1 (S n)).
      rewrite <- seq_shift, map_cons, map_map, Z.add_0_r. f_equal.
      apply map_ext. intros k.
      rewrite <- (palette_at_mod ((i + 1) mod 6 + Z.of_nat k)), Zplus_mod_idemp_l,
        palette_at_mod.
      f_equal. lia.
    + unfold set_instance. cbn [axes_heap current stdout]. f_equal. f_equal.
      rewrite Zplus_mod_idemp_l. f_equal. lia.
Qed.

(** X5: from a shared index [i] within the palette, [n] successive
    [get_color] calls return the palette entries at [i, i+1, ..., i+n-1]
    counted modulo 6 and leave the index at [(i + n) mod 6]; after six calls
    every colour of the palette was handed out exactly once and the world
    is again as it was. *)
Theorem get_color_cycles :
  (forall (n : nat) (i : Z) (w : World),
      instance w = Some i -> 0 <= i < 6 ->
      get_colors n w
      = (Ret (map (fun k => palette_at (i + Z.of_nat k)) (seq 0 n)),
         set_instance (Some ((i + Z.of_nat n) mod 6)) w)) /\
  (forall (i : Z) (w : World),
      instance w = Some i -> 0 <= i < 6 ->
      exists cs, get_colors 6 w = (Ret cs, w) /\ Permutation cs COLORS /\ NoDup cs).
Proof.
  split.
  - intros [|n] i w E Hi.
    + cbn [get_colors seq map]. unfold mret, M_ret.
      rewrite Z.add_0_r, Z.mod_small by lia. by rewrite set_instance_same.
    + apply get_colors_run; [exact E|lia].
  - intros i w E Hi. eexists. split.
    { rewrite (get_colors_run 5 i w E) by lia.
      replace ((i + Z.of_nat 6) mod 6) with i.
      2:{ change (Z.of_nat 6) with (1 * 6). rewrite Z_mod_plus_full, Z.mod_small; lia. }
      by rewrite set_instance_same. }
    assert (Hc : In i [0; 1; 2; 3; 4; 5]) by (simpl; lia).
    simpl in Hc.
    destruct Hc as [<-|[<-|[<-|[<-|[<-|[<-|[]]]]]]];
      (split;
       [ apply NoDup_Permutation;
         [ apply NoDup_ListNoDup; vm_compute; repeat constructor; simpl; intuition discriminate
         | apply NoDup_ListNoDup; vm_compute; repeat constructor; simpl; intuition discriminate
         | intros c; rewrite !list_elem_of_In; vm_compute; intuition ]
       | apply NoDup_ListNoDup; vm_compute; repeat constructor; simpl; intuition discriminate ]).
Qed.

Lemma get_color_cycles_witness :
  get_colors 8 (set_instance (Some 4) empty_world)
  = (Ret ["m"; "k"; "b"; "g"; "r"; "c"; "m"; "k"], set_instance (Some 0) empty_world).
Proof.
  pose proof get_color_cycles as (H & _).
  rewrite (H 8%nat 4 (set_instance (Some 4) empty_world)); [reflexivity|reflexivity|lia].
Defined.

(** X6: an index outside the palette, as a first construction
    [PlaneColorPicker(start)] with a [start] below -6 or above 5 leaves it,
    makes the next [get_color] raise [IndexError]; but the index is
    advanced before the palette is read, so that failed call leaves it at
    [(start + 1) mod 6], within the palette, and the call after it returns
    the entry there. *)
Theorem get_color_out_of_range (start : Z) (w : World) :
  instance w = None ->
  start < -6 \/ 6 <= start ->
  exists w1 w2,
    (PlaneColorPicker start;; get_color) w = (Raise IndexError, w1) /\
    instance w1 = Some ((start + 1) mod 6) /\
    0 <= (start + 1) mod 6 < 6 /\
    get_color w1 = (Ret (palette_at (start + 1)), w2) /\
    instance w2 = Some ((start + 2) mod 6).
Proof.
  intros E Hout.
  pose proof (Z.mod_pos_bound (start + 1) 6 ltac:(lia)) as Hb.
  eexists _, _. split.
  { erewrite bind_Ret by (apply PlaneColorPicker_creates; exact E).
    unfold get_color. cbn [instance set_instance].
    unfold getitem_Z. change (Z.of_nat (length COLORS)) with 6.
    change (- (6)) with (-6).
    destruct (Z.leb_spec 0 start), (Z.ltb_spec start 6), (Z.leb_spec (-6) start),
      (Z.ltb_spec start 0); cbn [andb]; try lia; reflexivity. }
  split; [reflexivity|]. split; [exact Hb|]. split.
  { rewrite (get_color_ok ((start + 1) mod 6)); [|reflexivity|lia].
    by rewrite palette_at_mod. }
  cbn [instance set_instance]. f_equal. rewrite Zplus_mod_idemp_l. f_equal. lia.
Qed.

Lemma get_color_out_of_range_witness :
  exists w1 w2,
    (PlaneColorPicker 7;; get_color) empty_world = (Raise IndexError, w1) /\
    instance w1 = Some 2 /\
    get_color w1 = (Ret "r", w2) /\
    instance w2 = Some 3.
Proof.
  destruct (get_color_out_of_range 7 empty_world) as (w1 & w2 & E1 & Hi1 & _ & E2 & Hi2);
    [reflexivity|right; lia|].
  exists w1, w2. repeat split; assumption.
Defined.

(** ** Arguments that are too short *)

(** X7: when the origin has fewer components than the vector (of length 2
    or 3, components [float()] accepts), [plot_vec] raises [IndexError] on
    reading the missing origin component.  By then the aspect of the
    current axes has been set to "equal"; no arrow was added and nothing was
    printed. *)
Theorem plot_vec_short_origin (vec at_ : list pyval) (color : string) (w : World) :
  length vec = 2%nat \/ length vec = 3%nat ->
  Forall floatable vec ->
  (length at_ < length vec)%nat ->
  exists w',
    plot_vec vec at_ color w = (Raise IndexError, w') /\
    children (cur_axes w') = children (cur_axes w) /\
    aspect (cur_axes w') = Some "equal" /\
    stdout w' = stdout w /\
    instance w' = instance w.
Proof.
  intros Hlen Hfl Hat.
  destruct (floatable_floats vec Hfl) as [fs Hfs].
  destruct Hlen as [Hlen|Hlen].
  - destruct vec as [|v0 [|v1 [|? ?]]]; try discriminate Hlen.
    inversion Hfs as [|? f0 ? fs1 F0 Hfs1]; subst.
    inversion Hfs1 as [|? f1 ? fs2 F1 Hfs2]; subst.
    destruct at_ as [|a0 [|a1 rest]]; simpl in Hat; try lia;
      (unfold plot_vec; cbn [length Nat.eqb]; run_M; rewrite F0, F1; cbn [obind];
       eexists; split; [reflexivity|];
       unfold cur_axes; cbn [current put_axes]; rewrite axes_of_put_eq;
       repeat split; reflexivity).
  - destruct vec as [|v0 [|v1 [|v2 [|? ?]]]]; try discriminate Hlen.
    inversion Hfs as [|? f0 ? fs1 F0 Hfs1]; subst.
    inversion Hfs1 as [|? f1 ? fs2 F1 Hfs2]; subst.
    inversion Hfs2 as [|? f2 ? fs3 F2 Hfs3]; subst.
    destruct at_ as [|a0 [|a1 [|a2 rest]]]; simpl in Hat; try lia;
      (unfold plot_vec; cbn [length Nat.eqb]; run_M; rewrite F0, F1, F2; cbn [obind];
       eexists; split; [reflexivity|];
       unfold cur_axes; cbn [current put_axes]; rewrite axes_of_put_eq;
       repeat split; reflexivity).
Qed.

Lemma plot_vec_short_origin_witness :
  exists w',
    plot_vec [PyInt 1; PyInt 2; PyInt 3] [PyInt 0; PyInt 0] "k" empty_world
    = (Raise IndexError, w') /\
    children (cur_axes w') = [] /\
    aspect (cur_axes w') = Some "equal".
Proof.
  destruct (plot_vec_short_origin [PyInt 1; PyInt 2; PyInt 3] [PyInt 0; PyInt 0] "k" empty_world)
    as (w' & E & Hch & Ha & _).
  - right; reflexivity.
  - repeat (constructor; [eexists; vm_compute; reflexivity|]). constructor.
  - simpl; lia.
  - exists w'. repeat split; assumption.
Defined.

(** X8: when the point has fewer components than the direction (of length
    2 or 3; all components present are ones [float()] accepts), [plot_line]
    raises [IndexError] on reading the missing component, as it does for the
    direction (1,0,0) through the point (0,0).  By then the aspect of the
    current axes has been set to "equal"; no line was drawn. *)
Theorem plot_line_short_point (dir_vec point : list pyval) (color : option string)
    (w : World) :
  length dir_vec = 2%nat \/ length dir_vec = 3%nat ->
  Forall floatable dir_vec -> Forall floatable point ->
  (length point < length dir_vec)%nat ->
  exists w',
    plot_line dir_vec point color w = (Raise IndexError, w') /\
    children (cur_axes w') = children (cur_axes w) /\
    aspect (cur_axes w') = Some "equal" /\
    stdout w' = stdout w /\
    instance w' = instance w.
Proof.
  intros Hlen Hfd Hfp Hshort.
  destruct (floatable_floats dir_vec Hfd) as [ds Hds].
  destruct (floatable_floats point Hfp) as [ps Hps].
  destruct Hlen as [Hlen|Hlen].
  - destruct dir_vec as [|v0 [|v1 [|? ?]]]; try discriminate Hlen.
    inversion Hds as [|? f0 ? ds1 F0 Hds1]; subst.
    inversion Hds1 as [|? f1 ? ds2 F1 Hds2]; subst.
    destruct point as [|p0 [|p1 rest]]; simpl in Hshort; try lia.
    + unfold plot_line; cbn [length Nat.eqb]; run_M; rewrite F0, F1; cbn [obind].
      eexists; split; [reflexivity|].
      unfold cur_axes; cbn [current put_axes]; rewrite axes_of_put_eq.
      repeat split; reflexivity.
    + inversion Hps as [|? g0 ? ps1 G0 Hps1]; subst.
      unfold plot_line; cbn [length Nat.eqb]; run_M; rewrite F0, F1, G0; cbn [obind].
      eexists; split; [reflexivity|].
      unfold cur_axes; cbn [current put_axes]; rewrite axes_of_put_eq.
      repeat split; reflexivity.
  - destruct dir_vec as [|v0 [|v1 [|v2 [|? ?]]]]; try discriminate Hlen.
    inversion Hds as [|? f0 ? ds1 F0 Hds1]; subst.
    inversion Hds1 as [|? f1 ? ds2 F1 Hds2]; subst.
    inversion Hds2 as [|? f2 ? ds3 F2 Hds3]; subst.
    destruct point as [|p0 [|p1 [|p2 rest]]]; simpl in Hshort; try lia.
    + unfold plot_line; cbn [length Nat.eqb]; run_M; rewrite F0, F1, F2; cbn [obind].
      eexists; split; [reflexivity|].
      unfold cur_axes; cbn [current put_axes]; rewrite axes_of_put_eq.
      repeat split; reflexivity.
    + inversion Hps as [|? g0 ? ps1 G0 Hps1]; subst.
      unfold plot_line; cbn [length Nat.eqb]; run_M; rewrite F0, F1, F2, G0; cbn [obind].
      eexists; split; [reflexivity|].
      unfold cur_axes; cbn [current put_axes]; rewrite axes_of_put_eq.
      repeat split; reflexivity.
    + inversion Hps as [|? g0 ? ps1 G0 Hps1]; subst.
      inversion Hps1 as [|? g1 ? ps2 G1 Hps2]; subst.
      unfold plot_line; cbn [length Nat.eqb]; run_M; rewrite F0, F1, F2, G0, G1; cbn [obind].
      eexists; split; [reflexivity|].
      unfold cur_axes; cbn [current put_axes]; rewrite axes_of_put_eq.
      repeat split; reflexivity.
Qed.

Lemma plot_line_short_point_witness :
  exists w',
    plot_line [PyInt 1; PyInt 0; PyInt 0] [PyInt 0; PyInt 0] None empty_world
    = (Raise IndexError, w') /\
    children (cur_axes w') = [] /\
    aspect (cur_axes w') = Some "equal".
Proof.
  destruct (plot_line_short_point [PyInt 1; PyInt 0; PyInt 0] [PyInt 0; PyInt 0] None empty_world)
    as (w' & E & Hch & Ha & _).
  - right; reflexivity.
  - repeat (constructor; [eexists; vm_compute; reflexivity|]). constructor.
  - repeat (constructor; [eexists; vm_compute; reflexivity|]). constructor.
  - simpl; lia.
  - exists w'. repeat split; assumption.
Defined.

(** ** Reasoning on outcomes, statement by statement *)

Lemma post_run {A : Type} (m : M A) (w w' : World) (o : outcome A)
    (Q : outcome A -> World -> Prop) :
  post m w Q -> m w = (o, w') -> Q o w'.
Proof. unfold post. intros HQ E. by rewrite E in HQ. Qed.

Lemma post_ret {A : Type} (a : A) (w : World) (Q : outcome A -> World -> Prop) :
  Q (Ret a) w -> post (mret a) w Q.
Proof. done. Qed.

Lemma post_bind {A B : Type} (m : M A) (k : A -> M B) (w : World)
    (Q : outcome B -> World -> Prop) :
  post m w (fun o w1 => match o with
                        | Ret a => post (k a) w1 Q
                        | Raise e => Q (Raise e) w1
                        end) ->
  post (m ≫= k) w Q.
Proof.
  unfold post. intros HQ.
  assert (E : (m ≫= k) w = match m w with
                           | (Ret a, w1) => k a w1
                           | (Raise e, w1) => (Raise e, w1)
                           end) by reflexivity.
  rewrite E. destruct (m w) as [[a|e] w1]; exact HQ.
Qed.

Lemma post_lift {A : Type} (o : outcome A) (w : World) (Q : outcome A -> World -> Prop) :
  Q o w -> post (lift o) w Q.
Proof. done. Qed.

Lemma post_gca (w : World) (Q : outcome nat -> World -> Prop) :
  Q (Ret (current w)) w -> post gca w Q.
Proof. done. Qed.

Lemma post_update (ax : nat) (f : Axes -> Axes) (w : World)
    (Q : outcome unit -> World -> Prop) :
  Q (Ret tt) (put_axes ax (f (axes_of w ax)) w) -> post (update_axes ax f) w Q.
Proof. done. Qed.

Lemma post_get_children (ax : nat) (w : World) (Q : outcome (list artist) -> World -> Prop) :
  Q (Ret (children (axes_of w ax))) w -> post (get_children ax) w Q.
Proof. done. Qed.

Lemma post_print (s : string) (w : World) (Q : outcome unit -> World -> Prop) :
  Q (Ret tt) (snd (print s w)) -> post (print s) w Q.
Proof. done. Qed.

(** Reading and converting arguments leaves the world alone. *)
Lemma post_float_item (l : list pyval) (i : nat) (w : World)
    (Q : outcome float -> World -> Prop) :
  (forall o, Q o w) -> post (float_item l i) w Q.
Proof. intros HQ. apply HQ. Qed.

Lemma post_linspace_range (r : list pyval) (w : World)
    (Q : outcome (list float) -> World -> Prop) :
  (forall o, Q o w) -> post (linspace_range r) w Q.
Proof.
  intros HQ. unfold linspace_range.
  apply post_bind, post_lift. destruct (getitem r 0); [|apply HQ].
  apply post_bind, post_lift. destruct (getitem r 1); [|apply HQ].
  apply post_bind, post_lift. destruct (py_float _); [|apply HQ].
  apply post_bind, post_lift. destruct (py_float _); [|apply HQ].
  apply HQ.
Qed.

(** ** A [plot_plane] that fails *)

Lemma picker_ok_put (ax : nat) (a : Axes) (w : World) : picker_ok w -> picker_ok (put_axes ax a w).
Proof. done. Qed.

(** X9: while the picker's index is within the palette, a [plot_plane]
    that raises (a missing or unconvertible component, offset or range
    entry) has drawn nothing, printed nothing and taken no colour: the
    colour is picked only after every argument was read.  All it leaves
    behind is the aspect "equal" on the current axes. *)
Theorem plot_plane_failure_takes_no_color (normal : list pyval) (d : pyval)
    (color : option string) (xrange yrange : list pyval) (w w' : World) (e : exn) :
  picker_ok w ->
  plot_plane normal d color xrange yrange w = (Raise e, w') ->
  w' = put_axes (current w) (with_aspect "equal" (cur_axes w)) w /\
  instance w' = instance w /\
  (forall ax, children (axes_of w' ax) = children (axes_of w ax)) /\
  stdout w' = stdout w.
Proof.
  intros Hok Hrun.
  set (W1 := put_axes (current w) (with_aspect "equal" (cur_axes w)) w).
  assert (HW : w' = W1).
  { refine (post_run _ _ _ _ (fun o w2 => forall e, o = Raise e -> w2 = W1) _ Hrun e eq_refl).
    unfold plot_plane.
    destruct (Nat.eqb_spec (length normal) 3) as [E3|N3].
    - rewrite E3. cbn [Nat.eqb].
      apply post_bind.
      apply post_bind, post_gca.
      apply post_bind. unfold set_aspect. apply post_update. fold (cur_axes w). fold W1.
      apply post_bind, post_float_item. intros [normal_x|]; [|by intros ? [= <-]].
      apply post_bind, post_float_item. intros [normal_y|]; [|by intros ? [= <-]].
      apply post_bind, post_float_item. intros [normal_z|]; [|by intros ? [= <-]].
      apply post_bind, post_lift. destruct (py_float d) as [fd|]; [|by intros ? [= <-]].
      apply post_bind, post_linspace_range. intros [x|]; [|by intros ? [= <-]].
      apply post_bind, post_linspace_range. intros [y|]; [|by intros ? [= <-]].
      unfold meshgrid.
      apply post_bind.
      destruct color as [c|].
      + apply post_ret. unfold add_artist. apply post_update. apply post_ret. discriminate.
      + unfold post. rewrite pick_color by (by apply picker_ok_put). cbn [fst snd].
        unfold add_artist. apply post_update. apply post_ret. discriminate.
    - destruct (Nat.eqb_spec (length normal) 2) as [E2|N2].
      + apply post_bind, post_ret.
        apply post_bind, post_gca.
        apply post_bind. unfold set_aspect. apply post_update. fold (cur_axes w). fold W1.
        apply post_bind, post_float_item. intros [normal_x|]; [|by intros ? [= <-]].
        apply post_bind, post_float_item. intros [normal_y|]; [|by intros ? [= <-]].
        apply post_bind, post_lift. destruct (py_float d) as [fd|]; [|by intros ? [= <-]].
        apply post_bind, post_linspace_range. intros [x|]; [|by intros ? [= <-]].
        unfold add_artist. apply post_update. discriminate.
      + apply post_bind, post_ret, post_ret. discriminate. }
  split; [exact HW|]. subst w'. unfold W1. split; [reflexivity|]. split; [|reflexivity].
  intros ax. destruct (decide (current w = ax)) as [<-|Hne].
  - by rewrite axes_of_put_eq.
  - by rewrite axes_of_put_ne.
Qed.

Lemma plot_plane_failure_takes_no_color_witness :
  exists w',
    plot_plane [PyInt 0; PyInt 0; PyInt 1] (PyInt 5) None [PyInt (-5)] default_range
      (set_instance (Some 3) empty_world) = (Raise IndexError, w') /\
    instance w' = Some 3 /\
    children (cur_axes w') = [].
Proof.
  assert (E : plot_plane [PyInt 0; PyInt 0; PyInt 1] (PyInt 5) None [PyInt (-5)] default_range
                (set_instance (Some 3) empty_world)
              = (Raise IndexError,
                 snd (plot_plane [PyInt 0; PyInt 0; PyInt 1] (PyInt 5) None [PyInt (-5)]
                        default_range (set_instance (Some 3) empty_world))))
    by (vm_compute; reflexivity).
  destruct (plot_plane_failure_takes_no_color
              [PyInt 0; PyInt 0; PyInt 1] (PyInt 5) None [PyInt (-5)] default_range
              (set_instance (Some 3) empty_world) _ IndexError ltac:(unfold picker_ok; simpl; lia) E)
    as (Hw & Hi & Hch & _).
  eexists. split; [exact E|]. split; [exact Hi|].
  unfold cur_axes. rewrite Hch. reflexivity.
Defined.

(** ** [plot_vecs] with vectors it cannot draw *)

Lemma plot_vec_prints (vec at_ : list pyval) (color : string) (w : World) :
  supported vec = false ->
  plot_vec vec at_ color w = print plot_vec_error w.
Proof.
  unfold supported, plot_vec. intros Hs.
  apply orb_false_iff in Hs as [-> ->]. reflexivity.
Qed.

Lemma supported_length (vec : list pyval) :
  supported vec = true -> length vec = 2%nat \/ length vec = 3%nat.
Proof.
  unfold supported. intros Hs. apply orb_true_iff in Hs as [Hs|Hs];
    apply Nat.eqb_eq in Hs; auto.
Qed.

Lemma plot_vecs_from_mixed (args : list (list pyval)) :
  forall (i : nat) (w : World),
    Forall (fun vec => supported vec = true -> Forall floatable vec) args ->
    exists arrows w',
      plot_vecs_from i args w = (Ret tt, w') /\
      children (cur_axes w') = children (cur_axes w) ++ arrows /\
      map color_of_arrow arrows = positional_colors i args /\
      Forall2 arrow_for (List.filter supported args) arrows /\
      stdout w' = stdout w
                  ++ repeat plot_vec_error
                       (length (List.filter (fun vec => negb (supported vec)) args)) /\
      current w' = current w /\
      instance w' = instance w.
Proof.
  induction args as [|vec args IH]; intros i w Hall.
  - exists [], w. simpl. rewrite !app_nil_r. repeat split; constructor.
  - inversion Hall as [|? ? Hvec Hall']; subst.
    destruct (VEC_COLORS_lookup i) as [c Hc].
    cbn [plot_vecs_from positional_colors List.filter]. unfold lift, getitem. rewrite Hc.
    unfold mbind at 1, M_bind at 1. cbn beta iota.
    destruct (supported vec) eqn:Hs; cbn [negb].
    + destruct (floatable_floats vec (Hvec eq_refl)) as [fs Hfs].
      destruct (plot_vec_draws vec c fs w (supported_length vec Hs) Hfs) as
        (arrow & w1 & E1 & Hch1 & Harr & Hend & Hcol & Hcur1 & Hout1 & Hinst1).
      destruct (IH (S i) w1 Hall')
        as (arrows & w2 & E2 & Hch2 & Hcols & Hfor & Hout2 & Hcur2 & Hinst2).
      exists (arrow :: arrows), w2.
      split; [erewrite bind_Ret by exact E1; exact E2|].
      split; [rewrite Hch2, Hch1, <- app_assoc; reflexivity|].
      split; [cbn [map app]; rewrite Hcols, Hcol; f_equal; exact (eq_sym Hc)|].
      split.
      { constructor; [|exact Hfor]. split; [exact Harr|]. rewrite Hend.
        clear -Hfs. induction Hfs; simpl; constructor; eauto. }
      repeat split; congruence.
    + destruct (IH (S i) (snd (print plot_vec_error w)) Hall')
        as (arrows & w2 & E2 & Hch2 & Hcols & Hfor & Hout2 & Hcur2 & Hinst2).
      exists arrows, w2.
      split; [erewrite bind_Ret by (rewrite plot_vec_prints by exact Hs; reflexivity);
              exact E2|].
      split; [exact Hch2|]. split; [exact Hcols|]. split; [exact Hfor|].
      split; [|split; assumption].
      rewrite Hout2. cbn [print snd stdout length repeat]. rewrite <- app_assoc. reflexivity.
Qed.

(** X10: [plot_vecs] goes on past a vector whose length is neither 2 nor 3:
    for such a vector the error message is printed, once per vector, and
    no arrow is drawn; every other vector is drawn, in order, in the colour
    of its own position in the argument list (the colours of the skipped
    positions are not reused). *)
Theorem plot_vecs_skips_unsupported (args : list (list pyval)) (w : World) :
  Forall (fun vec => supported vec = true -> Forall floatable vec) args ->
  exists arrows w',
    plot_vecs args w = (Ret tt, w') /\
    children (cur_axes w') = children (cur_axes w) ++ arrows /\
    map color_of_arrow arrows = positional_colors 0 args /\
    Forall2 arrow_for (List.filter supported args) arrows /\
    stdout w' = stdout w
                ++ repeat plot_vec_error
                     (length (List.filter (fun vec => negb (supported vec)) args)).
Proof.
  intros Hall.
  destruct (plot_vecs_from_mixed args 0 w Hall)
    as (arrows & w' & E & Hch & Hcols & Hfor & Hout & _).
  exists arrows, w'. repeat split; assumption.
Qed.

Lemma plot_vecs_skips_unsupported_witness :
  exists arrows w',
    plot_vecs [[PyInt 1]; [PyInt 1; PyInt 2]; []; [PyInt 1; PyInt 2; PyInt 3]] empty_world
    = (Ret tt, w') /\
    children (cur_axes w') = arrows /\
    map color_of_arrow arrows = [Some "b"; Some "r"] /\
    stdout w' = [plot_vec_error; plot_vec_error].
Proof.
  destruct (plot_vecs_skips_unsupported
              [[PyInt 1]; [PyInt 1; PyInt 2]; []; [PyInt 1; PyInt 2; PyInt 3]] empty_world)
    as (arrows & w' & E & Hch & Hcols & _ & Hout).
  - repeat (constructor;
            [intros _; repeat (constructor; [eexists; vm_compute; reflexivity|]); constructor|]).
    constructor.
  - exists arrows, w'. repeat split; assumption.
Defined.

(** ** [autoscale_arrows] on two-dimensional arrows *)

Lemma autoscale_arrows_2d_run (ax : option nat) (w : World)
    (min_x max_x min_y max_y ext_x ext_y square_side hi_x hi_y : pyval) :
  arrows2D (axes_of w (target ax w)) <> [] ->
  arrows3D (axes_of w (target ax w)) = [] ->
  py_min (all_xs2 (axes_of w (target ax w))) = Ret min_x ->
  py_max (all_xs2 (axes_of w (target ax w))) = Ret max_x ->
  py_min (all_ys2 (axes_of w (target ax w))) = Ret min_y ->
  py_max (all_ys2 (axes_of w (target ax w))) = Ret max_y ->
  py_sub max_x min_x = Ret ext_x ->
  py_sub max_y min_y = Ret ext_y ->
  py_max [ext_x; ext_y] = Ret square_side ->
  py_add min_x square_side = Ret hi_x ->
  py_add min_y square_side = Ret hi_y ->
  autoscale_arrows ax w
  = (Ret None,
     put_axes (target ax w)
       (with_limits2 (axes_of w (target ax w)) (min_x, hi_x) (min_y, hi_y)) w).
Proof.
  intros H2 H3 Emin_x Emax_x Emin_y Emax_y Eext_x Eext_y Eside Ehi_x Ehi_y.
  unfold autoscale_arrows.
  erewrite bind_Ret by apply autoscale_target.
  erewrite bind_Ret by reflexivity.
  erewrite bind_Ret by reflexivity.
  cbv zeta.
  change (omap as_Arrow2D (children (axes_of w (target ax w))))
    with (arrows2D (axes_of w (target ax w))).
  change (omap as_Arrow3D (children (axes_of w (target ax w))))
    with (arrows3D (axes_of w (target ax w))).
  rewrite H3.
  change (both fst (arrows2D (axes_of w (target ax w))))
    with (all_xs2 (axes_of w (target ax w))).
  change (both snd (arrows2D (axes_of w (target ax w))))
    with (all_ys2 (axes_of w (target ax w))).
  destruct (arrows2D (axes_of w (target ax w))) as [|v rest] eqn:E2; [done|].
  cbn [nonempty andb].
  erewrite bind_Ret by reflexivity.
  unfold mbind at 1, M_bind at 1.
  erewrite bind_Ret by (apply lift_Ret; exact Emin_x).
  erewrite bind_Ret by (apply lift_Ret; exact Emax_x).
  erewrite bind_Ret by (apply lift_Ret; exact Emin_y).
  erewrite bind_Ret by (apply lift_Ret; exact Emax_y).
  erewrite bind_Ret by (apply lift_Ret; exact Eext_x).
  erewrite bind_Ret by (apply lift_Ret; exact Eext_y).
  erewrite bind_Ret by (apply lift_Ret; exact Eside).
  erewrite bind_Ret by (apply lift_Ret; exact Ehi_x).
  erewrite bind_Ret by reflexivity.
  erewrite bind_Ret by (apply lift_Ret; exact Ehi_y).
  unfold set_ylim, set_xlim, update_axes, mbind, M_bind, mret, M_ret.
  repeat (rewrite axes_of_put_eq || rewrite put_put); cbn.
  reflexivity.
Qed.

(** X11: on an axes with at least one [Arrow2D] child and no [Arrow3D]
    child, [autoscale_arrows] computes, for x and for y, the bounding box of
    the endpoints of all the arrows ([min] and [max] are coordinates of
    endpoints, and no endpoint of any arrow lies below [min] or above
    [max]), the extent [max - min], and as [square_side] the larger of the
    two extents; it returns [None] having set the x and y limits to
    [(min, min + square_side)].  The z limit, the children and the aspect
    are left as they were.  The differences and sums are Python's: exact on
    two ints, in binary64 otherwise.  The int coordinates, and the
    differences of two of them, are assumed to fit a float, and the limits
    to be finite, as matplotlib asks of limits.  For the arrows from (1,2)
    to (4,3) and from (-2,1) to (0,5) the extents are 6 and 4 and the limits
    are (-2, 4) and (1, 7). *)
Theorem autoscale_arrows_square :
  (forall (ax : option nat) (w : World),
      (exists xs ys kw, Arrow2D xs ys kw ∈ children (axes_of w (target ax w))) ->
      (forall xs ys zs kw, Arrow3D xs ys zs kw ∉ children (axes_of w (target ax w))) ->
      coords_fit (children (axes_of w (target ax w))) ->
      exists min_x max_x min_y max_y ext_x ext_y square_side hi_x hi_y,
        bounds 0 (children (axes_of w (target ax w))) min_x max_x /\
        bounds 1 (children (axes_of w (target ax w))) min_y max_y /\
        python_sub max_x min_x ext_x /\
        python_sub max_y min_y ext_y /\
        greatest square_side [ext_x; ext_y] /\
        python_add min_x square_side hi_x /\
        python_add min_y square_side hi_y /\
        (finite_limits (min_x, hi_x) -> finite_limits (min_y, hi_y) ->
         autoscale_arrows ax w
         = (Ret None,
            put_axes (target ax w)
              (with_limits2 (axes_of w (target ax w)) (min_x, hi_x) (min_y, hi_y)) w))) /\
  autoscale_arrows None two_arrows2D_world
  = (Ret None,
     put_axes 0
       (with_limits2 (axes_of two_arrows2D_world 0)
          (PyInt (-2), PyFloat 4) (PyInt 1, PyFloat 7))
       two_arrows2D_world).
Proof.
  split.
  - intros ax w (xs0 & ys0 & kw0 & H2) H3 Hfit.
    set (a := axes_of w (target ax w)) in *.
    assert (E2 : arrows2D a <> [])
      by (apply (omap_not_nil as_Arrow2D _ _ H2); by eexists).
    assert (E3 : arrows3D a = []).
    { apply omap_nil. intros c Hc. destruct c as [xs ys zs kw| | | |]; try reflexivity.
      exfalso. exact (H3 xs ys zs kw Hc). }
    assert (Hc2 := elem_of_coords2 (children a) H3).
    assert (Hxs : forall v, v ∈ all_xs2 a <-> endpoint_coord 0 (children a) v)
      by (intros v; apply Hc2).
    assert (Hys : forall v, v ∈ all_ys2 a <-> endpoint_coord 1 (children a) v)
      by (intros v; apply Hc2).
    clear Hc2.
    assert (Fxs := ints_fit_of_coords 0 _ _ Hxs Hfit).
    assert (Fys := ints_fit_of_coords 1 _ _ Hys Hfit).
    assert (Nxs : all_xs2 a <> [])
      by (unfold all_xs2; destruct (arrows2D a); [done|discriminate]).
    assert (Nys : all_ys2 a <> [])
      by (unfold all_ys2; destruct (arrows2D a); [done|discriminate]).
    destruct (axis_extent (all_xs2 a) (all_xs2 a) Nxs ltac:(done) Fxs)
      as (min_x & max_x & ext_x & Emin_x & Emax_x & Lx & Gx & Eext_x & Fext_x & Fmin_x).
    destruct (axis_extent (all_ys2 a) (all_ys2 a) Nys ltac:(done) Fys)
      as (min_y & max_y & ext_y & Emin_y & Emax_y & Ly & Gy & Eext_y & Fext_y & Fmin_y).
    destruct (largest_extent ext_x [ext_y]) as (side & Eside & Hside & Fside);
      [repeat constructor; assumption|].
    destruct (py_add_ok min_x side Fmin_x Fside) as [hi_x Ehi_x].
    destruct (py_add_ok min_y side Fmin_y Fside) as [hi_y Ehi_y].
    exists min_x, max_x, min_y, max_y, ext_x, ext_y, side, hi_x, hi_y.
    split; [exact (bounds_of_extremes 0 _ _ _ _ Hxs Lx Gx)|].
    split; [exact (bounds_of_extremes 1 _ _ _ _ Hys Ly Gy)|].
    split; [by apply py_sub_python|]. split; [by apply py_sub_python|].
    split; [exact Hside|].
    split; [by apply py_add_python|]. split; [by apply py_add_python|].
    intros _ _.
    by apply (autoscale_arrows_2d_run ax w min_x max_x min_y max_y ext_x ext_y side hi_x hi_y).
  - vm_compute. reflexivity.
Qed.

Lemma two_arrows2D_children :
  children (axes_of two_arrows2D_world (target None two_arrows2D_world))
  = [Arrow2D (PyInt 1, PyFloat 4) (PyInt 2, PyFloat 3) (arrow_kwargs "k");
     Line2D [0%float] [9%float] None;
     Arrow2D (PyInt (-2), PyFloat 0) (PyInt 1, PyFloat 5) (arrow_kwargs "b")].
Proof. vm_compute. reflexivity. Qed.

Lemma two_arrows2D_fit :
  coords_fit (children (axes_of two_arrows2D_world (target None two_arrows2D_world))).
Proof.
  rewrite two_arrows2D_children. intros i. split.
  - intros v (c & Hc & Hv). pick_child Hc; pick_coord i Hv; subst v;
      eexists; vm_compute; reflexivity.
  - intros z z' (c & Hc & Hv) (c' & Hc' & Hv').
    pick_child Hc; pick_child Hc'; pick_coord i Hv; try discriminate Hv'.
    all: cbn in Hv'; destruct Hv' as [Hv'|Hv']; try discriminate Hv';
      injection Hv' as Hv'; subst z z'; eexists; vm_compute; reflexivity.
Qed.

Lemma autoscale_arrows_square_witness :
  exists min_x max_x min_y max_y ext_x ext_y square_side hi_x hi_y,
    bounds 0 (children (axes_of two_arrows2D_world 0)) min_x max_x /\
    bounds 1 (children (axes_of two_arrows2D_world 0)) min_y max_y /\
    python_sub max_x min_x ext_x /\
    python_sub max_y min_y ext_y /\
    greatest square_side [ext_x; ext_y] /\
    python_add min_x square_side hi_x /\
    python_add min_y square_side hi_y /\
    (finite_limits (min_x, hi_x) -> finite_limits (min_y, hi_y) ->
     autoscale_arrows None two_arrows2D_world
     = (Ret None,
        put_axes 0
          (with_limits2 (axes_of two_arrows2D_world 0) (min_x, hi_x) (min_y, hi_y))
          two_arrows2D_world)).
Proof.
  apply (proj1 autoscale_arrows_square None two_arrows2D_world).
  - rewrite two_arrows2D_children. eexists _, _, _. apply list_elem_of_here.
  - rewrite two_arrows2D_children. intros xs ys zs kw Hc.
    repeat (apply elem_of_cons in Hc as [Hc|Hc]; [discriminate Hc|]).
    by apply elem_of_nil in Hc.
  - exact two_arrows2D_fit.
Defined.

(** ** What [autoscale_arrows] leaves alone *)

Lemma limits_only_refl (t : nat) (w : World) : limits_only t w w.
Proof. repeat split. Qed.

Lemma limits_only_update (t : nat) (f : Axes -> Axes) (w0 w : World) :
  sets_limits_only f -> limits_only t w0 w ->
  limits_only t w0 (put_axes t (f (axes_of w t)) w).
Proof.
  intros Hf ((Hd & Hcur & Hinst) & Hother & Hout).
  split; [split; [|split]|split]; try assumption.
  - intros ax. destruct (decide (t = ax)) as [<-|Hne].
    + rewrite axes_of_put_eq. destruct (Hf (axes_of w t)) as [-> ->]. apply Hd.
    + rewrite axes_of_put_ne by exact Hne. apply Hd.
  - intros ax Hne. rewrite axes_of_put_ne by congruence. by apply Hother.
Qed.

(** One statement of a branch of [autoscale_arrows]: a computation on
    numbers, which may raise, or the setting of one limit. *)
Ltac limits_step H :=
  lazymatch goal with
  | |- post (lift _ ≫= _) _ _ =>
      apply post_bind; apply post_lift; cbv beta;
      match goal with
      | |- match ?o with _ => _ end => destruct o; [|left; exact H]
      end
  | |- post (update_axes ?t ?f ≫= _) _ _ =>
      apply post_bind; apply post_update; cbv beta iota;
      apply (limits_only_update t f _ _ ltac:(intros ?; split; reflexivity)) in H
  | |- post (update_axes ?t ?f) _ _ =>
      apply post_update; cbv beta iota;
      apply (limits_only_update t f _ _ ltac:(intros ?; split; reflexivity)) in H
  end.

(** Whatever its outcome, [autoscale_arrows] either changed nothing but
    limits of the axes it works on, or printed its message and returned -1. *)
Lemma autoscale_arrows_limits_only (ax : option nat) (w : World) :
  post (autoscale_arrows ax) w
    (fun o w' =>
       limits_only (target ax w) w w' \/
       (o = Ret (Some (-1)) /\ w' = snd (print mixing_error w))).
Proof.
  unfold autoscale_arrows.
  apply post_bind.
  assert (Ht : forall Q : outcome nat -> World -> Prop,
             Q (Ret (target ax w)) w ->
             post (match ax with None => gca | Some a => mret a end) w Q)
    by (intros Q HQ; destruct ax; exact HQ).
  apply Ht. clear Ht.
  apply post_bind, post_get_children.
  apply post_bind, post_get_children.
  cbv zeta.
  destruct (nonempty (omap as_Arrow2D _) && nonempty (omap as_Arrow3D _)).
  { apply post_bind, post_print. apply post_ret. right. split; reflexivity. }
  pose proof (limits_only_refl (target ax w) w) as H.
  apply post_bind.
  destruct (nonempty (omap as_Arrow3D _)).
  - unfold set_xlim, set_ylim, set_zlim.
    do 16 limits_step H.
    apply post_bind.
    destruct (nonempty (omap as_Arrow2D _)).
    + do 11 limits_step H. apply post_ret. left. exact H.
    + apply post_ret, post_ret. left. exact H.
  - apply post_ret. apply post_bind.
    destruct (nonempty (omap as_Arrow2D _)).
    + unfold set_xlim, set_ylim.
      do 11 limits_step H. apply post_ret. left. exact H.
    + apply post_ret, post_ret. left. exact H.
Qed.

(** X12: whatever its outcome (a normal return, the failure value -1 or an
    exception raised half way), [autoscale_arrows] leaves every child and
    every aspect of every axes, the current axes and the colour picker as
    they were, touches no axes but the one it works on, and prints nothing
    except the one message that goes with the failure value. *)
Theorem autoscale_arrows_frame (ax : option nat) (w : World) :
  same_drawing w (snd (autoscale_arrows ax w)) /\
  (forall ax', ax' <> target ax w ->
               axes_of (snd (autoscale_arrows ax w)) ax' = axes_of w ax') /\
  (stdout (snd (autoscale_arrows ax w)) = stdout w \/
   (fst (autoscale_arrows ax w) = Ret (Some (-1)) /\
    stdout (snd (autoscale_arrows ax w)) = stdout w ++ [mixing_error])).
Proof.
  destruct (autoscale_arrows_limits_only ax w) as [(Hd & Hother & Hout)|[Ho Hw]].
  - split; [exact Hd|]. split; [exact Hother|]. left. exact Hout.
  - rewrite Hw, Ho. split; [repeat split|]. split; [reflexivity|]. right. split; reflexivity.
Qed.

(** ** What [plot_line] and [plot_plane] leave alone *)

(** The colour picker's two statements change the picker's state only. *)
Lemma post_PlaneColorPicker (start : Z) (w : World) (Q : outcome unit -> World -> Prop) :
  (forall i, Q (Ret tt) (set_instance i w)) -> post (PlaneColorPicker start) w Q.
Proof.
  intros HQ. unfold post, PlaneColorPicker.
  destruct (instance w) as [i|] eqn:E; cbn [fst snd]; [|apply HQ].
  rewrite <- (set_instance_same i w E). apply HQ.
Qed.

Lemma post_get_color (w : World) (Q : outcome string -> World -> Prop) :
  (forall o i, Q o (set_instance i w)) -> post get_color w Q.
Proof.
  intros HQ. unfold post, get_color.
  destruct (instance w) as [i|] eqn:E; cbn [fst snd]; [apply HQ|].
  rewrite <- (set_instance_same_None w E). apply HQ.
Qed.

(** One statement of a plotting function other than the picking of a
    colour.  [H] is what is known of the world reached so far, which is
    what holds when the statement raises; [upd] brings [H] up to date when
    an axes is updated. *)
Ltac walk_step H upd :=
  lazymatch goal with
  | |- post (gca ≫= _) _ _ => apply post_bind; apply post_gca; cbv beta iota
  | |- post (mret _ ≫= _) _ _ => apply post_bind; apply post_ret; cbv beta iota
  | |- post (float_item _ _ ≫= _) _ _ =>
      apply post_bind; apply post_float_item; intros [?|?]; [|exact H]
  | |- post (linspace_range _ ≫= _) _ _ =>
      apply post_bind; apply post_linspace_range; intros [?|?]; [|exact H]
  | |- post (lift _ ≫= _) _ _ =>
      apply post_bind; apply post_lift; cbv beta iota;
      try match goal with
          | |- match ?o with _ => _ end => destruct o; [|exact H]
          end
  | |- post (update_axes ?t ?f ≫= _) ?wc _ =>
      apply post_bind; apply post_update; cbv beta iota; upd t f wc
  | |- post (update_axes ?t ?f) ?wc _ =>
      apply post_update; cbv beta iota; upd t f wc
  | |- post (mret _) _ _ => apply post_ret
  end.

Lemma arrows_unchanged_refl (w : World) : arrows_unchanged w w.
Proof. by split. Qed.

Lemma arrows_unchanged_update (t : nat) (f : Axes -> Axes) (w0 w : World) :
  keeps_the_arrows f -> arrows_unchanged w0 w ->
  arrows_unchanged w0 (put_axes t (f (axes_of w t)) w).
Proof.
  intros Hf [Hout Hk]. split; [exact Hout|].
  intros ax. destruct (decide (t = ax)) as [<-|Hne].
  - rewrite axes_of_put_eq, Hf. apply Hk.
  - rewrite axes_of_put_ne by exact Hne. apply Hk.
Qed.

Lemma with_aspect_keeps_the_arrows (s : string) : keeps_the_arrows (with_aspect s).
Proof. by intros a. Qed.

Lemma add_child_keeps_the_arrows (c : artist) :
  is_arrow c = false -> keeps_the_arrows (add_child c).
Proof.
  intros Hc a. unfold add_child. cbn [children].
  rewrite List.filter_app. cbn [List.filter]. rewrite Hc. apply app_nil_r.
Qed.

(** One statement of [plot_line] or [plot_plane], none of which adds an
    arrow or prints. *)
Ltac line_step w0 H :=
  walk_step H
    ltac:(fun t f wc =>
            let H' := fresh in
            assert (H' : arrows_unchanged w0 (put_axes t (f (axes_of wc t)) wc))
              by (apply (arrows_unchanged_update t f w0 wc);
                  [first [apply with_aspect_keeps_the_arrows
                         |apply add_child_keeps_the_arrows; reflexivity]
                  |exact H]);
            clear H; rename H' into H).

(** X13: [plot_line] and [plot_plane] add no arrow, take none away and
    print nothing: whatever their arguments and their outcome (also when
    they raise), every axes holds the same arrows afterwards as before, in
    the same order, and the text printed so far is as it was.  What they add
    is a line or a surface, which [autoscale_arrows] does not look at. *)
Theorem lines_and_planes_add_no_arrow :
  (forall (dir_vec point : list pyval) (color : option string) (w : World),
      arrows_unchanged w (snd (plot_line dir_vec point color w))) /\
  (forall (normal : list pyval) (d : pyval) (color : option string)
          (xrange yrange : list pyval) (w : World),
      arrows_unchanged w (snd (plot_plane normal d color xrange yrange w))).
Proof.
  split.
  - intros dir_vec point color w.
    change (post (plot_line dir_vec point color) w (fun _ w' => arrows_unchanged w w')).
    pose proof (arrows_unchanged_refl w) as H.
    unfold plot_line, set_aspect, add_artist.
    apply post_bind.
    destruct (length dir_vec =? 3)%nat.
    + repeat line_step w H.
      destruct (length dir_vec =? 2)%nat; repeat line_step w H; exact H.
    + apply post_ret.
      destruct (length dir_vec =? 2)%nat; repeat line_step w H; exact H.
  - intros normal d color xrange yrange w.
    change (post (plot_plane normal d color xrange yrange) w
              (fun _ w' => arrows_unchanged w w')).
    pose proof (arrows_unchanged_refl w) as H.
    unfold plot_plane, set_aspect, add_artist.
    apply post_bind.
    destruct (length normal =? 3)%nat.
    + repeat line_step w H.
      unfold meshgrid. apply post_bind.
      destruct color as [c|].
      * apply post_ret. repeat line_step w H.
        destruct (length normal =? 2)%nat; repeat line_step w H; exact H.
      * apply post_bind, post_PlaneColorPicker. intros i.
        assert (H1 : arrows_unchanged w (set_instance i
                       (put_axes (current w) (with_aspect "equal" (axes_of w (current w))) w)))
          by exact H.
        clear H. apply post_get_color. intros o i'.
        assert (H : arrows_unchanged w (set_instance i' (set_instance i
                      (put_axes (current w) (with_aspect "equal" (axes_of w (current w))) w))))
          by exact H1.
        clear H1.
        destruct o as [c|]; [|exact H].
        repeat line_step w H.
        destruct (length normal =? 2)%nat; repeat line_step w H; exact H.
    + apply post_ret.
      destruct (length normal =? 2)%nat; repeat line_step w H; exact H.
Qed.

(** ** Calling [autoscale_arrows] again *)

Lemma post2_bind {A B : Type} (m m' : M A) (k k' : A -> M B) (w v : World)
    (Q : outcome B -> World -> outcome B -> World -> Prop) :
  post2 m m' w v (fun o w1 o' v1 =>
                    o' = o /\
                    match o with
                    | Ret a => post2 (k a) (k' a) w1 v1 Q
                    | Raise e => Q (Raise e) w1 (Raise e) v1
                    end) ->
  post2 (m ≫= k) (m' ≫= k') w v Q.
Proof.
  unfold post2.
  assert (E : forall (n : M A) (h : A -> M B) u,
             (n ≫= h) u = match n u with
                          | (Ret a, u1) => h a u1
                          | (Raise e, u1) => (Raise e, u1)
                          end) by reflexivity.
  rewrite !E. destruct (m w) as [[a|e] w1], (m' v) as [[a'|e'] v1]; simpl;
    intros [Eo HQ]; inversion Eo; subst; exact HQ.
Qed.

Lemma post2_ret {A : Type} (a : A) (w v : World)
    (Q : outcome A -> World -> outcome A -> World -> Prop) :
  Q (Ret a) w (Ret a) v -> post2 (mret a) (mret a) w v Q.
Proof. done. Qed.

Lemma post2_lift {A : Type} (o : outcome A) (w v : World)
    (Q : outcome A -> World -> outcome A -> World -> Prop) :
  Q o w o v -> post2 (lift o) (lift o) w v Q.
Proof. done. Qed.

Lemma post2_update (ax : nat) (f : Axes -> Axes) (w v : World)
    (Q : outcome unit -> World -> outcome unit -> World -> Prop) :
  Q (Ret tt) (put_axes ax (f (axes_of w ax)) w) (Ret tt) (put_axes ax (f (axes_of v ax)) v) ->
  post2 (update_axes ax f) (update_axes ax f) w v Q.
Proof. done. Qed.

(** The children read may differ between the two runs. *)
Lemma post2_get_children {B : Type} (ax : nat) (k k' : list artist -> M B) (w v : World)
    (Q : outcome B -> World -> outcome B -> World -> Prop) :
  post2 (k (children (axes_of w ax))) (k' (children (axes_of v ax))) w v Q ->
  post2 (get_children ax ≫= k) (get_children ax ≫= k') w v Q.
Proof. done. Qed.

Lemma limits_agree_refl (t : nat) (w v : World) : limits_agree t w v w v.
Proof. repeat split; right; split; reflexivity. Qed.

Lemma same_or_kept_step {A : Type} (x0 y0 x y x' y' : A) :
  same_or_kept x0 y0 x y -> same_or_kept x y x' y' -> same_or_kept x0 y0 x' y'.
Proof.
  intros [E|[Ex Ey]] [E'|[Ex' Ey']]; subst.
  - by left.
  - by left.
  - by left.
  - right. by split.
Qed.

Lemma limits_agree_update (t : nat) (f : Axes -> Axes) (w v w1 v1 : World) :
  sets_same_limits f -> limits_agree t w v w1 v1 ->
  limits_agree t w v (put_axes t (f (axes_of w1 t)) w1) (put_axes t (f (axes_of v1 t)) v1).
Proof.
  intros Hf (Hx & Hy & Hz). unfold limits_agree. rewrite !axes_of_put_eq.
  destruct (Hf (axes_of w1 t) (axes_of v1 t)) as (Fx & Fy & Fz).
  split; [|split]; eapply same_or_kept_step; eassumption.
Qed.

(** One statement of a branch of [autoscale_arrows], run from two worlds. *)
Ltac agree_step H :=
  lazymatch goal with
  | |- post2 (lift ?o ≫= _) _ _ _ _ =>
      apply post2_bind; apply post2_lift; split; [reflexivity|];
      destruct o; [|repeat (split; [reflexivity|]); exact H]
  | |- post2 (update_axes ?t ?f ≫= _) _ _ _ _ =>
      apply post2_bind; apply post2_update; split; [reflexivity|]; cbv beta iota;
      apply (limits_agree_update t f _ _ _ _
               ltac:(intros ? ?; repeat split;
                     first [left; reflexivity|right; split; reflexivity])) in H
  | |- post2 (update_axes ?t ?f) _ _ _ _ =>
      apply post2_update; cbv beta iota;
      apply (limits_agree_update t f _ _ _ _
               ltac:(intros ? ?; repeat split;
                     first [left; reflexivity|right; split; reflexivity])) in H
  end.

(** The outcome of [autoscale_arrows] and the limits it sets depend on the
    arrows among the children of the axes only. *)
Lemma autoscale_arrows_determined (ax : option nat) (w v : World) :
  current v = current w ->
  arrows3D (axes_of v (target ax w)) = arrows3D (axes_of w (target ax w)) ->
  arrows2D (axes_of v (target ax w)) = arrows2D (axes_of w (target ax w)) ->
  post2 (autoscale_arrows ax) (autoscale_arrows ax) w v
    (fun o w' o' v' => o' = o /\ limits_agree (target ax w) w v w' v').
Proof.
  intros Hcur H3 H2. unfold arrows3D in H3. unfold arrows2D in H2.
  unfold autoscale_arrows.
  apply post2_bind.
  assert (Ht : forall Q : outcome nat -> World -> outcome nat -> World -> Prop,
             Q (Ret (target ax w)) w (Ret (target ax w)) v ->
             post2 (match ax with None => gca | Some a => mret a end)
                   (match ax with None => gca | Some a => mret a end) w v Q).
  { intros Q HQ. destruct ax; [exact HQ|].
    unfold post2, gca. simpl. rewrite Hcur. exact HQ. }
  apply Ht. clear Ht. split; [reflexivity|].
  apply post2_get_children. apply post2_get_children.
  cbv zeta. rewrite H3, H2.
  pose proof (limits_agree_refl (target ax w) w v) as H.
  destruct (nonempty (omap as_Arrow2D _) && nonempty (omap as_Arrow3D _)).
  { apply post2_bind. unfold post2. simpl. split; [reflexivity|].
    split; [reflexivity|exact H]. }
  apply post2_bind.
  destruct (nonempty (omap as_Arrow3D _)).
  - unfold set_xlim, set_ylim, set_zlim.
    do 16 agree_step H. split; [reflexivity|].
    apply post2_bind.
    destruct (nonempty (omap as_Arrow2D _)).
    + do 11 agree_step H. split; [reflexivity|].
      apply post2_ret. split; [reflexivity|exact H].
    + apply post2_ret. split; [reflexivity|].
      apply post2_ret. split; [reflexivity|exact H].
  - apply post2_ret. split; [reflexivity|]. apply post2_bind.
    destruct (nonempty (omap as_Arrow2D _)).
    + unfold set_xlim, set_ylim.
      do 11 agree_step H. split; [reflexivity|].
      apply post2_ret. split; [reflexivity|exact H].
    + apply post2_ret. split; [reflexivity|].
      apply post2_ret. split; [reflexivity|exact H].
Qed.

Lemma Axes_eq (a b : Axes) :
  children a = children b -> aspect a = aspect b ->
  xlim a = xlim b -> ylim a = ylim b -> zlim a = zlim b -> a = b.
Proof. destruct a, b. simpl. congruence. Qed.

(** What a call of [autoscale_arrows] keeps, for the call that follows. *)
Lemma autoscale_arrows_keeps (ax : option nat) (w : World) :
  current (snd (autoscale_arrows ax w)) = current w /\
  (forall ax', children (axes_of (snd (autoscale_arrows ax w)) ax') = children (axes_of w ax') /\
               aspect (axes_of (snd (autoscale_arrows ax w)) ax') = aspect (axes_of w ax')) /\
  (forall ax', ax' <> target ax w ->
               axes_of (snd (autoscale_arrows ax w)) ax' = axes_of w ax').
Proof.
  destruct (autoscale_arrows_limits_only ax w) as [((Hd & Hcur & _) & Hother & _)|[_ Hw]].
  - split; [exact Hcur|]. split; [exact Hd|exact Hother].
  - rewrite Hw. repeat split.
Qed.

(** X14: [autoscale_arrows] called a second time returns what the first
    call returned (also when that was an exception) and leaves every axes,
    limits included, exactly as the first call left it. *)
Theorem autoscale_arrows_idempotent (ax : option nat) (w : World) :
  fst (autoscale_arrows ax (snd (autoscale_arrows ax w))) = fst (autoscale_arrows ax w) /\
  forall ax',
    axes_of (snd (autoscale_arrows ax (snd (autoscale_arrows ax w)))) ax'
    = axes_of (snd (autoscale_arrows ax w)) ax'.
Proof.
  destruct (autoscale_arrows_keeps ax w) as (Hcur & Hd & Hother).
  assert (Ht : target ax (snd (autoscale_arrows ax w)) = target ax w)
    by (unfold target; by rewrite Hcur).
  destruct (autoscale_arrows_keeps ax (snd (autoscale_arrows ax w))) as (_ & Hd' & Hother').
  rewrite Ht in Hother'.
  destruct (autoscale_arrows_determined ax w (snd (autoscale_arrows ax w)) Hcur)
    as (Ho & Hx & Hy & Hz).
  { unfold arrows3D. by rewrite (proj1 (Hd (target ax w))). }
  { unfold arrows2D. by rewrite (proj1 (Hd (target ax w))). }
  split; [exact Ho|].
  intros ax'. destruct (decide (ax' = target ax w)) as [->|Hne]; [|by apply Hother'].
  apply Axes_eq.
  - apply Hd'.
  - apply Hd'.
  - destruct Hx as [E|[_ E]]; congruence.
  - destruct Hy as [E|[_ E]]; congruence.
  - destruct Hz as [E|[_ E]]; congruence.
Qed.

(** ** Planes that take no colour from the picker *)

(** Updating an axes leaves the picker alone. *)
Ltac quiet_step H := walk_step H ltac:(fun t f wc => idtac).

(** X15: a [plot_plane] that is given a colour, or a normal that has not
    three components, leaves the shared colour picker as it was, whatever
    its other arguments and its outcome: only a surface drawn without a
    colour of its own moves the cycle on. *)
Theorem plot_plane_keeps_picker (normal : list pyval) (d : pyval) (color : option string)
    (xrange yrange : list pyval) (w : World) :
  color <> None \/ length normal <> 3%nat ->
  instance (snd (plot_plane normal d color xrange yrange w)) = instance w.
Proof.
  intros Hquiet.
  change (post (plot_plane normal d color xrange yrange) w
            (fun _ w' => instance w' = instance w)).
  assert (H : instance w = instance w) by reflexivity.
  unfold plot_plane, set_aspect, add_artist.
  apply post_bind.
  destruct (length normal =? 3)%nat eqn:E3.
  - destruct color as [c|].
    + repeat quiet_step H.
      unfold meshgrid. repeat quiet_step H.
      destruct (length normal =? 2)%nat; repeat quiet_step H; exact H.
    + apply Nat.eqb_eq in E3. by destruct Hquiet.
  - apply post_ret.
    destruct (length normal =? 2)%nat; repeat quiet_step H; exact H.
Qed.

Lemma plot_plane_keeps_picker_witness :
  (Some "r" <> None \/ length [PyInt 0; PyInt 0; PyInt 1] <> 3%nat) /\
  instance (snd (plot_plane [PyInt 0; PyInt 0; PyInt 1] (PyInt 5) (Some "r")
                   default_range default_range empty_world))
  = instance empty_world.
Proof.
  split; [left; discriminate|].
  apply plot_plane_keeps_picker. left. discriminate.
Defined.

(** ** [plot_vecs] with a vector it cannot convert *)

(** [float()] of a number fails in one way only. *)
Lemma py_float_raise (v : pyval) (e : exn) : py_float v = Raise e -> e = OverflowError.
Proof. unfold py_float. destruct v; [destruct (is_infinity _)|]; congruence. Qed.

(** The components are converted before the origin is read and before the
    arrow is made. *)
Lemma plot_vec_unconvertible (vec at_ : list pyval) (color : string) (w : World) :
  supported vec = true -> ~ Forall floatable vec ->
  exists w',
    plot_vec vec at_ color w = (Raise OverflowError, w') /\
    children (cur_axes w') = children (cur_axes w) /\
    stdout w' = stdout w.
Proof.
  intros Hs Hnf. apply supported_length in Hs as [Hlen|Hlen].
  - destruct vec as [|v0 [|v1 [|? ?]]]; try discriminate Hlen.
    destruct (py_float v0) as [f0|e0] eqn:F0; [destruct (py_float v1) as [f1|e1] eqn:F1|].
    + exfalso. apply Hnf. repeat constructor; eexists; eassumption.
    + pose proof (py_float_raise _ _ F1) as ->.
      unfold plot_vec; cbn [length Nat.eqb]; run_M; rewrite F0, F1; cbn [obind].
      eexists; split; [reflexivity|].
      unfold cur_axes; cbn [current put_axes]; rewrite axes_of_put_eq. split; reflexivity.
    + pose proof (py_float_raise _ _ F0) as ->.
      unfold plot_vec; cbn [length Nat.eqb]; run_M; rewrite F0; cbn [obind].
      eexists; split; [reflexivity|].
      unfold cur_axes; cbn [current put_axes]; rewrite axes_of_put_eq. split; reflexivity.
  - destruct vec as [|v0 [|v1 [|v2 [|? ?]]]]; try discriminate Hlen.
    destruct (py_float v0) as [f0|e0] eqn:F0;
      [destruct (py_float v1) as [f1|e1] eqn:F1;
       [destruct (py_float v2) as [f2|e2] eqn:F2|]|].
    + exfalso. apply Hnf. repeat constructor; eexists; eassumption.
    + pose proof (py_float_raise _ _ F2) as ->.
      unfold plot_vec; cbn [length Nat.eqb]; run_M; rewrite F0, F1, F2; cbn [obind].
      eexists; split; [reflexivity|].
      unfold cur_axes; cbn [current put_axes]; rewrite axes_of_put_eq. split; reflexivity.
    + pose proof (py_float_raise _ _ F1) as ->.
      unfold plot_vec; cbn [length Nat.eqb]; run_M; rewrite F0, F1; cbn [obind].
      eexists; split; [reflexivity|].
      unfold cur_axes; cbn [current put_axes]; rewrite axes_of_put_eq. split; reflexivity.
    + pose proof (py_float_raise _ _ F0) as ->.
      unfold plot_vec; cbn [length Nat.eqb]; run_M; rewrite F0; cbn [obind].
      eexists; split; [reflexivity|].
      unfold cur_axes; cbn [current put_axes]; rewrite axes_of_put_eq. split; reflexivity.
Qed.

Lemma plot_vecs_from_stops (pre : list (list pyval)) :
  forall (i : nat) (vec : list pyval) (rest : list (list pyval)) (w : World),
    Forall (fun v => supported v = true -> Forall floatable v) pre ->
    supported vec = true -> ~ Forall floatable vec ->
    exists w1 w',
      plot_vecs_from i pre w = (Ret tt, w1) /\
      plot_vecs_from i (pre ++ vec :: rest) w = (Raise OverflowError, w') /\
      children (cur_axes w') = children (cur_axes w1) /\
      stdout w' = stdout w1.
Proof.
  induction pre as [|v pre IH]; intros i vec rest w Hall Hs Hnf.
  - destruct (VEC_COLORS_lookup i) as [c Hc].
    destruct (plot_vec_unconvertible vec default_at c w Hs Hnf) as (w' & E & Hch & Hout).
    exists w, w'. split; [reflexivity|]. split; [|split; assumption].
    cbn [app plot_vecs_from]. unfold lift, getitem. rewrite Hc.
    unfold mbind at 1, M_bind at 1. cbn beta iota.
    by apply bind_Raise.
  - inversion Hall as [|? ? Hv Hall']; subst.
    destruct (VEC_COLORS_lookup i) as [c Hc].
    assert (E1 : exists w0, plot_vec v default_at c w = (Ret tt, w0)).
    { destruct (supported v) eqn:Hsv.
      - destruct (floatable_floats v (Hv eq_refl)) as [fs Hfs].
        destruct (plot_vec_draws v c fs w (supported_length v Hsv) Hfs) as (? & w0 & E & _).
        by exists w0.
      - rewrite plot_vec_prints by exact Hsv. by eexists. }
    destruct E1 as [w0 E1].
    destruct (IH (S i) vec rest w0 Hall' Hs Hnf) as (w1 & w' & Epre & Eall & Hch & Hout).
    exists w1, w'. split; [|split; [|split; assumption]].
    + cbn [plot_vecs_from]. unfold lift, getitem. rewrite Hc.
      unfold mbind at 1, M_bind at 1. cbn beta iota.
      erewrite bind_Ret by exact E1. exact Epre.
    + cbn [app plot_vecs_from]. unfold lift, getitem. rewrite Hc.
      unfold mbind at 1, M_bind at 1. cbn beta iota.
      erewrite bind_Ret by exact E1. exact Eall.
Qed.

(** X16: [plot_vecs] stops at the first vector of length 2 or 3 that has a
    component [float()] rejects (an int too large for a float): it raises
    [OverflowError], and what is drawn and printed is what the vectors
    before it gave; neither that vector nor any vector after it leaves an
    arrow or a message. *)
Theorem plot_vecs_stops_at_failure (pre rest : list (list pyval)) (vec : list pyval)
    (w : World) :
  Forall (fun v => supported v = true -> Forall floatable v) pre ->
  supported vec = true ->
  ~ Forall floatable vec ->
  exists w1 w',
    plot_vecs pre w = (Ret tt, w1) /\
    plot_vecs (pre ++ vec :: rest) w = (Raise OverflowError, w') /\
    children (cur_axes w') = children (cur_axes w1) /\
    stdout w' = stdout w1.
Proof. intros Hall Hs Hnf. by apply plot_vecs_from_stops. Qed.

Lemma plot_vecs_stops_at_failure_witness :
  exists w1 w',
    plot_vecs [[PyInt 1; PyInt 2]] empty_world = (Ret tt, w1) /\
    plot_vecs [[PyInt 1; PyInt 2]; [PyInt (2 ^ 1024); PyInt 0]; [PyInt 3; PyInt 4]] empty_world
    = (Raise OverflowError, w') /\
    length (children (cur_axes w')) = 1%nat.
Proof.
  destruct (plot_vecs_stops_at_failure [[PyInt 1; PyInt 2]] [[PyInt 3; PyInt 4]]
              [PyInt (2 ^ 1024); PyInt 0] empty_world)
    as (w1 & w' & E1 & E & Hch & _).
  - repeat (constructor;
            [intros _; repeat (constructor; [eexists; vm_compute; reflexivity|]); constructor|]).
    constructor.
  - reflexivity.
  - intros Hfl. inversion Hfl as [|? ? [f Hf] _]; subst. vm_compute in Hf. discriminate Hf.
  - exists w1, w'. split; [exact E1|]. split; [exact E|].
    rewrite Hch. assert (Ew : w1 = snd (plot_vecs [[PyInt 1; PyInt 2]] empty_world))
      by (by rewrite E1).
    rewrite Ew. vm_compute. reflexivity.
Defined.

(** ** What [autoscale_arrows] looks at *)

Lemma autoscale_arrows_same_arrows (ax : option nat) (w v : World) :
  current v = current w ->
  arrows3D (axes_of v (target ax w)) = arrows3D (axes_of w (target ax w)) ->
  arrows2D (axes_of v (target ax w)) = arrows2D (axes_of w (target ax w)) ->
  xlim (axes_of v (target ax w)) = xlim (axes_of w (target ax w)) ->
  ylim (axes_of v (target ax w)) = ylim (axes_of w (target ax w)) ->
  zlim (axes_of v (target ax w)) = zlim (axes_of w (target ax w)) ->
  fst (autoscale_arrows ax v) = fst (autoscale_arrows ax w) /\
  xlim (axes_of (snd (autoscale_arrows ax v)) (target ax w))
  = xlim (axes_of (snd (autoscale_arrows ax w)) (target ax w)) /\
  ylim (axes_of (snd (autoscale_arrows ax v)) (target ax w))
  = ylim (axes_of (snd (autoscale_arrows ax w)) (target ax w)) /\
  zlim (axes_of (snd (autoscale_arrows ax v)) (target ax w))
  = zlim (axes_of (snd (autoscale_arrows ax w)) (target ax w)).
Proof.
  intros Hcur H3 H2 Ex Ey Ez.
  destruct (autoscale_arrows_determined ax w v Hcur H3 H2) as (Ho & Hx & Hy & Hz).
  split; [exact Ho|]. split; [|split].
  - destruct Hx as [E|[E E']]; congruence.
  - destruct Hy as [E|[E E']]; congruence.
  - destruct Hz as [E|[E E']]; congruence.
Qed.

(** X17: [autoscale_arrows] looks at the endpoints of the arrows only: on
    two axes that hold the same arrow endpoints in the same order and start
    from the same limits it returns the same (the same exception, if it
    raises) and leaves the same limits, whatever lines and surfaces the
    axes hold besides, and whatever the arrows' colours and the aspect. *)
Theorem autoscale_arrows_sees_arrows_only (ax : option nat) (w v : World) :
  current v = current w ->
  arrows3D (axes_of v (target ax w)) = arrows3D (axes_of w (target ax w)) ->
  arrows2D (axes_of v (target ax w)) = arrows2D (axes_of w (target ax w)) ->
  xlim (axes_of v (target ax w)) = xlim (axes_of w (target ax w)) ->
  ylim (axes_of v (target ax w)) = ylim (axes_of w (target ax w)) ->
  zlim (axes_of v (target ax w)) = zlim (axes_of w (target ax w)) ->
  fst (autoscale_arrows ax v) = fst (autoscale_arrows ax w) /\
  xlim (axes_of (snd (autoscale_arrows ax v)) (target ax w))
  = xlim (axes_of (snd (autoscale_arrows ax w)) (target ax w)) /\
  ylim (axes_of (snd (autoscale_arrows ax v)) (target ax w))
  = ylim (axes_of (snd (autoscale_arrows ax w)) (target ax w)) /\
  zlim (axes_of (snd (autoscale_arrows ax v)) (target ax w))
  = zlim (axes_of (snd (autoscale_arrows ax w)) (target ax w)).
Proof. apply autoscale_arrows_same_arrows. Qed.

Lemma autoscale_arrows_sees_arrows_only_witness :
  fst (autoscale_arrows None two_arrows_and_line_world)
  = fst (autoscale_arrows None two_arrows_world) /\
  xlim (axes_of (snd (autoscale_arrows None two_arrows_and_line_world)) 0)
  = xlim (axes_of (snd (autoscale_arrows None two_arrows_world)) 0) /\
  ylim (axes_of (snd (autoscale_arrows None two_arrows_and_line_world)) 0)
  = ylim (axes_of (snd (autoscale_arrows None two_arrows_world)) 0) /\
  zlim (axes_of (snd (autoscale_arrows None two_arrows_and_line_world)) 0)
  = zlim (axes_of (snd (autoscale_arrows None two_arrows_world)) 0).
Proof.
  apply (autoscale_arrows_sees_arrows_only None two_arrows_world two_arrows_and_line_world);
    vm_compute; reflexivity.
Defined.
